(** * datachart: a shallow embedding of [utils/attrs.py] and [utils/charts.py]

    The repository translates declarative chart descriptions into calls of a
    plotting backend.  The development below embeds the helper functions of
    [datachart/utils/attrs.py] (and of its older copy [src/utils/attrs.py])
    and the drawers of [src/utils/charts.py] as Rocq functions over a small
    universe of Python values, and proves the properties the specification
    states about them.

    Conventions.
    - Python [int] is [Z]; a [float] is a dyadic rational [mant * 2 ^ expo].
    - A [dict] used as a key-value store (a style mapping, the global
      configuration) is a [gmap string pyval]; a [dict] whose iteration
      order matters (a chart, the drawing configuration) is an association
      list in insertion order.
    - Code that may raise returns a [res]; code that calls the plotting
      backend or [warnings.warn] produces a trace of [event]s. *)

From Stdlib Require Import ZArith Lia List Bool Ascii.
From stdpp Require Import base option list gmap strings pretty sorting.

Local Open Scope Z_scope.

(** ** Python values and exceptions *)

Record float := mkFloat { mant : Z; expo : Z }.

#[warnings="-register-all"]
Inductive pyval : Type :=
| PNone
| PBool (b : bool)
| PInt (z : Z)
| PFloat (f : float)
| PStr (s : string)
| PList (l : list pyval)
| PDict (d : list (string * pyval)).

(** The exceptions of the modelled code; [ExternalError] stands for whatever
    else a library (numpy, the color cycle) may raise. *)
Inductive exn : Type :=
| KeyError (key : string)
| IndexError
| TypeError
| AttributeError
| ZeroDivisionError
| OverflowError
| AssertionError (msg : string)
| ExternalError (code : Z).

Inductive res (A : Type) : Type :=
| Ok (a : A)
| Raise (e : exn).
Arguments Ok {A} a.
Arguments Raise {A} e.

Definition res_bind {A B} (m : res A) (f : A -> res B) : res B :=
  match m with
  | Ok a => f a
  | Raise e => Raise e
  end.

Notation "x <-! m ; k" := (res_bind m (fun x => k))
  (at level 100, m at next level, right associativity, only parsing).

(** ** Integer true division and [math.ceil]

    [n_charts / max_cols] on two Python ints is the correctly rounded
    binary64 value of the exact quotient (round half to even, gradual
    underflow, [OverflowError] beyond the largest float), and [math.ceil]
    maps that float back to an int. *)

Module PyFloat.

(** [m * 2 ^ e <= n] over the rationals, for [e] of either sign. *)
Definition le_scaled (m e n : Z) : bool :=
  if 0 <=? e then m * 2 ^ e <=? n else m <=? n * 2 ^ (- e).

(** [floor (log2 (n / m))] for positive [n] and [m]. *)
Definition ilog2_quot (n m : Z) : Z :=
  let e0 := Z.log2 n - Z.log2 m in
  if le_scaled m e0 n then e0 else e0 - 1.

(** The integer nearest to [num / den], ties to the even one. *)
Definition round_half_even (num den : Z) : Z :=
  let q := num / den in
  let r := num mod den in
  if 2 * r <? den then q
  else if den <? 2 * r then q + 1
  else if Z.even q then q else q + 1.

(** The binary64 nearest to [n / m] for positive [n] and [m]: 53 significant
    bits, the last of weight [2 ^ lsb], never below [2 ^ -1074]. *)
Definition round_quotient (n m : Z) : float :=
  let lsb := Z.max (ilog2_quot n m) (-1022) - 52 in
  let M := if 0 <=? lsb then round_half_even n (m * 2 ^ lsb)
           else round_half_even (n * 2 ^ (- lsb)) m in
  mkFloat M lsb.

Definition overflows (f : float) : bool :=
  (0 <=? expo f) && (2 ^ 1024 <=? mant f * 2 ^ expo f).

(** [n / m] *)
Definition py_truediv (n m : Z) : res float :=
  if m =? 0 then Raise ZeroDivisionError
  else if n =? 0 then Ok (mkFloat 0 0)
  else
    let f := round_quotient (Z.abs n) (Z.abs m) in
    if overflows f then Raise OverflowError
    else Ok (mkFloat (Z.sgn n * Z.sgn m * mant f) (expo f)).

(** [math.ceil(f)] *)
Definition py_ceil (f : float) : Z :=
  if 0 <=? expo f then mant f * 2 ^ expo f
  else - ((- mant f) / 2 ^ (- expo f)).

(** The exact ceiling of [n / m], for comparison. *)
Definition ceil_div (n m : Z) : Z := - ((- n) / m).

End PyFloat.

(** ** Mappings

    [dict] is a Python dict with string keys in insertion order (keys are
    pairwise distinct in every dict Python can build); [d.get(k, v)] and
    [d[k]] are [dict_get] and [dict_getitem].  Style mappings and the global
    configuration are only ever queried by key and are kept as [gmap]s. *)

Definition dict := list (string * pyval).

Fixpoint dict_lookup (k : string) (d : dict) : option pyval :=
  match d with
  | [] => None
  | (k', v) :: d' => if String.eqb k' k then Some v else dict_lookup k d'
  end.

Definition dict_get (d : dict) (k : string) (dflt : pyval) : pyval :=
  default dflt (dict_lookup k d).

Definition dict_getitem (d : dict) (k : string) : res pyval :=
  match dict_lookup k d with
  | Some v => Ok v
  | None => Raise (KeyError k)
  end.

Definition map_getitem (m : gmap string pyval) (k : string) : res pyval :=
  match m !! k with
  | Some v => Ok v
  | None => Raise (KeyError k)
  end.

Definition map_get (m : gmap string pyval) (k : string) (dflt : pyval) : pyval :=
  default dflt (m !! k).

Definition has_key (m : gmap string pyval) (k : string) : bool :=
  match m !! k with Some _ => true | None => false end.

Definition is_none (v : pyval) : bool :=
  match v with PNone => true | _ => false end.

(** [bool(v)] *)
Definition truthy (v : pyval) : bool :=
  match v with
  | PNone => false
  | PBool b => b
  | PInt z => negb (z =? 0)
  | PFloat f => negb (mant f =? 0)
  | PStr s => negb (String.eqb s EmptyString)
  | PList l => match l with [] => false | _ => true end
  | PDict d => match d with [] => false | _ => true end
  end.

(** [len(v)] *)
Definition py_len (v : pyval) : res Z :=
  match v with
  | PStr s => Ok (Z.of_nat (String.length s))
  | PList l => Ok (Z.of_nat (length l))
  | PDict d => Ok (Z.of_nat (length d))
  | _ => Raise TypeError
  end.

(** [obj.get] exists on a dict only. *)
Definition as_mapping (v : pyval) : res (gmap string pyval) :=
  match v with
  | PDict d => Ok (list_to_map d)
  | _ => Raise AttributeError
  end.

Fixpoint res_mapM {A B} (f : A -> res B) (l : list A) : res (list B) :=
  match l with
  | [] => Ok []
  | a :: l' => b <-! f a; bs <-! res_mapM f l'; Ok (b :: bs)
  end.

(** ** The global configuration

    The module [config], with the class [Config] and the process-wide object
    [config], is not among the sources.  Functions that read the global
    object take its content as their first argument, [cfg]. *)

(** Modelled from the spec: [config[k]].  The spec describes the global
    configuration as a key-value store queried by exact key, and a lookup
    that misses as a missing-key error. *)
Definition config_getitem (cfg : gmap string pyval) (k : string) : res pyval :=
  map_getitem cfg k.

(** Modelled from the spec: [config.get(k, d)], the lookup with a default of
    a key-value store, [None] when no default is given. *)
Definition config_get (cfg : gmap string pyval) (k : string) (dflt : pyval)
  : pyval :=
  map_get cfg k dflt.

(** ** Attribute resolver ([get_attr_value]) *)

(** The third argument: the configuration object, or a Python value (a
    dict, a bool, a number, a string, [None]). *)
Inductive attr_default : Type :=
| ConfigDefault (cfg : gmap string pyval)
| ValueDefault (v : pyval).

Definition get_attr_value (attr : string) (obj : gmap string pyval)
    (dflt : attr_default) : res pyval :=
  match dflt with
  | ConfigDefault cfg =>
      dv <-! config_getitem cfg attr;
      Ok (map_get obj attr dv)
  | ValueDefault (PDict d) =>
      dv <-! dict_getitem d attr;
      Ok (map_get obj attr dv)
  | ValueDefault v => Ok (map_get obj attr v)
  end.

(** ** Style builders *)

(** The dict comprehension of [create_config_dict]: the filter is evaluated
    first, then the value, and a later pair overwrites an earlier one with
    the same argument name. *)
Fixpoint create_config_dict_from (cfg styles : gmap string pyval)
    (attrs : list (string * string)) (acc : gmap string pyval)
  : res (gmap string pyval) :=
  match attrs with
  | [] => Ok acc
  | (key, attr) :: rest =>
      c <-! get_attr_value attr styles (ConfigDefault cfg);
      if is_none c then create_config_dict_from cfg styles rest acc
      else
        v <-! get_attr_value attr styles (ConfigDefault cfg);
        create_config_dict_from cfg styles rest (<[key := v]> acc)
  end.

Definition create_config_dict (cfg styles : gmap string pyval)
    (attrs : list (string * string)) : res (gmap string pyval) :=
  create_config_dict_from cfg styles attrs ∅.

Definition line_attrs : list (string * string) :=
  [ ("color", "plot.line.color");
    ("alpha", "plot.line.alpha");
    ("linewidth", "plot.line.width");
    ("linestyle", "plot.line.style");
    ("marker", "plot.line.marker");
    ("drawstyle", "plot.line.drawstyle");
    ("zorder", "plot.line.zorder") ].

Definition bar_attrs (is_horizontal : bool) : list (string * string) :=
  [ ("color", "plot.bar.color");
    ("alpha", "plot.bar.alpha");
    (if is_horizontal then "height" else "width", "plot.bar.width");
    ("hatch", "plot.bar.hatch");
    ("linewidth", "plot.bar.edge.width");
    ("edgecolor", "plot.bar.edge.color");
    ("ecolor", "plot.bar.error.color");
    ("zorder", "plot.bar.zorder") ].

Definition hist_attrs : list (string * string) :=
  [ ("color", "plot.hist.color");
    ("alpha", "plot.hist.alpha");
    ("fill", "plot.hist.fill");
    ("hatch", "plot.hist.hatch");
    ("zorder", "plot.hist.zorder");
    ("histtype", "plot.hist.type");
    ("align", "plot.hist.align");
    ("linewidth", "plot.hist.edge.width");
    ("edgecolor", "plot.hist.edge.color") ].

Definition grid_attrs : list (string * string) :=
  [ ("alpha", "plot.grid.alpha");
    ("color", "plot.grid.color");
    ("linewidth", "plot.grid.line.width");
    ("linestyle", "plot.grid.line.style");
    ("zorder", "plot.grid.zorder") ].

(** The five text attributes; [suffix] stands for the part of the template
    ["font.{type}" ++ suffix] after the placeholder. *)
Definition text_attrs : list (string * string) :=
  [ ("fontsize", ".size");
    ("fontweight", ".weight");
    ("color", ".color");
    ("style", ".style");
    ("family", ".family") ].

(** ["font.{type}.size".format(type=text_type)] and its siblings. *)
Definition format_font (suffix text_type : string) : string :=
  "font." +:+ text_type +:+ suffix.

Definition get_line_style (cfg chart_style : gmap string pyval) :=
  create_config_dict cfg chart_style line_attrs.

Definition get_bar_style (cfg chart_style : gmap string pyval)
    (is_horizontal : bool) :=
  create_config_dict cfg chart_style (bar_attrs is_horizontal).

Definition get_hist_style (cfg chart_style : gmap string pyval) :=
  create_config_dict cfg chart_style hist_attrs.

Definition get_grid_style (cfg chart_style : gmap string pyval) :=
  create_config_dict cfg chart_style grid_attrs.

(** [get_text_style]: a comprehension of its own, with no filter. *)
Definition get_text_style (cfg : gmap string pyval) (text_type : string)
  : gmap string pyval :=
  foldl
    (fun acc '(key, suffix) =>
       <[key := config_get cfg (format_font suffix text_type)
                  (config_get cfg (format_font suffix "general") PNone)]> acc)
    ∅ text_attrs.

(** ** The two copies of [attrs.py]

    [src/utils/attrs.py] and [datachart/utils/attrs.py] agree on everything
    above; they differ in the subplot layout calculator (the newer copy
    asserts its preconditions) and in the configuration paths of the area and
    legend builders. *)

Record subplot_config := mkSubplots { nrows : Z; ncols : Z }.

(** [src/utils/attrs.py] *)
Module SrcAttrs.

Definition get_subplot_config (subplots : bool) (n_charts max_cols : Z)
  : res subplot_config :=
  if subplots then
    q <-! PyFloat.py_truediv n_charts max_cols;
    let nrows := PyFloat.py_ceil q in
    let ncols := if max_cols <=? n_charts then max_cols
                 else n_charts mod max_cols in
    Ok (mkSubplots nrows ncols)
  else Ok (mkSubplots 1 1).

Definition area_attrs : list (string * string) :=
  [ ("alpha", "plot.area.alpha");
    ("color", "plot.area.color");
    ("linewidth", "plot.area.linewidth");
    ("hatch", "plot.area.hatch");
    ("zorder", "plot.area.zorder") ].

Definition legend_attrs : list (string * string) :=
  [ ("shadow", "plot.legend.shadow");
    ("frameon", "plot.legend.frameon");
    ("fontsize", "plot.legend.fontsize");
    ("alignment", "plot.legend.alignment");
    ("title_fontsize", "plot.legend.title.fontsize");
    ("labelcolor", "plot.legend.label.color") ].

Definition get_area_style (cfg chart_style : gmap string pyval) :=
  create_config_dict cfg chart_style area_attrs.

Definition get_legend_style (cfg : gmap string pyval) :=
  create_config_dict cfg ∅ legend_attrs.

End SrcAttrs.

(** [datachart/utils/attrs.py]: the layout computation stands behind two
    assertions, made only when [subplots] holds. *)
Module DatachartAttrs.

Definition get_subplot_config (subplots : bool) (n_charts max_cols : Z)
  : res subplot_config :=
  if subplots then
    if negb (0 <? n_charts) then
      Raise (AssertionError "The number of charts must be greater than 0.")
    else if negb (0 <? max_cols) then
      Raise (AssertionError "The maximum number of columns must be greater than 0.")
    else
      q <-! PyFloat.py_truediv n_charts max_cols;
      let nrows := PyFloat.py_ceil q in
      let ncols := if max_cols <=? n_charts then max_cols
                   else n_charts mod max_cols in
      Ok (mkSubplots nrows ncols)
  else Ok (mkSubplots 1 1).

Definition area_attrs : list (string * string) :=
  [ ("alpha", "plot.area.alpha");
    ("color", "plot.area.color");
    ("linewidth", "plot.area.line.width");
    ("hatch", "plot.area.hatch");
    ("zorder", "plot.area.zorder") ].

Definition legend_attrs : list (string * string) :=
  [ ("shadow", "plot.legend.shadow");
    ("frameon", "plot.legend.frameon");
    ("fontsize", "plot.legend.font.size");
    ("alignment", "plot.legend.alignment");
    ("title_fontsize", "plot.legend.title.size");
    ("labelcolor", "plot.legend.label.color") ].

Definition get_area_style (cfg chart_style : gmap string pyval) :=
  create_config_dict cfg chart_style area_attrs.

Definition get_legend_style (cfg : gmap string pyval) :=
  create_config_dict cfg ∅ legend_attrs.

End DatachartAttrs.

(** ** Effects: warnings and backend calls

    A plot area is named by its position in the figure's grid.  The backend
    is an external collaborator: a call to it is recorded, with its
    arguments, and taken to return. *)

Record ndarray := NdArray { nd_items : list pyval }.

(** What [get_chart_data] returns: a value of the chart as it is (also
    [None]), or a fresh array. *)
Inductive npval : Type :=
| Raw (v : pyval)
| Arr (a : ndarray).

Inductive hist_data : Type :=
| AllSeries (xs : list npval)
| OneSeries (x : npval).

Inductive event : Type :=
| Warn (msg : string)
| SetXTicks (ax : nat) (ticks : pyval) (labels : option pyval)
| SetYTicks (ax : nat) (ticks : pyval) (labels : option pyval)
| Hist (ax : nat) (x : hist_data) (bins : ndarray)
       (density cumulative : option npval) (orientation : pyval)
       (stacked : bool) (kwargs : gmap string pyval)
| Grid (ax : nat) (axis : pyval) (kwargs : gmap string pyval).

(** A computation that emits events and may raise: the events emitted before
    an exception stay emitted. *)
Definition M (A : Type) : Type := (list event * res A)%type.

Definition ret {A} (a : A) : M A := ([], Ok a).

Definition bind {A B} (m : M A) (f : A -> M B) : M B :=
  match m with
  | (t, Ok a) => let '(t', r) := f a in (t ++ t', r)
  | (t, Raise e) => (t, Raise e)
  end.

Definition emit (e : event) : M unit := ([e], Ok tt).

Definition lift {A} (r : res A) : M A := ([], r).

Definition trace {A} (m : M A) : list event := fst m.

Definition outcome {A} (m : M A) : res A := snd m.

Notation "x <~ m ; k" := (bind m (fun x => k))
  (at level 100, m at next level, right associativity, only parsing).
Notation "m ;; k" := (bind m (fun _ => k))
  (at level 100, right associativity, only parsing).

Fixpoint for_each {A} (l : list A) (body : A -> M unit) : M unit :=
  match l with
  | [] => ret tt
  | a :: l' => body a ;; for_each l' body
  end.

(** A loop that threads a state through its iterations. *)
Fixpoint for_each_with {A S} (l : list A) (s : S) (body : S -> A -> M S)
  : M S :=
  match l with
  | [] => ret s
  | a :: l' => s' <~ body s a; for_each_with l' s' body
  end.

(** ** Tick positions ([configure_axis_ticks_position]) *)

Definition tick_attrs : list (string * string * string) :=
  [ ("xticks", "xticklabels", "xaxis");
    ("yticks", "yticklabels", "yaxis") ].

Definition ticks_unspecified_msg (a0 a1 : string) : string :=
  "The attribute `" +:+ a0 +:+ "` is not specified but `" +:+ a1 +:+ "` is. "
  +:+ "Please provide the `" +:+ a0 +:+ "` values.".

Definition ticks_length_msg (a0 a1 : string) : string :=
  "The values of `" +:+ a0 +:+ "` and `" +:+ a1 +:+ "` are of different lengths. "
  +:+ "Please provide the same number of values. Ignoring `" +:+ a1
  +:+ "` values...".

(** [func(ticks)] and [func(ticks, labels=ticklabels)] *)
Definition set_ticks (ax : nat) (axis : string) (ticks : pyval)
    (labels : option pyval) : M unit :=
  if String.eqb axis "xaxis" then emit (SetXTicks ax ticks labels)
  else emit (SetYTicks ax ticks labels).

(** One iteration of the loop over [tick_attrs]. *)
Definition configure_ticks_of (ax : nat) (chart : gmap string pyval)
    (attrs : string * string * string) : M unit :=
  let '(a0, a1, a2) := attrs in
  let ticks := map_get chart a0 PNone in
  let ticklabels := map_get chart a1 PNone in
  if is_none ticks && negb (is_none ticklabels) then
    emit (Warn (ticks_unspecified_msg a0 a1))
  else if negb (is_none ticks) then
    if is_none ticklabels then set_ticks ax a2 ticks None
    else
      n <~ lift (py_len ticks);
      k <~ lift (py_len ticklabels);
      if negb (n =? k) then
        emit (Warn (ticks_length_msg a0 a1)) ;;
        set_ticks ax a2 ticks None
      else set_ticks ax a2 ticks (Some ticklabels)
  else ret tt.

Definition configure_axis_ticks_position (ax : nat)
    (chart : gmap string pyval) : M unit :=
  for_each tick_attrs (configure_ticks_of ax chart).

(** ** The drawing-config check ([assert_chart_config]) *)

Definition unsupported_msg (key : string) : string :=
  "Warning: chart_config['" +:+ key
  +:+ "'] is present but is not supported. Ignoring flag...".

Definition assert_chart_config (chart_config : dict)
    (supported_chart_config : list string) : M unit :=
  for_each chart_config
    (fun '(key, val) =>
       if negb (bool_decide (key ∈ supported_chart_config)) && truthy val
       then emit (Warn (unsupported_msg key))
       else ret tt).

Inductive drawer : Type := LineChart | BarChart | HistChart.

(** The supported keys each drawer passes to the check. *)
Definition supported_chart_config (d : drawer) : list string :=
  match d with
  | LineChart => ["as_subplots"; "grid"; "yerr"; "area"]
  | BarChart => ["as_subplots"; "grid"; "yerr"; "orientation"]
  | HistChart => ["as_subplots"; "grid"; "n_bins"; "orientation"]
  end.

(** ** Builtins and libraries the drawers call

    [hash] of a string is fixed within one process and differs between
    processes; [json]'s string and float encoders, numpy and the color
    cycle of [utils.colors] (which is not among the sources) are taken as
    they are.  The cycle object is subscripted by the drawers,
    [color_cycle[chart_hash]]; its subscript is given in state-passing form,
    so that a plain table lookup and a lookup that memoises (a [defaultdict]
    over an iterator) are both instances. *)

Class PyRuntime : Type := {
  py_hash : string -> Z;
  json_encode_str : string -> string;
  json_float_repr : float -> string;
  cycle : Type;
  create_color_cycle : pyval -> Z -> res cycle;
  cycle_getitem : cycle -> Z -> res (gmap string pyval * cycle);
  np_array : list pyval -> res ndarray;
  np_hstack : list npval -> res ndarray;
  np_histogram : ndarray -> pyval -> res (ndarray * ndarray);
}.

(** ** [json.dumps(chart, sort_keys=True)]

    The encoder sorts the items of every dict by key before it writes them.
    Keys of one dict are distinct, so the order of the sorted items depends
    on the keys alone; the model renders the values first and sorts the
    rendered items, which keeps the recursion structural. *)

Definition key_le (p q : string * string) : Prop :=
  String.le p.1 q.1.

Global Instance key_le_dec : RelDecision key_le.
Proof. intros p q. unfold key_le. apply _. Defined.

Global Instance key_le_trans : Transitive key_le.
Proof. intros p q r. unfold key_le. apply transitivity. Qed.

Global Instance key_le_total : Total key_le.
Proof. intros p q. unfold key_le. apply total, _. Qed.

Definition sort_items (items : list (string * string))
  : list (string * string) :=
  merge_sort key_le items.

Section ChartHelpers.
Context `{PyRuntime}.

Definition render_item (item : string * string) : string :=
  json_encode_str item.1 +:+ ": " +:+ item.2.

Fixpoint json_dumps (v : pyval) : string :=
  match v with
  | PNone => "null"
  | PBool true => "true"
  | PBool false => "false"
  | PInt z => pretty z
  | PFloat f => json_float_repr f
  | PStr s => json_encode_str s
  | PList l => "[" +:+ String.concat ", " (map json_dumps l) +:+ "]"
  | PDict d =>
      "{" +:+
      String.concat ", "
        (map render_item
           (sort_items
              (map (fun kv => match kv with (k, x) => (k, json_dumps x) end) d)))
      +:+ "}"
  end.

(** [hash(json.dumps(chart, sort_keys=True))] *)
Definition chart_hash (chart : dict) : Z :=
  py_hash (json_dumps (PDict chart)).

(** ** Color cycle ([custom_color_cycle]) *)

Definition custom_color_cycle (cfg : gmap string pyval) (as_subplots : pyval)
    (n_charts : Z) : res cycle :=
  color_name <-! (if truthy as_subplots
                  then config_getitem cfg "color.general.singular"
                  else config_getitem cfg "color.general.multiple");
  let max_colors := if truthy as_subplots then 1 else n_charts in
  create_color_cycle color_name max_colors.

(** The subscripts [color_cycle[key]] of one draw call, in order. *)
Fixpoint cycle_lookups (cyc : cycle) (keys : list Z)
  : res (list (gmap string pyval)) :=
  match keys with
  | [] => Ok []
  | key :: keys' =>
      r <-! cycle_getitem cyc key;
      rest <-! cycle_lookups r.2 keys';
      Ok (r.1 :: rest)
  end.

(** The series a drawer takes a color for: those of [zip(charts, axes)],
    and every series for the stacked histogram of shared-axis mode. *)
Definition colored_series (d : drawer) (as_subplots : pyval)
    (axes : list nat) (charts : list dict) : list dict :=
  match d with
  | HistChart =>
      if negb (truthy as_subplots) then charts else (zip charts axes).*1
  | LineChart | BarChart => (zip charts axes).*1
  end.

(** The line drawer subscripts the cycle twice per series (line and area
    configuration), the bar and histogram drawers once. *)
Definition cycle_keys (d : drawer) (series : list dict) : list Z :=
  match d with
  | LineChart => flat_map (fun c => [chart_hash c; chart_hash c]) series
  | BarChart | HistChart => map chart_hash series
  end.

(** The colors a drawer that runs to its end takes from the cycle:
    [custom_color_cycle(chart_config["as_subplots"], n_charts=len(charts))]
    and then the subscripts [color_cycle[chart_hash]], in the order of the
    series. *)
Definition color_assignment (d : drawer) (cfg : gmap string pyval)
    (as_subplots : pyval) (axes : list nat) (charts : list dict)
  : res (list (gmap string pyval)) :=
  cyc <-! custom_color_cycle cfg as_subplots (Z.of_nat (length charts));
  cycle_lookups cyc (cycle_keys d (colored_series d as_subplots axes charts)).

(** ** Chart data ([get_chart_data])

    The entries of a [data] list are tested and subscripted as they come,
    [attr_label in d] and [d[attr_label]], whatever their type is. *)

(** [sub in s] for two strings. *)
Fixpoint str_contains (sub s : string) : bool :=
  String.prefix sub s
  || match s with
     | EmptyString => false
     | String _ s' => str_contains sub s'
     end.

(** The numbers among the values, as [m * 2 ^ e]: a [bool] is the int 0
    or 1. *)
Definition py_number (v : pyval) : option (Z * Z) :=
  match v with
  | PBool b => Some (if b then 1 else 0, 0)
  | PInt z => Some (z, 0)
  | PFloat f => Some (mant f, expo f)
  | _ => None
  end.

Definition number_eqb (x y : Z * Z) : bool :=
  let e := Z.min x.2 y.2 in
  x.1 * 2 ^ (x.2 - e) =? y.1 * 2 ^ (y.2 - e).

(** [a == b]: numbers by value across [bool], [int] and [float], strings
    and lists by content, dicts as mappings whatever the order of their
    items, [None] only with itself. *)
Fixpoint py_eq (a b : pyval) {struct a} : bool :=
  match a, b with
  | PNone, PNone => true
  | PStr s, PStr t => String.eqb s t
  | PList l, PList l' =>
      (fix all_eq (xs ys : list pyval) {struct xs} : bool :=
         match xs, ys with
         | [], [] => true
         | x :: xs', y :: ys' => py_eq x y && all_eq xs' ys'
         | _, _ => false
         end) l l'
  | PDict d, PDict d' =>
      (length d =? length d')%nat
      && (fix all_in (items : list (string * pyval)) {struct items} : bool :=
            match items with
            | [] => true
            | (k, v) :: items' =>
                match dict_lookup k d' with
                | Some v' => py_eq v v'
                | None => false
                end && all_in items'
            end) d
  | _, _ =>
      match py_number a, py_number b with
      | Some x, Some y => number_eqb x y
      | _, _ => false
      end
  end.

(** [key in d], for a dict with string keys. *)
Definition py_in_dict (key : pyval) (d : dict) : res bool :=
  match key with
  | PStr s => Ok (match dict_lookup s d with Some _ => true | None => false end)
  | PList _ | PDict _ => Raise TypeError
  | _ => Ok false
  end.

(** [d[key]], reached only after [key in d]. *)
Definition py_getitem_dict (d : dict) (key : pyval) : res pyval :=
  match key with
  | PStr s => dict_getitem d s
  | _ => Raise TypeError
  end.

(** [key in v]: a key test on a dict, membership by [==] on a list, a
    substring test on a string (of a string only); other values are not
    containers. *)
Definition py_in (key v : pyval) : res bool :=
  match v with
  | PDict d => py_in_dict key d
  | PList l => Ok (existsb (py_eq key) l)
  | PStr s =>
      match key with
      | PStr t => Ok (str_contains t s)
      | _ => Raise TypeError
      end
  | _ => Raise TypeError
  end.

(** The position an index of a sequence of length [n] stands for: an int
    (a [bool] is one), counted from the end when negative. *)
Definition py_index (key : pyval) (n : nat) : res nat :=
  match key with
  | PInt _ | PBool _ =>
      let i := match key with
               | PInt z => z
               | PBool true => 1
               | _ => 0
               end in
      let j := if i <? 0 then i + Z.of_nat n else i in
      if (0 <=? j) && (j <? Z.of_nat n) then Ok (Z.to_nat j)
      else Raise IndexError
  | _ => Raise TypeError
  end.

(** [v[key]] *)
Definition py_getitem (v key : pyval) : res pyval :=
  match v with
  | PDict d => py_getitem_dict d key
  | PList l =>
      i <-! py_index key (length l);
      match l !! i with
      | Some x => Ok x
      | None => Raise IndexError
      end
  | PStr s =>
      i <-! py_index key (String.length s);
      match String.get i s with
      | Some c => Ok (PStr (String c EmptyString))
      | None => Raise IndexError
      end
  | _ => Raise TypeError
  end.

(** [[d[attr_label] for d in points if attr_label in d]] *)
Fixpoint collect_points (attr_label : pyval) (points : list pyval)
  : res (list pyval) :=
  match points with
  | [] => Ok []
  | d :: rest =>
      b <-! py_in attr_label d;
      if b then
        v <-! py_getitem d attr_label;
        vs <-! collect_points attr_label rest;
        Ok (v :: vs)
      else collect_points attr_label rest
  end.

Definition get_chart_data (attr : string) (chart : dict) : res npval :=
  attr_label <-! get_attr_value attr (list_to_map chart)
                   (ValueDefault (PStr attr));
  data <-! dict_getitem chart "data";
  match data with
  | PDict d =>
      b <-! py_in_dict attr_label d;
      if b then v <-! py_getitem_dict d attr_label; Ok (Raw v)
      else Ok (Raw PNone)
  | PList points =>
      vs <-! collect_points attr_label points;
      a <-! np_array vs;
      if 0 <? Z.of_nat (length (nd_items a)) then Ok (Arr a)
      else Ok (Raw PNone)
  | _ => Ok (Raw PNone)
  end.

End ChartHelpers.

(** ** The histogram drawer ([draw_hist_chart]) *)

(** [l[0]] *)
Definition list_first {A} (l : list A) : res A :=
  match l with
  | [] => Raise IndexError
  | a :: _ => Ok a
  end.

(** A keyword given by name and again through [**kwargs] is a [TypeError]. *)
Definition kwargs_clash (names : list string) (kwargs : gmap string pyval)
  : bool :=
  existsb (has_key kwargs) names.

(** [axes[0].hist(x_all, bins=, orientation=, stacked=, **hist_config)] and
    [ax.hist(x, bins=, density=, cumulative=, orientation=, stacked=,
    **hist_config)] *)
Definition call_hist (ax : nat) (x : hist_data) (bins : ndarray)
    (density cumulative : option npval) (orientation : pyval)
    (stacked : bool) (kwargs : gmap string pyval) : M unit :=
  let named :=
    match density with
    | Some _ => ["x"; "bins"; "density"; "cumulative"; "orientation"; "stacked"]
    | None => ["x"; "bins"; "orientation"; "stacked"]
    end in
  if kwargs_clash named kwargs then lift (Raise TypeError)
  else emit (Hist ax x bins density cumulative orientation stacked kwargs).

(** [ax.grid(axis=, **grid_config)] *)
Definition call_grid (ax : nat) (axis : pyval) (kwargs : gmap string pyval)
  : M unit :=
  if kwargs_clash ["axis"] kwargs then lift (Raise TypeError)
  else emit (Grid ax axis kwargs).

(** The drawing configuration [chart_wrapper] hands to a drawer: all six
    keys, each with the caller's value or its default. *)
Definition wrapper_chart_config (attrs : dict) : dict :=
  [ ("as_subplots", dict_get attrs "as_subplots" (PBool false));
    ("grid", dict_get attrs "show_grid" PNone);
    ("yerr", dict_get attrs "show_yerr" PNone);
    ("area", dict_get attrs "show_area" PNone);
    ("orientation", dict_get attrs "orientation" PNone);
    ("n_bins", dict_get attrs "n_bins" PNone) ].

Section Drawers.
Context `{PyRuntime}.

(** [charts.py] imports [get_line_config], [get_area_config],
    [get_hist_config], [get_bar_config], [get_grid_config] and
    [get_text_config] from [utils.attrs]; neither copy of [attrs.py] defines
    a function of these names.  The spec has the drawers resolve a series'
    style through the style builders, which the two copies name
    [get_line_style], [get_area_style], ...: each missing function is taken
    as the builder of its kind ([get_grid_config] as [get_grid_style] and
    [get_text_config(config, attr)] as [get_text_style(attr)] where the
    drawers call them), applied to whatever the drawer passes. *)

(** Modelled from the spec: [get_line_config(style)], missing from
    [attrs.py], as the line style builder. *)
Definition get_line_config (cfg : gmap string pyval) (style : pyval)
  : res (gmap string pyval) :=
  s <-! as_mapping style;
  get_line_style cfg s.

(** Modelled from the spec: [get_area_config(style)], missing from
    [attrs.py], as the area style builder. *)
Definition get_area_config (cfg : gmap string pyval) (style : pyval)
  : res (gmap string pyval) :=
  s <-! as_mapping style;
  SrcAttrs.get_area_style cfg s.

(** [draw_line_chart]: the style, the hash and the line and area
    configurations of one series,
    [{**color_cycle[chart_hash], **get_line_config(style)}] and
    [{**color_cycle[chart_hash], **get_area_config(style)}]. *)
Definition resolve_line_config (cfg : gmap string pyval) (cyc : cycle)
    (chart : dict)
  : res (gmap string pyval * gmap string pyval * cycle) :=
  let style := dict_get chart "style" (PDict []) in
  let chart_hash := chart_hash chart in
  r1 <-! cycle_getitem cyc chart_hash;
  ls <-! get_line_config cfg style;
  r2 <-! cycle_getitem r1.2 chart_hash;
  ars <-! get_area_config cfg style;
  Ok (ls ∪ r1.1, ars ∪ r2.1, r2.2).

(** Modelled from the spec: [get_hist_config(style)], missing from
    [attrs.py], as the histogram style builder. *)
Definition get_hist_config (cfg : gmap string pyval) (style : pyval)
  : res (gmap string pyval) :=
  s <-! as_mapping style;
  get_hist_style cfg s.

(** [{**color_cycle[hash(json.dumps(chart, sort_keys=True))],
      **get_hist_config(chart.get("style", {}))}] *)
Definition resolve_hist_config (cfg : gmap string pyval) (cyc : cycle)
    (chart : dict) : res (gmap string pyval * cycle) :=
  r <-! cycle_getitem cyc (chart_hash chart);
  hs <-! get_hist_config cfg (dict_get chart "style" (PDict []));
  Ok (hs ∪ r.1, r.2).

Fixpoint resolve_hist_configs (cfg : gmap string pyval) (cyc : cycle)
    (charts : list dict) : res (list (gmap string pyval) * cycle) :=
  match charts with
  | [] => Ok ([], cyc)
  | chart :: rest =>
      r <-! resolve_hist_config cfg cyc chart;
      rs <-! resolve_hist_configs cfg r.2 rest;
      Ok (r.1 :: rs.1, rs.2)
  end.

(** The bin edges: [np.histogram(np.hstack(tuple(x_all)), bins=n_bins)[1]]. *)
Definition shared_bins (x_all : list npval) (n_bins : pyval) : res ndarray :=
  stacked <-! np_hstack x_all;
  h <-! np_histogram stacked n_bins;
  Ok h.2.

(** The keyword arguments of the single call in shared-axis mode. *)
Definition stacked_hist_config (hist_config : list (gmap string pyval))
  : res (gmap string pyval) :=
  color <-! res_mapM (fun c => map_getitem c "color") hist_config;
  first <-! list_first hist_config;
  Ok (<["color" := if existsb is_none color then PNone else PList color]>
        first).

(** The body of the loop over [zip(charts, axes)] in subplot mode. *)
Definition draw_hist_subplot (cfg : gmap string pyval) (chart_config : dict)
    (bins : ndarray) (orientation : pyval) (cyc : cycle)
    (item : dict * nat) : M cycle :=
  let '(chart, ax) := item in
  x <~ lift (get_chart_data "x" chart);
  density <~ lift (get_chart_data "density" chart);
  cumulative <~ lift (get_chart_data "cumulative" chart);
  r <~ lift (resolve_hist_config cfg cyc chart);
  as_subplots <~ lift (dict_getitem chart_config "as_subplots");
  call_hist ax (OneSeries x) bins (Some density) (Some cumulative)
    orientation (negb (truthy as_subplots)) r.1 ;;
  grid <~ lift (dict_getitem chart_config "grid");
  (if truthy grid then
     gs <~ lift (get_grid_style cfg (list_to_map chart));
     call_grid ax grid gs
   else ret tt) ;;
  ret r.2.

Definition draw_hist_chart (cfg : gmap string pyval) (axes : list nat)
    (charts : list dict) (chart_config : dict) : M unit :=
  assert_chart_config chart_config (supported_chart_config HistChart) ;;
  let orientation := dict_get chart_config "orientation" (PStr "vertical") in
  let n_bins := dict_get chart_config "n_bins" (PInt 20) in
  x_all <~ lift (res_mapM (get_chart_data "x") charts);
  bins <~ lift (shared_bins x_all n_bins);
  as_subplots <~ lift (dict_getitem chart_config "as_subplots");
  color_cycle <~ lift (custom_color_cycle cfg as_subplots
                         (Z.of_nat (length charts)));
  if negb (truthy as_subplots) then
    hc <~ lift (resolve_hist_configs cfg color_cycle charts);
    hist_config <~ lift (stacked_hist_config hc.1);
    ax0 <~ lift (list_first axes);
    call_hist ax0 (AllSeries x_all) bins None None orientation true
      hist_config ;;
    grid <~ lift (dict_getitem chart_config "grid");
    if truthy grid then
      chart0 <~ lift (list_first charts);
      gs <~ lift (get_grid_style cfg (list_to_map chart0));
      call_grid ax0 grid gs
    else ret tt
  else
    for_each_with (zip charts axes) color_cycle
      (draw_hist_subplot cfg chart_config bins orientation) ;;
    ret tt.

End Drawers.

(** ** Axis configurators, line drawer and bar drawer

    The functions below call more of the backend than [event] records.
    Their calls are collected in [call]; a computation over them is an
    [Eff call], the writer-and-error monad [M] with the type of its events
    left open.  [Logged] holds an event of the earlier kind (a warning, a
    grid call); [Bar] is [ax.bar] or [ax.barh] with its one error argument
    ([yerr] or [xerr]); [ZeroBound] is [set_ylim(bottom=0)] or
    [set_xlim(left=0)]; [AxesLabel] is [ax.set_title], [ax.set_xlabel] or
    [ax.set_ylabel]. *)

Inductive call : Type :=
| Logged (ev : event)
| AxisOn (ax : nat)
| SpineSet (ax : nat) (spine : string) (linewidth visible zorder : pyval)
| SetTickParams (ax : nat) (axis_type which : string)
                (width length labelsize : pyval)
| SetXLim (ax : nat) (xmin xmax : pyval)
| SetYLim (ax : nat) (ymin ymax : pyval)
| LabelAction (action : string) (text : pyval) (kwargs : gmap string pyval)
| FillBetween (ax : nat) (x y1 : npval) (y2 : option npval)
              (step : option pyval) (kwargs : gmap string pyval)
| Plot (ax : nat) (x y : npval) (kwargs : gmap string pyval)
| Bar (ax : nat) (horizontal : bool) (x y label : npval)
      (err_key : string) (err : npval) (kwargs : gmap string pyval)
| SetTicks (ax : nat) (axis : string) (ticks_loc label : npval)
| SetMajorLocator (ax : nat) (axis : string) (ticks_loc : npval)
| SetXTickLabels (ax : nat) (label : npval) (rotation : Z)
| AxesLabel (ax : nat) (method : string) (text : pyval)
            (kwargs : gmap string pyval)
| ZeroBound (ax : nat) (horizontal : bool).

Definition Eff (E A : Type) : Type := (list E * res A)%type.

Global Instance eff_ret {E} : MRet (Eff E) := fun A a => ([], Ok a).

Global Instance eff_bind {E} : MBind (Eff E) := fun A B f m =>
  match m with
  | (t, Ok a) => let '(t', r) := f a in (t ++ t', r)
  | (t, Raise e) => (t, Raise e)
  end.

Definition perform {E} (c : E) : Eff E unit := ([c], Ok tt).

Definition attempt {E A} (r : res A) : Eff E A := ([], r).

Definition calls {E A} (m : Eff E A) : list E := m.1.

Definition result {E A} (m : Eff E A) : res A := m.2.

(** A computation of the earlier kind, run inside the wider one. *)
Definition logged {A} (m : M A) : Eff call A :=
  (map Logged (trace m), outcome m).

Fixpoint eff_for_each {E A} (l : list A) (body : A -> Eff E unit)
  : Eff E unit :=
  match l with
  | [] => mret tt
  | a :: l' => _ ← body a; eff_for_each l' body
  end.

Fixpoint eff_for_each_with {E A S} (l : list A) (s : S)
    (body : S -> A -> Eff E S) : Eff E S :=
  match l with
  | [] => mret s
  | a :: l' => s' ← body s a; eff_for_each_with l' s' body
  end.

(** *** Spines and tick style ([configure_axes_spines],
    [configure_axis_ticks_style]) *)

Definition spine_names : list string := ["top"; "bottom"; "left"; "right"].

(** [f"axes.spines.{axis}.visible"] *)
Definition spine_visible_key (axis : string) : string :=
  "axes.spines." +:+ axis +:+ ".visible".

Definition configure_axes_spines (cfg : gmap string pyval) (ax : nat)
  : Eff call unit :=
  _ ← perform (AxisOn ax);
  eff_for_each spine_names
    (fun axis =>
       linewidth ← attempt (config_getitem cfg "axes.spines.width");
       visible ← attempt (config_getitem cfg (spine_visible_key axis));
       zorder ← attempt (config_getitem cfg "axes.spines.zorder");
       perform (SpineSet ax axis linewidth visible zorder)).

(** [getattr(ax, axis_type)] is the x or the y axis object; a plot area has
    no other attribute with a method [set_tick_params]. *)
Definition configure_axis_ticks_style (cfg : gmap string pyval) (ax : nat)
    (axis_type : string) : Eff call unit :=
  if bool_decide (axis_type ∈ ["xaxis"; "yaxis"]) then
    width ← attempt (config_getitem cfg "axes.spines.width");
    length ← attempt (config_getitem cfg "axes.ticks.length");
    labelsize ← attempt (config_getitem cfg "axes.ticks.label.size");
    perform (SetTickParams ax axis_type "major" width length labelsize)
  else attempt (Raise AttributeError).

(** *** Axis limits ([configure_axis_limits]) *)

(** [settings[kmin] is not None or settings[kmax] is not None] *)
Definition bound_given (settings : gmap string pyval) (kmin kmax : string)
  : res bool :=
  lo <-! map_getitem settings kmin;
  if negb (is_none lo) then Ok true
  else hi <-! map_getitem settings kmax; Ok (negb (is_none hi)).

(** [settings[key] if settings[key] is not None else current] *)
Definition bound_or_current (settings : gmap string pyval) (key : string)
    (current : pyval) : res pyval :=
  c <-! map_getitem settings key;
  if negb (is_none c) then map_getitem settings key else Ok current.

(** [xlim] and [ylim] are what [ax.get_xlim()] and [ax.get_ylim()] return
    when the function asks for them. *)
Definition configure_axis_limits (ax : nat) (xlim ylim : pyval * pyval)
    (settings : gmap string pyval) : Eff call unit :=
  gx ← attempt (bound_given settings "x_min" "x_max");
  _ ← (if gx : bool then
         xmin ← attempt (bound_or_current settings "x_min" xlim.1);
         xmax ← attempt (bound_or_current settings "x_max" xlim.2);
         perform (SetXLim ax xmin xmax)
       else mret tt);
  gy ← attempt (bound_given settings "y_min" "y_max");
  if gy : bool then
    ymin ← attempt (bound_or_current settings "y_min" ylim.1);
    ymax ← attempt (bound_or_current settings "y_max" ylim.2);
    perform (SetYLim ax ymin ymax)
  else mret tt.

(** *** Labels ([configure_labels])

    An action is a bound method of the backend ([ax.set_title],
    [ax.set_xlabel], ...), named here by a string. *)

Definition configure_labels (cfg settings : gmap string pyval)
    (actions : list (string * string)) : Eff call unit :=
  eff_for_each actions
    (fun '(label, action) =>
       if has_key settings label then
         text ← attempt (map_getitem settings label);
         perform (LabelAction action text (get_text_style cfg label))
       else mret tt).

(** *** Strings: [s.split(sep)] *)

(** [s.split(sep)] for a separator of one character. *)
Fixpoint str_split (sep : Ascii.ascii) (s : string) : list string :=
  match s with
  | EmptyString => [EmptyString]
  | String c s' =>
      if Ascii.eqb c sep then EmptyString :: str_split sep s'
      else match str_split sep s' with
           | w :: ws => String c w :: ws
           | [] => [String c EmptyString]
           end
  end.

(** ["steps-" in v]: a substring test on a string, membership on a list, a
    key test on a dict. *)
Definition py_contains_str (sub : string) (v : pyval) : res bool :=
  match v with
  | PStr s => Ok (str_contains sub s)
  | PList l =>
      Ok (existsb (fun x => match x with
                            | PStr t => String.eqb t sub
                            | _ => false
                            end) l)
  | PDict d => Ok (match dict_lookup sub d with Some _ => true | None => false end)
  | _ => Raise TypeError
  end.

(** [v.split("-")[1]] *)
Definition py_split_second (v : pyval) : res pyval :=
  match v with
  | PStr s =>
      match str_split "-"%char s !! 1%nat with
      | Some w => Ok (PStr w)
      | None => Raise IndexError
      end
  | _ => Raise AttributeError
  end.

(** *** The line drawer ([draw_line_chart]) *)

(** numpy's array arithmetic and [utils.stats.get_min_max_values] (a module
    that is not among the sources) are taken as they are. *)
Class LineRuntime : Type := {
  np_sub : npval -> npval -> res npval;
  np_add : npval -> npval -> res npval;
  get_min_max_values : npval -> res (pyval * pyval);
}.

(** [len(v)] *)
Definition np_len (v : npval) : res Z :=
  match v with
  | Arr a => Ok (Z.of_nat (length (nd_items a)))
  | Raw v => py_len v
  end.

(** The truth value of
    [chart_config["yerr"] and isinstance(yerr, np.ndarray)
     and len(yerr) == len(y)]. *)
Definition yerr_drawn (show_yerr : pyval) (yerr y : npval) : res bool :=
  if truthy show_yerr then
    match yerr with
    | Arr a =>
        n <-! np_len y;
        Ok (Z.of_nat (length (nd_items a)) =? n)
    | Raw _ => Ok false
    end
  else Ok false.

Definition both_areas_msg : string :=
  "Warning: Both the `error area` and `area under the curve` will be drawn. "
  +:+ "Only one of `yerr` and `area` should be True.".

(** The [step] argument of the area under the line:
    [line_config["drawstyle"].split("-")[1]
     if "steps-" in line_config["drawstyle"] else None]. *)
Definition fill_step (line_config : gmap string pyval) : res pyval :=
  ds <-! map_getitem line_config "drawstyle";
  b <-! py_contains_str "steps-" ds;
  if b : bool then
    ds' <-! map_getitem line_config "drawstyle";
    py_split_second ds'
  else Ok PNone.

(** [ax.fill_between(x, y_min, y_max, **area_config)] and
    [ax.fill_between(x, y, step=step, **area_config)] *)
Definition call_fill_between (ax : nat) (x y1 : npval) (y2 : option npval)
    (step : option pyval) (kwargs : gmap string pyval) : Eff call unit :=
  let named := ["x"; "y1"]
               ++ (if y2 is Some _ then ["y2"] else [])
               ++ (if step is Some _ then ["step"] else []) in
  if kwargs_clash named kwargs then attempt (Raise TypeError)
  else perform (FillBetween ax x y1 y2 step kwargs).

Section LineDrawer.
Context `{PyRuntime} `{LineRuntime}.

(** Modelled from the spec: [get_grid_config(style)], missing from
    [attrs.py], as the grid style builder. *)
Definition get_grid_config (cfg : gmap string pyval) (style : pyval)
  : res (gmap string pyval) :=
  s <-! as_mapping style;
  get_grid_style cfg s.

(** The body of the loop over [zip(charts, axes)]. *)
Definition draw_line_series (cfg : gmap string pyval) (chart_config : dict)
    (cyc : cycle) (item : dict * nat) : Eff call cycle :=
  let '(chart, ax) := item in
  let style := dict_get chart "style" (PDict []) in
  x ← attempt (get_chart_data "x" chart);
  y ← attempt (get_chart_data "y" chart);
  yerr ← attempt (get_chart_data "yerr" chart);
  show_yerr ← attempt (dict_getitem chart_config "yerr");
  draw_yerr_flag ← attempt (yerr_drawn show_yerr yerr y);
  draw_area_flag ← attempt (dict_getitem chart_config "area");
  _ ← (if (draw_yerr_flag : bool) && truthy draw_area_flag
       then perform (Logged (Warn both_areas_msg))
       else mret tt);
  r ← attempt (resolve_line_config cfg cyc chart);
  let '(line_config, area_config, cyc') := r in
  _ ← (if draw_yerr_flag : bool then
         y_min ← attempt (np_sub y yerr);
         y_max ← attempt (np_add y yerr);
         call_fill_between ax x y_min (Some y_max) None area_config
       else mret tt);
  _ ← (if truthy draw_area_flag then
         step ← attempt (fill_step line_config);
         call_fill_between ax x y None (Some step) area_config
       else mret tt);
  _ ← perform (Plot ax x y line_config);
  grid ← attempt (dict_getitem chart_config "grid");
  _ ← (if truthy grid then
         gs ← attempt (get_grid_config cfg style);
         logged (call_grid ax grid gs)
       else mret tt);
  lims ← attempt (get_min_max_values x);
  _ ← perform (SetXLim ax lims.1 lims.2);
  mret cyc'.

Definition draw_line_chart (cfg : gmap string pyval) (axes : list nat)
    (charts : list dict) (chart_config : dict) : Eff call unit :=
  _ ← logged (assert_chart_config chart_config
                (supported_chart_config LineChart));
  as_subplots ← attempt (dict_getitem chart_config "as_subplots");
  color_cycle ← attempt (custom_color_cycle cfg as_subplots
                           (Z.of_nat (length charts)));
  _ ← eff_for_each_with (zip charts axes) color_cycle
        (draw_line_series cfg chart_config);
  mret tt.

End LineDrawer.

(** *** The bar drawer ([draw_bar_chart]) *)

(** Arithmetic on values whose type the drawer does not fix (the configured
    bar width may be an int or a float): [v / n], [n * v], [u * v] and
    [array + v]. *)
Class BarRuntime : Type := {
  num_div_int : pyval -> Z -> res pyval;
  int_mul_num : Z -> pyval -> res pyval;
  num_mul : pyval -> pyval -> res pyval;
  np_shift : ndarray -> pyval -> res npval;
}.

(** [np.arange(n)] *)
Definition np_arange (n : Z) : ndarray := NdArray (map PInt (seqZ 0 n)).

(** [v == s] for a string [s] *)
Definition py_eq_str (v : pyval) (s : string) : bool :=
  match v with PStr t => String.eqb t s | _ => false end.

(** The nested function [rotate_bar_labels]. *)
Definition rotate_bar_labels (as_subplots : pyval) (n_labels : Z) : Z :=
  if truthy as_subplots then
    if 7 <=? n_labels then 90 else if 4 <=? n_labels then 45 else 0
  else 0.

(** [draw_func(x + offset, y, label=labels, **error_values, **bar_config)] *)
Definition call_bar (ax : nat) (horizontal : bool) (x y label : npval)
    (err_key : string) (err : npval) (kwargs : gmap string pyval)
  : Eff call unit :=
  let positional := if horizontal then ["y"; "width"] else ["x"; "height"] in
  if kwargs_clash (positional ++ ["label"; err_key]) kwargs
  then attempt (Raise TypeError)
  else perform (Bar ax horizontal x y label err_key err kwargs).

(** [chart_config.get("orientation", "vertical") == "horizontal"] *)
Definition is_horizontal_bar (chart_config : dict) : bool :=
  py_eq_str (dict_get chart_config "orientation" (PStr "vertical"))
    "horizontal".

(** The list [config_actions] of the bar drawer: the label entries of a
    chart and the method of the plot area each is passed to. *)
Definition bar_label_actions (is_horizontal : bool)
  : list (string * string) :=
  [ ("subtitle", "set_title");
    ("xlabel", if negb is_horizontal then "set_xlabel" else "set_ylabel");
    ("ylabel", if negb is_horizontal then "set_ylabel" else "set_xlabel") ].

Section BarDrawer.
Context `{PyRuntime} `{BarRuntime}.

(** Modelled from the spec: [get_bar_config(style, is_horizontal)],
    missing from [attrs.py], as the bar style builder. *)
Definition get_bar_config (cfg : gmap string pyval) (style : pyval)
    (is_horizontal : bool) : res (gmap string pyval) :=
  s <-! as_mapping style;
  get_bar_style cfg s is_horizontal.

(** The nested function [update_group_bar_labels]. *)
Definition update_group_bar_labels (chart_config : dict) (ax : nat)
    (ticks_loc label : npval) (axis : string) : Eff call unit :=
  if String.eqb axis "x" then
    _ ← perform (SetTicks ax "x" ticks_loc label);
    _ ← perform (SetMajorLocator ax "x" ticks_loc);
    n ← attempt (np_len label);
    as_subplots ← attempt (dict_getitem chart_config "as_subplots");
    perform (SetXTickLabels ax label (rotate_bar_labels as_subplots n))
  else if String.eqb axis "y" then
    _ ← perform (SetTicks ax "y" ticks_loc label);
    perform (SetMajorLocator ax "y" ticks_loc)
  else mret tt.

(** The state the loop carries: the index of [enumerate], the variable
    [offset] and the color cycle. *)
Record bar_state := BarState {
  bar_idx : Z;
  bar_offset : pyval;
  bar_cycle : cycle;
}.

(** The body of the loop over [enumerate(zip(charts, axes))]. *)
Definition draw_bar_series (cfg : gmap string pyval) (chart_config : dict)
    (n_charts : Z) (x_start : ndarray) (x_width : pyval)
    (is_horizontal : bool) (st : bar_state) (item : dict * nat)
  : Eff call bar_state :=
  let '(chart, ax) := item in
  let style := dict_get chart "style" (PDict []) in
  y ← attempt (get_chart_data "y" chart);
  yerr ← attempt (get_chart_data "yerr" chart);
  labels ← attempt (get_chart_data "label" chart);
  n_labels ← attempt (np_len labels);
  let x := np_arange n_labels in
  r ← attempt (cycle_getitem (bar_cycle st) (chart_hash chart));
  bs ← attempt (get_bar_config cfg style is_horizontal);
  let bar_config := bs ∪ r.1 in
  as_subplots ← attempt (dict_getitem chart_config "as_subplots");
  grouped ← (if negb (truthy as_subplots) then
               offset ← attempt (int_mul_num (bar_idx st) x_width);
               mret (<[(if is_horizontal then "height" else "width")
                       := x_width]> bar_config, offset)
             else mret (bar_config, bar_offset st));
  let '(bar_config, offset) := grouped in
  show_yerr ← attempt (dict_getitem chart_config "yerr");
  let err_key := if is_horizontal then "xerr" else "yerr" in
  let err := if truthy show_yerr then yerr else Raw PNone in
  shifted ← attempt (np_shift x offset);
  _ ← call_bar ax is_horizontal shifted y labels err_key err bar_config;
  grid ← attempt (dict_getitem chart_config "grid");
  _ ← (if truthy grid then
         gs ← attempt (get_grid_style cfg (list_to_map chart));
         logged (call_grid ax grid gs)
       else mret tt);
  as_subplots' ← attempt (dict_getitem chart_config "as_subplots");
  ticks_loc ← (if negb (truthy as_subplots') then
                 half ← attempt (PyFloat.py_truediv (n_charts - 1) 2);
                 shift ← attempt (num_mul (PFloat half) x_width);
                 attempt (np_shift x_start shift)
               else mret (Arr x));
  _ ← update_group_bar_labels chart_config ax ticks_loc labels
        (if is_horizontal then "y" else "x");
  _ ← eff_for_each (bar_label_actions is_horizontal)
        (fun '(attr, method) =>
           match dict_lookup attr chart with
           | Some _ =>
               text ← attempt (dict_getitem chart attr);
               perform (AxesLabel ax method text (get_text_style cfg attr))
           | None => mret tt
           end);
  mret (BarState (bar_idx st + 1) offset r.2).

Definition draw_bar_chart (cfg : gmap string pyval) (axes : list nat)
    (charts : list dict) (chart_config : dict) : Eff call unit :=
  _ ← logged (assert_chart_config chart_config
                (supported_chart_config BarChart));
  chart0 ← attempt (list_first charts);
  x_start ← attempt (get_chart_data "label" chart0);
  n_start ← attempt (np_len x_start);
  let x_start := np_arange n_start in
  width ← attempt (config_getitem cfg "plot.bar.width");
  x_width ← attempt (num_div_int width (Z.of_nat (length charts)));
  let is_horizontal := is_horizontal_bar chart_config in
  as_subplots ← attempt (dict_getitem chart_config "as_subplots");
  color_cycle ← attempt (custom_color_cycle cfg as_subplots
                           (Z.of_nat (length charts)));
  _ ← eff_for_each_with (zip charts axes) (BarState 0 (PInt 0) color_cycle)
        (draw_bar_series cfg chart_config (Z.of_nat (length charts))
           x_start x_width is_horizontal);
  as_subplots' ← attempt (dict_getitem chart_config "as_subplots");
  if negb (truthy as_subplots') then
    ax0 ← attempt (list_first axes);
    perform (ZeroBound ax0 is_horizontal)
  else mret tt.

End BarDrawer.

(** ** Vocabulary of the statements *)

(** The layout the specification describes: one cell without subplots,
    otherwise [ceil (n / m)] rows and [m] or [n mod m] columns. *)
Definition layout_of (subplots : bool) (n m : Z) : subplot_config :=
  if subplots
  then mkSubplots (PyFloat.ceil_div n m) (if m <=? n then m else n mod m)
  else mkSubplots 1 1.

(** The style builders that go through [create_config_dict], in either copy
    of [attrs.py]. *)
Inductive copy : Type := SrcCopy | DatachartCopy.

Inductive builder : Type :=
| LineStyle
| BarStyle (is_horizontal : bool)
| HistStyle
| AreaStyle
| GridStyle
| LegendStyle.

Definition declared_attrs (c : copy) (b : builder) : list (string * string) :=
  match b, c with
  | LineStyle, _ => line_attrs
  | BarStyle h, _ => bar_attrs h
  | HistStyle, _ => hist_attrs
  | AreaStyle, SrcCopy => SrcAttrs.area_attrs
  | AreaStyle, DatachartCopy => DatachartAttrs.area_attrs
  | GridStyle, _ => grid_attrs
  | LegendStyle, SrcCopy => SrcAttrs.legend_attrs
  | LegendStyle, DatachartCopy => DatachartAttrs.legend_attrs
  end.

Definition build_style (c : copy) (b : builder)
    (cfg chart_style : gmap string pyval) : res (gmap string pyval) :=
  match b, c with
  | LineStyle, _ => get_line_style cfg chart_style
  | BarStyle h, _ => get_bar_style cfg chart_style h
  | HistStyle, _ => get_hist_style cfg chart_style
  | AreaStyle, SrcCopy => SrcAttrs.get_area_style cfg chart_style
  | AreaStyle, DatachartCopy => DatachartAttrs.get_area_style cfg chart_style
  | GridStyle, _ => get_grid_style cfg chart_style
  | LegendStyle, SrcCopy => SrcAttrs.get_legend_style cfg
  | LegendStyle, DatachartCopy => DatachartAttrs.get_legend_style cfg
  end.

Definition style_argument (b : builder) (chart_style : gmap string pyval)
  : gmap string pyval :=
  match b with LegendStyle => ∅ | _ => chart_style end.

(** The entries of a drawing configuration the check warns about. *)
Definition warned (supported : list string) (item : string * pyval) : bool :=
  negb (bool_decide (item.1 ∈ supported)) && truthy item.2.

(** The backend call that sets the ticks of an axis. *)
Definition ticks_call (axis : string) (ax : nat) (ticks : pyval)
    (labels : option pyval) : event :=
  if String.eqb axis "xaxis" then SetXTicks ax ticks labels
  else SetYTicks ax ticks labels.



(** The histogram calls of a trace. *)
Definition is_hist (ev : event) : bool :=
  match ev with Hist _ _ _ _ _ _ _ _ => true | _ => false end.

Definition hist_calls (t : list event) : list event := List.filter is_hist t.

(** Sample inputs. *)
Definition sample_grid_config : gmap string pyval :=
  list_to_map
    [ ("plot.grid.alpha", PNone); ("plot.grid.color", PStr "gray");
      ("plot.grid.line.width", PInt 1); ("plot.grid.line.style", PStr "-");
      ("plot.grid.zorder", PInt 0) ].

Definition sample_grid_style : gmap string pyval :=
  list_to_map
    [ ("plot.grid.alpha", PInt 1); ("plot.grid.color", PStr "black");
      ("plot.grid.line.width", PInt 2); ("plot.grid.line.style", PStr ":");
      ("plot.grid.zorder", PInt 5) ].

Definition sample_ticks_chart : gmap string pyval :=
  list_to_map [ ("xticks", PList [PInt 1; PInt 2; PInt 3]);
                ("xticklabels", PList [PStr "a"; PStr "b"]) ].

(** A runtime for the sample runs: the hash of a string is its length, the
    color cycle is a list of colors subscripted by the hash modulo its
    length, arrays are stacked by concatenation and the bin edges for [n]
    bins are [0, 1, ..., n]. *)
Definition sample_create_color_cycle (name : pyval) (n : Z)
  : res (list pyval) :=
  Ok (map (fun i => PList [name; PInt i]) (seqZ 0 n)).

Definition sample_cycle_getitem (cyc : list pyval) (key : Z)
  : res (gmap string pyval * list pyval) :=
  match cyc !! Z.to_nat (key mod Z.of_nat (length cyc)) with
  | Some c => Ok ({["color" := c]}, cyc)
  | None => Raise IndexError
  end.

Definition sample_hstack (xs : list npval) : res ndarray :=
  Ok (NdArray
        (flat_map
           (fun x => match x with
                     | Raw (PList l) => l
                     | Raw v => [v]
                     | Arr a => nd_items a
                     end) xs)).

Definition sample_histogram (a : ndarray) (bins : pyval)
  : res (ndarray * ndarray) :=
  match bins with
  | PInt n => Ok (NdArray [], NdArray (map PInt (seqZ 0 (n + 1))))
  | _ => Raise TypeError
  end.

Definition sample_runtime : PyRuntime :=
  {| py_hash := fun s => Z.of_nat (String.length s);
     json_encode_str := fun s => s;
     json_float_repr := fun _ => "0.0";
     cycle := list pyval;
     create_color_cycle := sample_create_color_cycle;
     cycle_getitem := sample_cycle_getitem;
     np_array := fun l => Ok (NdArray l);
     np_hstack := sample_hstack;
     np_histogram := sample_histogram |}.

Definition sample_config : gmap string pyval :=
  list_to_map
    [ ("plot.hist.color", PNone); ("plot.hist.alpha", PInt 1);
      ("plot.hist.fill", PBool true); ("plot.hist.hatch", PNone);
      ("plot.hist.zorder", PInt 3); ("plot.hist.type", PStr "bar");
      ("plot.hist.align", PStr "mid"); ("plot.hist.edge.width", PInt 1);
      ("plot.hist.edge.color", PNone);
      ("color.general.multiple", PStr "tab");
      ("color.general.singular", PStr "blue") ].

Definition sample_charts : list dict :=
  [ [ ("data", PDict [("x", PList [PInt 1; PInt 2; PInt 2])]) ];
    [ ("data", PDict [("x", PList [PInt 3])]);
      ("style", PDict [("plot.hist.alpha", PInt 2)]) ] ].

Definition sample_chart_config : dict :=
  [ ("as_subplots", PBool false); ("grid", PNone); ("n_bins", PInt 2) ].

Definition sample_unset_bins_config : dict :=
  [ ("as_subplots", PBool false); ("grid", PNone) ].

Definition sample_hist_subplot_config : dict :=
  [ ("as_subplots", PBool true); ("grid", PNone); ("n_bins", PInt 2) ].

Definition sample_spec : dict :=
  [ ("data", PDict [("x", PList [PInt 1; PInt 2])]); ("subtitle", PStr "a") ].


Definition sample_hist_kwargs : gmap string pyval :=
  list_to_map
    [ ("color", PList [PList [PStr "tab"; PInt 0]; PList [PStr "tab"; PInt 1]]);
      ("alpha", PInt 1); ("fill", PBool true); ("zorder", PInt 3);
      ("histtype", PStr "bar"); ("align", PStr "mid"); ("linewidth", PInt 1) ].

(** The warning of the drawing-config check about [key], if [v] is
    truthy. *)
Definition warn_if (key : string) (v : pyval) : list event :=
  if truthy v then [Warn (unsupported_msg key)] else [].

(** The [plot] calls and the bar calls of a run. *)
Definition is_plot (c : call) : bool :=
  match c with Plot _ _ _ _ => true | _ => false end.

Definition is_bar (c : call) : bool :=
  match c with Bar _ _ _ _ _ _ _ _ => true | _ => false end.

(** What a point of a [data] list contributes under the string [label]:
    only a mapping that has the label contributes, its value. *)
Definition point_value (label : string) (p : pyval) : option pyval :=
  match p with
  | PDict d => dict_lookup label d
  | _ => None
  end.

Definition holds_label (label : string) (x : pyval) : bool :=
  match x with PStr t => String.eqb label t | _ => false end.

(** The points on which the lookup of [label] fails: a list that has the
    label among its elements, a string the label is part of, and whatever
    is neither a mapping, a list nor a string. *)
Definition point_rejected (label : string) (p : pyval) : bool :=
  match p with
  | PDict _ => false
  | PList l => existsb (holds_label label) l
  | PStr s => str_contains label s
  | _ => true
  end.

(** A drawing configuration without the keys the drawer does not
    support. *)
Definition supported_part (d : drawer) (chart_config : dict) : dict :=
  List.filter (fun item => bool_decide (item.1 ∈ supported_chart_config d))
    chart_config.

(** The run of a drawer, the histogram drawer's events among the calls. *)
Definition run_drawer `{PyRuntime} `{LineRuntime} `{BarRuntime} (d : drawer)
    (cfg : gmap string pyval) (axes : list nat) (charts : list dict)
    (chart_config : dict) : Eff call unit :=
  match d with
  | LineChart => draw_line_chart cfg axes charts chart_config
  | BarChart => draw_bar_chart cfg axes charts chart_config
  | HistChart => logged (draw_hist_chart cfg axes charts chart_config)
  end.

(** Further sample inputs. *)
Definition sample_points_chart : dict :=
  [ ("x", PStr "t");
    ("data", PList [ PDict [("t", PInt 1); ("y", PInt 5)];
                     PList [PInt 5];
                     PDict [("y", PInt 6)];
                     PStr "abc";
                     PDict [("t", PInt 3); ("y", PInt 7)] ]) ].

Definition sample_unsupported_config : dict :=
  [ ("as_subplots", PBool false); ("grid", PNone); ("area", PBool true);
    ("n_bins", PInt 2) ].

Definition sample_axes_config : gmap string pyval :=
  list_to_map
    [ ("axes.spines.width", PInt 1); ("axes.spines.zorder", PInt 2);
      ("axes.spines.top.visible", PBool false);
      ("axes.spines.bottom.visible", PBool true);
      ("axes.spines.left.visible", PBool true);
      ("axes.spines.right.visible", PBool false);
      ("axes.ticks.length", PInt 4); ("axes.ticks.label.size", PInt 10) ].

Definition sample_limits : gmap string pyval :=
  list_to_map [ ("x_min", PInt 0); ("x_max", PNone);
                ("y_min", PNone); ("y_max", PNone) ].

Definition int_items (l : list pyval) : list Z :=
  omap (fun v => match v with PInt z => Some z | _ => None end) l.

(** A line runtime for the sample runs: arrays of ints are added and
    subtracted item by item, and the limits of an array are its least and
    greatest item. *)
Definition sample_arith (op : Z -> Z -> Z) (y e : npval) : res npval :=
  match y, e with
  | Arr a, Arr b =>
      Ok (Arr (NdArray (map PInt (zip_with op (int_items (nd_items a))
                                    (int_items (nd_items b))))))
  | _, _ => Raise TypeError
  end.

Definition sample_min_max (x : npval) : res (pyval * pyval) :=
  match x with
  | Arr (NdArray (PInt z :: l)) =>
      Ok (PInt (foldr Z.min z (int_items l)),
          PInt (foldr Z.max z (int_items l)))
  | _ => Raise TypeError
  end.

Definition sample_line_runtime : LineRuntime :=
  {| np_sub := sample_arith Z.sub;
     np_add := sample_arith Z.add;
     get_min_max_values := sample_min_max |}.

(** A bar runtime for the sample runs: exact arithmetic on ints and dyadic
    floats. *)
Definition as_dyadic (v : pyval) : res float :=
  match v with
  | PInt z => Ok (mkFloat z 0)
  | PFloat f => Ok f
  | _ => Raise TypeError
  end.

Definition dyadic_add (a b : float) : float :=
  let e := Z.min (expo a) (expo b) in
  mkFloat (mant a * 2 ^ (expo a - e) + mant b * 2 ^ (expo b - e)) e.

Definition dyadic_mul (a b : float) : float :=
  mkFloat (mant a * mant b) (expo a + expo b).

Definition sample_num_div_int (v : pyval) (n : Z) : res pyval :=
  match v with
  | PInt z => f <-! PyFloat.py_truediv z n; Ok (PFloat f)
  | _ => Raise TypeError
  end.

Definition sample_num_mul (u v : pyval) : res pyval :=
  a <-! as_dyadic u; b <-! as_dyadic v; Ok (PFloat (dyadic_mul a b)).

Definition sample_np_shift (a : ndarray) (v : pyval) : res npval :=
  b <-! as_dyadic v;
  items <-! res_mapM (fun item => c <-! as_dyadic item;
                                  Ok (PFloat (dyadic_add c b)))
              (nd_items a);
  Ok (Arr (NdArray items)).

Definition sample_bar_runtime : BarRuntime :=
  {| num_div_int := sample_num_div_int;
     int_mul_num := fun i v => sample_num_mul (PInt i) v;
     num_mul := sample_num_mul;
     np_shift := sample_np_shift |}.

Definition sample_line_config : gmap string pyval :=
  list_to_map
    [ ("plot.line.color", PNone); ("plot.line.alpha", PInt 1);
      ("plot.line.width", PInt 2); ("plot.line.style", PStr "-");
      ("plot.line.marker", PNone); ("plot.line.drawstyle", PNone);
      ("plot.line.zorder", PInt 2);
      ("plot.area.alpha", PInt 1); ("plot.area.color", PNone);
      ("plot.area.linewidth", PInt 0); ("plot.area.hatch", PNone);
      ("plot.area.zorder", PInt 1);
      ("plot.bar.color", PNone); ("plot.bar.alpha", PInt 1);
      ("plot.bar.width", PInt 1); ("plot.bar.hatch", PNone);
      ("plot.bar.edge.width", PInt 0); ("plot.bar.edge.color", PNone);
      ("plot.bar.error.color", PStr "black"); ("plot.bar.zorder", PInt 3);
      ("plot.grid.alpha", PInt 1); ("plot.grid.color", PStr "gray");
      ("plot.grid.line.width", PInt 1); ("plot.grid.line.style", PStr "-");
      ("plot.grid.zorder", PInt 0);
      ("plot.hist.color", PNone); ("plot.hist.alpha", PInt 1);
      ("plot.hist.fill", PBool true); ("plot.hist.hatch", PNone);
      ("plot.hist.zorder", PInt 3); ("plot.hist.type", PStr "bar");
      ("plot.hist.align", PStr "mid"); ("plot.hist.edge.width", PInt 1);
      ("plot.hist.edge.color", PNone);
      ("color.general.multiple", PStr "tab");
      ("color.general.singular", PStr "blue") ].

Definition sample_line_chart : dict :=
  [ ("data", PList [ PDict [("x", PInt 1); ("y", PInt 5); ("yerr", PInt 1)];
                     PDict [("x", PInt 2); ("y", PInt 7); ("yerr", PInt 2)] ]) ].

Definition sample_line_chart_config : dict :=
  [ ("as_subplots", PBool false); ("grid", PNone); ("yerr", PBool true);
    ("area", PNone) ].

Definition sample_bar_charts : list dict :=
  [ [ ("data", PList [ PDict [("label", PStr "a"); ("y", PInt 3)];
                       PDict [("label", PStr "b"); ("y", PInt 4)] ]) ];
    [ ("data", PList [ PDict [("label", PStr "a"); ("y", PInt 1)];
                       PDict [("label", PStr "b"); ("y", PInt 2)] ]);
      ("style", PDict [("plot.bar.width", PInt 7)]) ] ].

Definition sample_bar_chart_config : dict :=
  [ ("as_subplots", PBool false); ("grid", PNone); ("yerr", PNone);
    ("orientation", PNone) ].

Definition sample_grid_override : gmap string pyval :=
  list_to_map [ ("plot.grid.alpha", PInt 1); ("plot.grid.color", PNone) ].

Definition sample_grid_kwargs : gmap string pyval :=
  list_to_map [ ("alpha", PInt 1); ("linewidth", PInt 1);
                ("linestyle", PStr "-"); ("zorder", PInt 0) ].

Definition sample_subplot_config : dict :=
  [ ("as_subplots", PBool true); ("grid", PStr "both") ].

Definition sample_grid_defaults : gmap string pyval :=
  list_to_map [ ("alpha", PInt 1); ("color", PStr "gray");
                ("linewidth", PInt 1); ("linestyle", PStr "-");
                ("zorder", PInt 0) ].

Definition sample_area_kwargs : gmap string pyval :=
  list_to_map [ ("color", PList [PStr "tab"; PInt 0]); ("alpha", PInt 1);
                ("zorder", PInt 1); ("linewidth", PInt 0) ].

Definition sample_area_chart_config : dict :=
  [ ("as_subplots", PBool false); ("grid", PNone); ("yerr", PNone);
    ("area", PBool true) ].

Definition sample_bar_subplot_config : dict :=
  [ ("as_subplots", PBool true); ("grid", PNone); ("yerr", PNone);
    ("orientation", PNone) ].

Definition sample_labelled_bar_chart : dict :=
  [ ("data", PList [ PDict [("label", PStr "a"); ("y", PInt 3)];
                     PDict [("label", PStr "b"); ("y", PInt 4)] ]);
    ("xlabel", PStr "count") ].

Definition sample_horizontal_bar_config : dict :=
  [ ("as_subplots", PBool false); ("grid", PNone); ("yerr", PNone);
    ("orientation", PStr "horizontal") ].

(** * Properties *)

(** ** True division and ceiling *)

Section TrueDivision.
Import PyFloat.

Example truediv_10_4 : py_truediv 10 4 = Ok (mkFloat (5 * 2 ^ 50) (-51)).
Proof. vm_compute. reflexivity. Qed.

Example truediv_1_3 : py_truediv 1 3 = Ok (mkFloat 6004799503160661 (-54)).
Proof. vm_compute. reflexivity. Qed.

Example truediv_underflow : py_truediv 1 (2 ^ 1080) = Ok (mkFloat 0 (-1074)).
Proof. vm_compute. reflexivity. Qed.

Example truediv_overflow : py_truediv (2 ^ 1024) 1 = Raise OverflowError.
Proof. vm_compute. reflexivity. Qed.

Example truediv_negative : py_truediv (-7) 2 = Ok (mkFloat (- (7 * 2 ^ 50)) (-51)).
Proof. vm_compute. reflexivity. Qed.

Lemma neg_div_ceil (x c P : Z) :
  0 < P -> (c - 1) * P < x <= c * P -> - ((- x) / P) = c.
Proof.
  intros HP [Hlo Hhi].
  assert ((- x) / P = - c) as ->; [|lia].
  symmetry. apply (Z.div_unique_pos (- x) P (- c) (c * P - x)); lia.
Qed.

Lemma ceil_div_bounds (n m : Z) :
  0 < m -> (ceil_div n m - 1) * m < n <= ceil_div n m * m.
Proof.
  intros Hm. unfold ceil_div.
  pose proof (Z.div_mod (- n) m ltac:(lia)) as Hdm.
  pose proof (Z.mod_pos_bound (- n) m Hm) as Hr.
  nia.
Qed.

Lemma round_half_even_ceil (n m P : Z) :
  0 < n -> 0 < m -> 0 < P -> m < 2 * P ->
  - ((- round_half_even (n * P) m) / P) = ceil_div n m.
Proof.
  intros Hn Hm HP HmP.
  pose proof (ceil_div_bounds n m Hm) as [Hlo Hhi].
  set (c := ceil_div n m) in *.
  apply neg_div_ceil; [done|].
  unfold round_half_even.
  pose proof (Z.div_mod (n * P) m ltac:(lia)) as Hdm.
  pose proof (Z.mod_pos_bound (n * P) m Hm) as Hr.
  set (q := n * P / m) in *. set (r := (n * P) mod m) in *.
  assert (Hup : n * P <= c * m * P) by nia.
  assert (Hdn : (c - 1) * m * P + P <= n * P) by nia.
  assert (Hq1 : q <= c * P) by nia.
  assert (Hq2 : (c - 1) * P <= q) by nia.
  assert (Hq3 : q = c * P -> r = 0) by nia.
  assert (Hq4 : q = (c - 1) * P -> P <= r) by nia.
  destruct (Z.ltb_spec (2 * r) m); [lia|].
  destruct (Z.ltb_spec m (2 * r)); [lia|].
  destruct (Z.even q); lia.
Qed.

Lemma pow2_split (a b : Z) : 0 <= a -> 0 <= b -> 2 ^ (a + b) = 2 ^ a * 2 ^ b.
Proof. intros. apply Z.pow_add_r; lia. Qed.

Lemma log2_small (n : Z) : 0 < n < 2 ^ 53 -> 0 <= Z.log2 n <= 52.
Proof.
  intros [Hn Hb]. split; [apply Z.log2_nonneg|].
  apply Z.log2_lt_pow2 in Hb; lia.
Qed.

(** Below [2 ^ 53] the estimate of the exponent is small and never above the
    true one. *)
Lemma ilog2_quot_small (n m : Z) :
  0 < n < 2 ^ 53 -> 0 < m < 2 ^ 53 ->
  -53 <= ilog2_quot n m <= 52 /\ le_scaled m (ilog2_quot n m) n = true.
Proof.
  intros Hn Hm.
  pose proof (log2_small n Hn) as Ha. pose proof (log2_small m Hm) as Hb.
  pose proof (Z.log2_spec n ltac:(lia)) as [Han _].
  pose proof (Z.log2_spec m ltac:(lia)) as [_ Hbm].
  unfold ilog2_quot.
  set (a := Z.log2 n) in *. set (b := Z.log2 m) in *.
  destruct (le_scaled m (a - b) n) eqn:Ht; [split; [lia|done]|].
  split; [lia|].
  unfold le_scaled.
  destruct (Z.leb_spec 0 (a - b - 1)) as [Hs|Hs].
  - apply Z.leb_le.
    assert (2 ^ a = 2 ^ (a - b - 1) * 2 ^ (Z.succ b)) as Hp.
    { rewrite <- pow2_split by lia. f_equal. lia. }
    assert (0 < 2 ^ (a - b - 1)) by (apply Z.pow_pos_nonneg; lia).
    nia.
  - apply Z.leb_le.
    assert (2 ^ (Z.succ b) = 2 ^ a * 2 ^ (- (a - b - 1))) as Hp.
    { rewrite <- pow2_split by lia. f_equal. lia. }
    assert (0 < 2 ^ (- (a - b - 1))) by (apply Z.pow_pos_nonneg; lia).
    nia.
Qed.

Lemma truediv_ceil_exact (n m : Z) :
  0 < n < 2 ^ 53 -> 0 < m < 2 ^ 53 ->
  exists f, py_truediv n m = Ok f /\ py_ceil f = ceil_div n m.
Proof.
  intros Hn Hm.
  destruct (ilog2_quot_small n m Hn Hm) as [He Hle].
  unfold py_truediv.
  destruct (Z.eqb_spec m 0) as [?|_]; [lia|].
  destruct (Z.eqb_spec n 0) as [?|_]; [lia|].
  rewrite !Z.abs_eq by lia.
  rewrite (Z.sgn_pos n), (Z.sgn_pos m) by lia.
  unfold round_quotient, overflows. cbn [mant expo].
  set (e := ilog2_quot n m) in *.
  rewrite (Z.max_l e (-1022)) by lia.
  destruct (Z.leb_spec 0 (e - 52)) as [Hs|Hs].
  - (* the quotient has 53 bits before the point: [m = 1] *)
    assert (e = 52) as He52 by lia. rewrite He52 in *.
    unfold le_scaled in Hle. cbn [Z.leb] in Hle. apply Z.leb_le in Hle.
    assert (m = 1) as ->.
    { change (2 ^ 52) with 4503599627370496 in Hle.
      change (2 ^ 53) with 9007199254740992 in Hn. lia. }
    replace (52 - 52) with 0 by lia.
    assert (round_half_even n (1 * 2 ^ 0) = n) as ->.
    { unfold round_half_even. change (1 * 2 ^ 0) with 1.
      rewrite Z.mod_1_r, Z.div_1_r. reflexivity. }
    assert ((2 ^ 1024 <=? 1 * 1 * n * 2 ^ 0) = false) as Hov.
    { apply Z.leb_gt. change (2 ^ 1024) with (2 ^ 53 * 2 ^ 971).
      change (2 ^ 0) with 1. lia. }
    replace (n * 2 ^ 0) with (1 * 1 * n * 2 ^ 0) by lia.
    rewrite Hov. cbn [andb].
    eexists; split; [reflexivity|].
    unfold py_ceil, ceil_div. cbn [mant expo].
    change (0 <=? 0) with true. cbn iota.
    change (2 ^ 0) with 1. rewrite Z.div_1_r. lia.
  - cbn [andb].
    eexists; split; [reflexivity|].
    unfold py_ceil. cbn [mant expo].
    destruct (Z.leb_spec 0 (e - 52)) as [?|_]; [lia|].
    replace (1 * 1 * round_half_even (n * 2 ^ (- (e - 52))) m)
      with (round_half_even (n * 2 ^ (- (e - 52))) m) by lia.
    assert (0 < 2 ^ (- (e - 52))) as HP by (apply Z.pow_pos_nonneg; lia).
    apply round_half_even_ceil; try lia.
    unfold le_scaled in Hle.
    destruct (Z.leb_spec 0 e) as [He0|He0]; apply Z.leb_le in Hle.
    + assert (2 ^ 53 = 2 ^ e * (2 * 2 ^ (- (e - 52)))) as Hp.
      { replace (2 * 2 ^ (- (e - 52))) with (2 ^ (Z.succ (- (e - 52))))
          by (rewrite Z.pow_succ_r; lia).
        rewrite <- pow2_split by lia. f_equal. lia. }
      assert (0 < 2 ^ e) by (apply Z.pow_pos_nonneg; lia).
      nia.
    + assert (2 ^ 53 <= 2 ^ (- (e - 52))).
      { apply Z.pow_le_mono_r; lia. }
      lia.
Qed.

End TrueDivision.

(** ** Subplot layout *)

Lemma src_layout_below_2_53 (subplots : bool) (n m : Z) :
  0 < n < 2 ^ 53 -> 0 < m < 2 ^ 53 ->
  SrcAttrs.get_subplot_config subplots n m = Ok (layout_of subplots n m).
Proof.
  intros Hn Hm. unfold SrcAttrs.get_subplot_config, layout_of.
  destruct subplots; [|reflexivity].
  destruct (truediv_ceil_exact n m Hn Hm) as (f & -> & <-). reflexivity.
Qed.

Lemma datachart_layout_positive (subplots : bool) (n m : Z) :
  0 < n -> 0 < m ->
  DatachartAttrs.get_subplot_config subplots n m
  = SrcAttrs.get_subplot_config subplots n m.
Proof.
  intros Hn Hm.
  unfold DatachartAttrs.get_subplot_config, SrcAttrs.get_subplot_config.
  destruct subplots; [|reflexivity].
  destruct (Z.ltb_spec 0 n); [|lia]. destruct (Z.ltb_spec 0 m); [|lia].
  reflexivity.
Qed.

(** C1 (as amended).  With the subplots flag false both copies of
    [get_subplot_config] return one row and one column.  With the flag true,
    for every chart count [n] and maximum-column count [m] that are positive
    and below [2 ^ 53], they return [ceil (n / m)] rows and [m] columns if
    [n >= m], else [n mod m] columns; in particular (10, 4) gives 3 rows and
    4 columns, (4, 4) gives 1 and 4, (3, 4) gives 1 and 3. *)
Theorem get_subplot_config_layout :
  (forall n m : Z,
      SrcAttrs.get_subplot_config false n m = Ok (mkSubplots 1 1)
      /\ DatachartAttrs.get_subplot_config false n m = Ok (mkSubplots 1 1))
  /\ (forall n m : Z,
        0 < n < 2 ^ 53 -> 0 < m < 2 ^ 53 ->
        SrcAttrs.get_subplot_config true n m = Ok (layout_of true n m)
        /\ DatachartAttrs.get_subplot_config true n m
           = Ok (layout_of true n m))
  /\ DatachartAttrs.get_subplot_config true 10 4 = Ok (mkSubplots 3 4)
  /\ DatachartAttrs.get_subplot_config true 4 4 = Ok (mkSubplots 1 4)
  /\ DatachartAttrs.get_subplot_config true 3 4 = Ok (mkSubplots 1 3).
Proof.
  split; [|split].
  - intros n m. split; reflexivity.
  - intros n m Hn Hm.
    rewrite datachart_layout_positive by lia.
    split; apply src_layout_below_2_53; assumption.
  - repeat split; vm_compute; reflexivity.
Qed.

Lemma get_subplot_config_layout_witness :
  SrcAttrs.get_subplot_config true 10 4 = Ok (mkSubplots 3 4)
  /\ DatachartAttrs.get_subplot_config true 7 2 = Ok (mkSubplots 4 2).
Proof.
  split.
  - exact (proj1 (proj1 (proj2 get_subplot_config_layout) 10 4
                    ltac:(split; reflexivity) ltac:(split; reflexivity))).
  - exact (proj2 (proj1 (proj2 get_subplot_config_layout) 7 2
                    ltac:(split; reflexivity) ltac:(split; reflexivity))).
Defined.

(** C1, the claim as stated fails: with [2 ^ 53 + 1] charts in one column the
    float quotient is [2 ^ 53], so the row count is one less than the
    ceiling of [n / m]. *)
Lemma get_subplot_config_rows_inexact :
  DatachartAttrs.get_subplot_config true 9007199254740993 1
  = Ok (mkSubplots 9007199254740992 1)
  /\ PyFloat.ceil_div 9007199254740993 1 = 9007199254740993.
Proof. split; vm_compute; reflexivity. Qed.

(** C2 (as amended).  In [datachart/utils/attrs.py] a chart count or a
    maximum-column count that is zero or negative fails with an assertion
    error when the subplots flag is true; when the flag is false both copies
    return one row and one column without looking at the counts.  The older
    copy, [src/utils/attrs.py], makes no assertion: with the flag true it
    raises exactly when the maximum-column count is zero (division by zero)
    or the quotient overflows a float. *)
Theorem get_subplot_config_preconditions (n m : Z) :
  n <= 0 \/ m <= 0 ->
  (exists msg,
      DatachartAttrs.get_subplot_config true n m = Raise (AssertionError msg))
  /\ DatachartAttrs.get_subplot_config false n m = Ok (mkSubplots 1 1)
  /\ SrcAttrs.get_subplot_config false n m = Ok (mkSubplots 1 1)
  /\ (m = 0 -> SrcAttrs.get_subplot_config true n m = Raise ZeroDivisionError)
  /\ (m <> 0 ->
      SrcAttrs.get_subplot_config true n m = Raise OverflowError
      \/ exists q, PyFloat.py_truediv n m = Ok q
           /\ SrcAttrs.get_subplot_config true n m
              = Ok (mkSubplots (PyFloat.py_ceil q)
                      (if m <=? n then m else n mod m))).
Proof.
  intros Hnm. repeat split.
  - unfold DatachartAttrs.get_subplot_config.
    destruct (Z.ltb_spec 0 n); cbn [negb]; [|eauto].
    destruct (Z.ltb_spec 0 m); cbn [negb]; [lia|eauto].
  - intros ->. reflexivity.
  - intros Hm. unfold SrcAttrs.get_subplot_config, PyFloat.py_truediv.
    destruct (Z.eqb_spec m 0); [lia|].
    destruct (n =? 0); [right; eauto|].
    destruct (PyFloat.overflows _); [left; reflexivity|right; eauto].
Qed.

Lemma get_subplot_config_preconditions_witness :
  (exists msg,
      DatachartAttrs.get_subplot_config true 0 4 = Raise (AssertionError msg))
  /\ SrcAttrs.get_subplot_config true 3 0 = Raise ZeroDivisionError.
Proof.
  split.
  - exact (proj1 (get_subplot_config_preconditions 0 4
                    ltac:(left; discriminate))).
  - exact (proj1 (proj2 (proj2 (proj2
             (get_subplot_config_preconditions 3 0 ltac:(right; discriminate)))))
             eq_refl).
Defined.

(** C2, the claim as stated fails: with the subplots flag false no count is
    checked, and the older copy accepts a zero chart count even with the
    flag true. *)
Lemma get_subplot_config_unchecked :
  DatachartAttrs.get_subplot_config false 0 0 = Ok (mkSubplots 1 1)
  /\ SrcAttrs.get_subplot_config false (-3) 0 = Ok (mkSubplots 1 1)
  /\ SrcAttrs.get_subplot_config true 0 4 = Ok (mkSubplots 0 0).
Proof. repeat split; vm_compute; reflexivity. Qed.

(** ** Attribute resolver *)

Lemma get_attr_value_scalar (attr : string) (obj : gmap string pyval)
    (v : pyval) :
  (forall d, v <> PDict d) ->
  get_attr_value attr obj (ValueDefault v) = Ok (default v (obj !! attr)).
Proof. intros Hv. destruct v; try reflexivity. by destruct (Hv d). Qed.

Lemma get_attr_value_config (attr : string) (obj cfg : gmap string pyval) :
  get_attr_value attr obj (ConfigDefault cfg)
  = match cfg !! attr with
    | Some dv => Ok (default dv (obj !! attr))
    | None => Raise (KeyError attr)
    end.
Proof.
  unfold get_attr_value, config_getitem, map_getitem, map_get.
  destruct (cfg !! attr); reflexivity.
Qed.

Lemma get_attr_value_dict (attr : string) (obj : gmap string pyval)
    (d : dict) :
  get_attr_value attr obj (ValueDefault (PDict d))
  = match dict_lookup attr d with
    | Some dv => Ok (default dv (obj !! attr))
    | None => Raise (KeyError attr)
    end.
Proof.
  unfold get_attr_value, dict_getitem, map_get.
  destruct (dict_lookup attr d); reflexivity.
Qed.

(** C3, the failing input: the style mapping holds the key and the dict
    default does not; the resolver raises instead of returning the style's
    value. *)
Lemma get_attr_value_style_key_shadowed :
  get_attr_value "color" {["color" := PStr "red"]} (ValueDefault (PDict []))
  = Raise (KeyError "color").
Proof. reflexivity. Qed.

(** C9.  For a mapping-like default (the global configuration or a dict) the
    resolver evaluates the default's entry first: when the default lacks the
    key it raises a missing-key error whatever the style mapping holds, and
    when it returns, the default maps the key and the result is the style
    mapping's value if the style has one (the default's entry otherwise). *)
Theorem get_attr_value_default_first (attr : string)
    (obj cfg : gmap string pyval) (d : dict) :
  (cfg !! attr = None ->
   get_attr_value attr obj (ConfigDefault cfg) = Raise (KeyError attr))
  /\ (dict_lookup attr d = None ->
      get_attr_value attr obj (ValueDefault (PDict d)) = Raise (KeyError attr))
  /\ (forall r, get_attr_value attr obj (ConfigDefault cfg) = Ok r ->
        exists dv, cfg !! attr = Some dv /\ r = default dv (obj !! attr))
  /\ (forall r, get_attr_value attr obj (ValueDefault (PDict d)) = Ok r ->
        exists dv, dict_lookup attr d = Some dv
                   /\ r = default dv (obj !! attr))
  /\ (forall v dv, obj !! attr = Some v -> cfg !! attr = Some dv ->
        get_attr_value attr obj (ConfigDefault cfg) = Ok v)
  /\ (forall v dv, obj !! attr = Some v -> dict_lookup attr d = Some dv ->
        get_attr_value attr obj (ValueDefault (PDict d)) = Ok v).
Proof.
  rewrite get_attr_value_dict, get_attr_value_config.
  split_and!.
  - by intros ->.
  - by intros ->.
  - intros r Hr. destruct (cfg !! attr) as [dv|]; [|discriminate].
    exists dv. split; [reflexivity|congruence].
  - intros r Hr. destruct (dict_lookup attr d) as [dv|]; [|discriminate].
    exists dv. split; [reflexivity|congruence].
  - intros v dv Hv ->. by rewrite Hv.
  - intros v dv Hv ->. by rewrite Hv.
Qed.

Lemma get_attr_value_default_first_witness :
  get_attr_value "color" {["color" := PStr "red"]} (ConfigDefault ∅)
  = Raise (KeyError "color")
  /\ get_attr_value "color" {["color" := PStr "red"]}
       (ValueDefault (PDict [("color", PStr "blue")]))
     = Ok (PStr "red").
Proof.
  split.
  - exact (proj1 (get_attr_value_default_first "color"
                    {["color" := PStr "red"]} ∅ []) eq_refl).
  - exact (proj2 (proj2 (proj2 (proj2 (proj2
             (get_attr_value_default_first "color" {["color" := PStr "red"]}
                ∅ [("color", PStr "blue")])))))
             (PStr "red") (PStr "blue") eq_refl eq_refl).
Defined.

Example get_attr_value_default_only :
  get_attr_value "alpha" {["color" := PStr "red"]}
    (ConfigDefault {["alpha" := PInt 1]}) = Ok (PInt 1).
Proof. reflexivity. Qed.

Example get_attr_value_scalar_default :
  get_attr_value "x" ∅ (ValueDefault (PStr "x")) = Ok (PStr "x").
Proof. reflexivity. Qed.

(** ** Style builders *)

Lemma is_none_true (v : pyval) : is_none v = true <-> v = PNone.
Proof. destruct v; cbn; split; congruence. Qed.

Lemma is_none_false (v : pyval) : is_none v = false <-> v <> PNone.
Proof. destruct v; cbn; split; congruence. Qed.

Lemma create_config_dict_from_no_null (cfg styles : gmap string pyval)
    (attrs : list (string * string)) :
  forall acc out,
    (forall k v, acc !! k = Some v -> v <> PNone) ->
    create_config_dict_from cfg styles attrs acc = Ok out ->
    forall k v, out !! k = Some v -> v <> PNone.
Proof.
  induction attrs as [|[key attr] rest IH]; intros acc out Hacc Hrun.
  - cbn in Hrun. injection Hrun as <-. exact Hacc.
  - cbn [create_config_dict_from] in Hrun.
    rewrite get_attr_value_config in Hrun.
    destruct (cfg !! attr) as [dv|]; [|discriminate]. cbn [res_bind] in Hrun.
    destruct (is_none (default dv (styles !! attr))) eqn:Hnone.
    + exact (IH acc out Hacc Hrun).
    + refine (IH _ out _ Hrun).
      intros k v. rewrite lookup_insert. case_decide.
      * intros [= <-]. apply is_none_false, Hnone.
      * apply Hacc.
Qed.

Lemma create_config_dict_from_spec (cfg styles : gmap string pyval)
    (attrs : list (string * string)) :
  (forall key attr, (key, attr) ∈ attrs -> is_Some (cfg !! attr)) ->
  forall acc, exists out,
    create_config_dict_from cfg styles attrs acc = Ok out
    /\ (forall k, k ∉ attrs.*1 -> out !! k = acc !! k)
    /\ (NoDup attrs.*1 ->
        forall key attr dv, (key, attr) ∈ attrs -> cfg !! attr = Some dv ->
          out !! key
          = if is_none (default dv (styles !! attr)) then acc !! key
            else Some (default dv (styles !! attr))).
Proof.
  induction attrs as [|[key attr] rest IH]; intros Hcfg acc.
  - exists acc. split; [reflexivity|]. split; [done|].
    intros _ key attr dv Hin. by apply elem_of_nil in Hin.
  - destruct (Hcfg key attr ltac:(left)) as [dv Hdv].
    assert (Hrest : forall k a, (k, a) ∈ rest -> is_Some (cfg !! a))
      by (intros k a Hin; apply (Hcfg k a); by right).
    cbn [create_config_dict_from]. rewrite get_attr_value_config, Hdv.
    cbn [res_bind].
    set (r := default dv (styles !! attr)).
    set (acc' := if is_none r then acc else <[key := r]> acc).
    destruct (IH Hrest acc') as (out & Hrun & Hframe & Hin).
    exists out. split; [|split].
    + subst acc'. destruct (is_none r); exact Hrun.
    + intros k Hk. rewrite fmap_cons, not_elem_of_cons in Hk.
      destruct Hk as [Hne Hk]. rewrite (Hframe k Hk). subst acc'.
      destruct (is_none r); [done|]. by rewrite lookup_insert_ne.
    + intros Hnd k a d Hka Hd. rewrite fmap_cons in Hnd.
      apply NoDup_cons in Hnd as [Hfresh Hnd].
      apply elem_of_cons in Hka as [[= -> ->]|Hka].
      * rewrite (Hframe key Hfresh). rewrite Hdv in Hd. injection Hd as <-.
        fold r. subst acc'. destruct (is_none r); [done|].
        by rewrite lookup_insert_eq.
      * rewrite (Hin Hnd k a d Hka Hd).
        destruct (is_none (default d (styles !! a))); [|done].
        assert (k <> key) as Hne.
        { intros ->. apply Hfresh.
          exact (list_elem_of_fmap_2 fst rest (key, a) Hka). }
        subst acc'. destruct (is_none r); [done|].
        by rewrite lookup_insert_ne.
Qed.

Lemma build_style_unfold (c : copy) (b : builder)
    (cfg chart_style : gmap string pyval) :
  build_style c b cfg chart_style
  = create_config_dict cfg (style_argument b chart_style) (declared_attrs c b).
Proof. destruct b, c; reflexivity. Qed.

Lemma declared_attrs_NoDup (c : copy) (b : builder) :
  NoDup (declared_attrs c b).*1.
Proof.
  destruct b as [|[]| | | |], c; apply (bool_decide_unpack _); vm_compute;
    exact I.
Qed.

Lemma get_text_style_lookup (cfg : gmap string pyval)
    (text_type key suffix : string) :
  (key, suffix) ∈ text_attrs ->
  get_text_style cfg text_type !! key
  = Some (config_get cfg (format_font suffix text_type)
            (config_get cfg (format_font suffix "general") PNone)).
Proof.
  intros Hin. unfold text_attrs in Hin.
  repeat (apply elem_of_cons in Hin as [[= -> ->]|Hin];
          [unfold get_text_style; cbn [foldl text_attrs]; by simplify_map_eq|]).
  by apply elem_of_nil in Hin.
Qed.

(** C4 (as amended).  For the builders that go through [create_config_dict]
    (line, bar, hist, area, grid, legend, in either copy of [attrs.py]) an
    output never holds a null value; for those that take a series style
    (all but legend), when the global configuration maps every declared
    path and the series style supplies a non-null value under every declared
    path, the builder returns and its output maps every declared argument
    name to the style's value.  The text builder has no filter: its output
    always has all five keys, each mapped to
    [config.get(specific, config.get(general))], null included. *)
Theorem style_builders_filter_null (c : copy) (b : builder)
    (cfg chart_style : gmap string pyval) :
  (forall out, build_style c b cfg chart_style = Ok out ->
     forall k v, out !! k = Some v -> v <> PNone)
  /\ (b <> LegendStyle ->
      (forall key attr, (key, attr) ∈ declared_attrs c b ->
         is_Some (cfg !! attr)) ->
      (forall key attr, (key, attr) ∈ declared_attrs c b ->
         exists v, chart_style !! attr = Some v /\ v <> PNone) ->
      exists out, build_style c b cfg chart_style = Ok out
        /\ forall key attr, (key, attr) ∈ declared_attrs c b ->
             out !! key = chart_style !! attr)
  /\ (forall text_type key suffix, (key, suffix) ∈ text_attrs ->
        get_text_style cfg text_type !! key
        = Some (config_get cfg (format_font suffix text_type)
                  (config_get cfg (format_font suffix "general") PNone))).
Proof.
  rewrite build_style_unfold. split; [|split].
  - intros out Hrun.
    refine (create_config_dict_from_no_null _ _ _ ∅ out _ Hrun).
    intros k v Hk. by rewrite lookup_empty in Hk.
  - intros Hb Hcfg Hfull.
    assert (style_argument b chart_style = chart_style) as ->
      by (destruct b; done).
    destruct (create_config_dict_from_spec cfg chart_style _ Hcfg ∅)
      as (out & Hrun & _ & Hin).
    exists out. split; [exact Hrun|].
    intros key attr Hka.
    destruct (Hcfg key attr Hka) as [dv Hdv].
    destruct (Hfull key attr Hka) as (v & Hv & Hnn).
    rewrite (Hin (declared_attrs_NoDup c b) key attr dv Hka Hdv), Hv.
    cbn. apply is_none_false in Hnn. by rewrite Hnn.
  - intros text_type key suffix. apply get_text_style_lookup.
Qed.

Lemma style_builders_filter_null_witness :
  exists out, get_grid_style sample_grid_config sample_grid_style = Ok out
    /\ forall key attr, (key, attr) ∈ grid_attrs ->
         out !! key = sample_grid_style !! attr.
Proof.
  refine (proj1 (proj2 (style_builders_filter_null SrcCopy GridStyle
                          sample_grid_config sample_grid_style)) _ _ _).
  - discriminate.
  - intros key attr Hin. cbn in Hin.
    repeat (apply elem_of_cons in Hin as [[= -> ->]|Hin]; [by eexists|]).
    by apply elem_of_nil in Hin.
  - intros key attr Hin. cbn in Hin.
    repeat (apply elem_of_cons in Hin as [[= -> ->]|Hin];
            [by eexists; split; [reflexivity|]|]).
    by apply elem_of_nil in Hin.
Defined.

(** C4, the claim as stated fails: the text builder keeps a key whose
    resolved value is null. *)
Lemma get_text_style_keeps_null :
  get_text_style {["font.general.size" := PInt 11]} "title" !! "fontsize"
  = Some (PInt 11)
  /\ get_text_style {["font.general.size" := PInt 11]} "title" !! "color"
     = Some PNone.
Proof. split; reflexivity. Qed.

(** ** The trace monad *)

Lemma trace_bind {A B} (m : M A) (f : A -> M B) :
  trace (bind m f)
  = trace m ++ match outcome m with Ok a => trace (f a) | Raise _ => [] end.
Proof.
  destruct m as [t [a|e]]; cbn; [|by rewrite app_nil_r].
  by destruct (f a).
Qed.

Lemma outcome_bind {A B} (m : M A) (f : A -> M B) :
  outcome (bind m f)
  = match outcome m with Ok a => outcome (f a) | Raise e => Raise e end.
Proof. destruct m as [t [a|e]]; cbn; [|done]. by destruct (f a). Qed.

Lemma Forall_trace_bind {A B} (P : event -> Prop) (m : M A) (f : A -> M B) :
  Forall P (trace m) ->
  (forall a, outcome m = Ok a -> Forall P (trace (f a))) ->
  Forall P (trace (bind m f)).
Proof.
  intros Hm Hf. rewrite trace_bind. apply Forall_app. split; [done|].
  destruct (outcome m) as [a|e]; [by apply Hf|constructor].
Qed.

Lemma Forall_trace_lift {A} (P : event -> Prop) (r : res A) :
  Forall P (trace (lift r)).
Proof. constructor. Qed.

Lemma Forall_trace_for_each_with {A S} (P : event -> Prop) (l : list A)
    (body : S -> A -> M S) :
  (forall s a, a ∈ l -> Forall P (trace (body s a))) ->
  forall s, Forall P (trace (for_each_with l s body)).
Proof.
  induction l as [|a l IH]; intros Hbody s; cbn [for_each_with].
  - constructor.
  - apply Forall_trace_bind; [apply Hbody; by left|].
    intros s' _. apply IH. intros s'' a' Ha'. apply Hbody. by right.
Qed.

(** ** Tick positions *)

(** C7.  For each axis the tick-position configurator handles: positions
    without labels set the ticks only; positions and labels of equal length
    set both; positions and labels of different lengths emit a warning and
    set the ticks only; labels without positions emit a warning and leave the
    axis unconfigured.  In each case the step returns, and the configurator
    is the step for the x axis followed by the step for the y axis. *)
Theorem tick_position_policy (ax : nat) (chart : gmap string pyval)
    (a0 a1 a2 : string) (ticks labels : pyval) :
  map_get chart a0 PNone = ticks ->
  map_get chart a1 PNone = labels ->
  (ticks <> PNone -> labels = PNone ->
   configure_ticks_of ax chart (a0, a1, a2)
   = ([ticks_call a2 ax ticks None], Ok tt))
  /\ (ticks <> PNone -> labels <> PNone ->
      forall n, py_len ticks = Ok n -> py_len labels = Ok n ->
      configure_ticks_of ax chart (a0, a1, a2)
      = ([ticks_call a2 ax ticks (Some labels)], Ok tt))
  /\ (ticks <> PNone -> labels <> PNone ->
      forall n k, py_len ticks = Ok n -> py_len labels = Ok k -> n <> k ->
      configure_ticks_of ax chart (a0, a1, a2)
      = ([Warn (ticks_length_msg a0 a1); ticks_call a2 ax ticks None], Ok tt))
  /\ (ticks = PNone -> labels <> PNone ->
      configure_ticks_of ax chart (a0, a1, a2)
      = ([Warn (ticks_unspecified_msg a0 a1)], Ok tt))
  /\ configure_axis_ticks_position ax chart
     = (configure_ticks_of ax chart ("xticks", "xticklabels", "xaxis") ;;
        configure_ticks_of ax chart ("yticks", "yticklabels", "yaxis") ;;
        ret tt).
Proof.
  intros Ht Hl. unfold configure_ticks_of, set_ticks, ticks_call.
  rewrite Ht, Hl.
  split; [|split; [|split; [|split]]].
  - intros Hnt ->. apply is_none_false in Hnt. rewrite Hnt. cbn.
    by destruct (String.eqb a2 "xaxis").
  - intros Hnt Hnl n Hn Hk.
    apply is_none_false in Hnt, Hnl. rewrite Hnt, Hnl, Hn, Hk. cbn.
    rewrite Z.eqb_refl. cbn. by destruct (String.eqb a2 "xaxis").
  - intros Hnt Hnl n k Hn Hk Hne.
    apply is_none_false in Hnt, Hnl. rewrite Hnt, Hnl, Hn, Hk. cbn.
    destruct (Z.eqb_spec n k); [done|]. cbn.
    by destruct (String.eqb a2 "xaxis").
  - intros -> Hnl. apply is_none_false in Hnl. by rewrite Hnl.
  - reflexivity.
Qed.

Lemma tick_position_policy_witness :
  configure_ticks_of 0 sample_ticks_chart ("xticks", "xticklabels", "xaxis")
  = ([Warn (ticks_length_msg "xticks" "xticklabels");
      SetXTicks 0 (PList [PInt 1; PInt 2; PInt 3]) None], Ok tt).
Proof.
  refine (proj1 (proj2 (proj2 (tick_position_policy 0 sample_ticks_chart
            "xticks" "xticklabels"
            "xaxis" (PList [PInt 1; PInt 2; PInt 3])
            (PList [PStr "a"; PStr "b"]) eq_refl eq_refl)))
            _ _ 3 2 eq_refl eq_refl _); discriminate.
Defined.

Example tick_labels_without_positions :
  configure_axis_ticks_position 0 {["xticklabels" := PList [PStr "a"]]}
  = ([Warn (ticks_unspecified_msg "xticks" "xticklabels")], Ok tt).
Proof. reflexivity. Qed.

(** ** The drawing-config check *)

Lemma assert_chart_config_spec (chart_config : dict) (supported : list string) :
  assert_chart_config chart_config supported
  = (map (fun item => Warn (unsupported_msg item.1))
       (List.filter (warned supported) chart_config), Ok tt).
Proof.
  unfold assert_chart_config.
  induction chart_config as [|[key val] rest IH]; [reflexivity|].
  cbn [for_each List.filter]. rewrite IH. unfold warned at 2. cbn [fst snd].
  destruct (negb (bool_decide (key ∈ supported)) && truthy val); reflexivity.
Qed.

(** C8, the claim as stated fails: the configuration [chart_wrapper] builds
    by default holds the key ["orientation"], which the line drawer does
    not support, and the check emits no warning. *)
Lemma assert_chart_config_silent_on_falsy :
  In "orientation" (map fst (wrapper_chart_config []))
  /\ ~ In "orientation" (supported_chart_config LineChart)
  /\ assert_chart_config (wrapper_chart_config [])
       (supported_chart_config LineChart) = ([], Ok tt).
Proof.
  split; [cbn; tauto|]. split; [|reflexivity].
  cbn. intros [H|[H|[H|[H|[]]]]]; discriminate.
Qed.

(** ** Histogram drawer *)

Section HistogramDrawer.
Context `{PyRuntime}.

Lemma assert_chart_config_no_hist (chart_config : dict) (supported : list string) :
  Forall (fun ev => is_hist ev = false)
    (trace (assert_chart_config chart_config supported)).
Proof.
  rewrite assert_chart_config_spec. cbn [trace fst].
  apply Forall_forall. intros ev Hin. apply list_elem_of_In, in_map_iff in Hin.
  by destruct Hin as (item & <- & _).
Qed.

Lemma Forall_trace_call_grid (P : event -> Prop) (ax : nat) (axis : pyval)
    (kwargs : gmap string pyval) :
  P (Grid ax axis kwargs) -> Forall P (trace (call_grid ax axis kwargs)).
Proof.
  intros HP. unfold call_grid.
  destruct (kwargs_clash _ _); repeat constructor; exact HP.
Qed.

Lemma Forall_trace_call_hist (P : event -> Prop) (ax : nat) (x : hist_data)
    (bins : ndarray) (density cumulative : option npval) (orientation : pyval)
    (stacked : bool) (kwargs : gmap string pyval) :
  P (Hist ax x bins density cumulative orientation stacked kwargs) ->
  Forall P (trace (call_hist ax x bins density cumulative orientation stacked
                     kwargs)).
Proof.
  intros HP. unfold call_hist.
  destruct (kwargs_clash _ _); repeat constructor; exact HP.
Qed.

(** Every histogram call of a run satisfies [P], provided the call of the
    shared-axis branch and the calls of the subplot loop do. *)
Lemma draw_hist_chart_calls (P : event -> Prop)
    (cfg : gmap string pyval) (axes : list nat) (charts : list dict)
    (chart_config : dict) :
  (forall ev, is_hist ev = false -> P ev) ->
  (forall x_all bins as_subplots cyc hcs hist_config ax0,
      res_mapM (get_chart_data "x") charts = Ok x_all ->
      shared_bins x_all (dict_get chart_config "n_bins" (PInt 20)) = Ok bins ->
      dict_getitem chart_config "as_subplots" = Ok as_subplots ->
      truthy as_subplots = false ->
      custom_color_cycle cfg as_subplots (Z.of_nat (length charts)) = Ok cyc ->
      resolve_hist_configs cfg cyc charts = Ok hcs ->
      stacked_hist_config hcs.1 = Ok hist_config ->
      list_first axes = Ok ax0 ->
      P (Hist ax0 (AllSeries x_all) bins None None
           (dict_get chart_config "orientation" (PStr "vertical")) true
           hist_config)) ->
  (forall x_all bins as_subplots chart ax x density cumulative cyc r,
      res_mapM (get_chart_data "x") charts = Ok x_all ->
      shared_bins x_all (dict_get chart_config "n_bins" (PInt 20)) = Ok bins ->
      dict_getitem chart_config "as_subplots" = Ok as_subplots ->
      truthy as_subplots = true ->
      (chart, ax) ∈ zip charts axes ->
      get_chart_data "x" chart = Ok x ->
      get_chart_data "density" chart = Ok density ->
      get_chart_data "cumulative" chart = Ok cumulative ->
      resolve_hist_config cfg cyc chart = Ok r ->
      P (Hist ax (OneSeries x) bins (Some density) (Some cumulative)
           (dict_get chart_config "orientation" (PStr "vertical")) false
           r.1)) ->
  Forall P (trace (draw_hist_chart cfg axes charts chart_config)).
Proof.
  intros Hother Hshared Hsub. unfold draw_hist_chart.
  apply Forall_trace_bind.
  { eapply Forall_impl; [apply assert_chart_config_no_hist|]. exact Hother. }
  intros _ _.
  apply Forall_trace_bind; [apply Forall_trace_lift|]. intros x_all Hx.
  apply Forall_trace_bind; [apply Forall_trace_lift|]. intros bins Hbins.
  apply Forall_trace_bind; [apply Forall_trace_lift|]. intros as_subplots Has.
  apply Forall_trace_bind; [apply Forall_trace_lift|]. intros cyc Hcyc.
  cbn [outcome lift snd] in Hx, Hbins, Has, Hcyc.
  destruct (truthy as_subplots) eqn:Htr; cbn [negb].
  - apply Forall_trace_bind; [|intros; constructor].
    apply Forall_trace_for_each_with. intros cyc' [chart ax] Hin.
    unfold draw_hist_subplot.
    apply Forall_trace_bind; [apply Forall_trace_lift|]. intros x Hx1.
    apply Forall_trace_bind; [apply Forall_trace_lift|]. intros dens Hd.
    apply Forall_trace_bind; [apply Forall_trace_lift|]. intros cum Hc.
    apply Forall_trace_bind; [apply Forall_trace_lift|]. intros r Hr.
    apply Forall_trace_bind; [apply Forall_trace_lift|]. intros as2 Has2.
    cbn [outcome lift snd] in Hx1, Hd, Hc, Hr, Has2.
    rewrite Has in Has2. injection Has2 as <-. rewrite Htr. cbn [negb].
    apply Forall_trace_bind.
    { apply Forall_trace_call_hist. by eapply Hsub. }
    intros _ _.
    apply Forall_trace_bind; [apply Forall_trace_lift|]. intros grid _.
    apply Forall_trace_bind; [|intros; constructor].
    destruct (truthy grid); [|constructor].
    apply Forall_trace_bind; [apply Forall_trace_lift|]. intros gs _.
    apply Forall_trace_call_grid. by apply Hother.
  - apply Forall_trace_bind; [apply Forall_trace_lift|]. intros hcs Hhcs.
    apply Forall_trace_bind; [apply Forall_trace_lift|]. intros hc Hhc.
    apply Forall_trace_bind; [apply Forall_trace_lift|]. intros ax0 Hax.
    cbn [outcome lift snd] in Hhcs, Hhc, Hax.
    apply Forall_trace_bind.
    { apply Forall_trace_call_hist. by eapply Hshared. }
    intros _ _.
    apply Forall_trace_bind; [apply Forall_trace_lift|]. intros grid _.
    destruct (truthy grid); [|constructor].
    apply Forall_trace_bind; [apply Forall_trace_lift|]. intros chart0 _.
    apply Forall_trace_bind; [apply Forall_trace_lift|]. intros gs _.
    apply Forall_trace_call_grid. by apply Hother.
Qed.



Lemma resolve_hist_configs_first (cfg : gmap string pyval) (cyc : cycle)
    (charts : list dict) (hcs : list (gmap string pyval) * cycle)
    (first : gmap string pyval) :
  resolve_hist_configs cfg cyc charts = Ok hcs ->
  list_first hcs.1 = Ok first ->
  exists chart0 rest cyc1,
    charts = chart0 :: rest
    /\ resolve_hist_config cfg cyc chart0 = Ok (first, cyc1).
Proof.
  destruct charts as [|chart0 rest]; cbn [resolve_hist_configs].
  - intros [= <-]. cbn. discriminate.
  - destruct (resolve_hist_config cfg cyc chart0) as [[f cyc1]|] eqn:Hr;
      [|discriminate].
    cbn [res_bind snd fst].
    destruct (resolve_hist_configs cfg cyc1 rest) as [rs|]; [|discriminate].
    cbn [res_bind]. intros [= <-]. cbn [fst list_first]. intros [= <-].
    by exists chart0, rest, cyc1.
Qed.

(** C10.  In shared-axis mode (the [as_subplots] entry is falsy) a
    histogram call of the drawer is the stacked call, and its keyword
    arguments are the first series' resolved style mapping with the entry
    ["color"] replaced: every argument other than the color is the first
    series', and the other series enter only through the list of their
    resolved colors, which is passed whole, or as [None] when one of the
    resolved colors is [None]. *)
Theorem hist_shared_axis_style (cfg : gmap string pyval) (axes : list nat)
    (charts : list dict) (chart_config : dict) (as_subplots : pyval)
    (ax : nat) (x : hist_data) (bins : ndarray)
    (density cumulative : option npval) (orientation : pyval)
    (stacked : bool) (kwargs : gmap string pyval) :
  dict_getitem chart_config "as_subplots" = Ok as_subplots ->
  truthy as_subplots = false ->
  Hist ax x bins density cumulative orientation stacked kwargs
    ∈ trace (draw_hist_chart cfg axes charts chart_config) ->
  exists cyc chart0 rest first cyc1 hcs colors,
    charts = chart0 :: rest
    /\ custom_color_cycle cfg as_subplots (Z.of_nat (length charts)) = Ok cyc
    /\ resolve_hist_config cfg cyc chart0 = Ok (first, cyc1)
    /\ resolve_hist_configs cfg cyc charts = Ok hcs
    /\ res_mapM (fun c => map_getitem c "color") hcs.1 = Ok colors
    /\ kwargs = <["color" := if existsb is_none colors then PNone
                             else PList colors]> first
    /\ (forall k, k <> "color" -> kwargs !! k = first !! k)
    /\ stacked = true /\ density = None /\ cumulative = None.
Proof.
  intros Has Hfalsy Hin.
  enough (Forall
            (fun ev' => forall ax x bins d c o s kw,
               ev' = Hist ax x bins d c o s kw ->
               exists cyc chart0 rest first cyc1 hcs colors,
                 charts = chart0 :: rest
                 /\ custom_color_cycle cfg as_subplots
                      (Z.of_nat (length charts)) = Ok cyc
                 /\ resolve_hist_config cfg cyc chart0 = Ok (first, cyc1)
                 /\ resolve_hist_configs cfg cyc charts = Ok hcs
                 /\ res_mapM (fun c => map_getitem c "color") hcs.1 = Ok colors
                 /\ kw = <["color" := if existsb is_none colors then PNone
                                      else PList colors]> first
                 /\ (forall k, k <> "color" -> kw !! k = first !! k)
                 /\ s = true /\ d = None /\ c = None)
            (trace (draw_hist_chart cfg axes charts chart_config))) as HF.
  { rewrite Forall_forall in HF. exact (HF _ Hin _ _ _ _ _ _ _ _ eq_refl). }
  clear Hin. apply draw_hist_chart_calls.
  - intros ev' Hev'. by destruct ev'.
  - intros x_all b0 as0 cyc hcs hc ax0 _ _ Has0 _ Hcyc Hhcs Hhc _.
    rewrite Has in Has0. injection Has0 as <-.
    intros ax' x' b' d' c' o' s' kw' [= _ _ _ <- <- _ <- <-].
    unfold stacked_hist_config in Hhc.
    destruct (res_mapM _ hcs.1) as [colors|] eqn:Hcolors; [|discriminate].
    cbn [res_bind] in Hhc.
    destruct (list_first hcs.1) as [first|] eqn:Hfirst; [|discriminate].
    cbn [res_bind] in Hhc. injection Hhc as <-.
    destruct (resolve_hist_configs_first _ _ _ _ _ Hhcs Hfirst)
      as (chart0 & rest & cyc1 & Hcharts & Hres).
    exists cyc, chart0, rest, first, cyc1, hcs, colors.
    split_and!; try done.
    intros k Hk. by rewrite lookup_insert_ne.
  - intros x_all b0 as0 chart ax0 x0 d0 c0 cyc r _ _ Has0 Htruthy.
    rewrite Has in Has0. injection Has0 as <-. congruence.
Qed.

End HistogramDrawer.

(** *** How many histogram calls a run makes *)

Section HistogramCalls.
Context `{PyRuntime}.

Lemma hist_calls_bind {A B} (m : M A) (f : A -> M B) :
  hist_calls (trace (bind m f))
  = hist_calls (trace m)
    ++ match outcome m with
       | Ok a => hist_calls (trace (f a))
       | Raise _ => []
       end.
Proof.
  rewrite trace_bind. unfold hist_calls. rewrite List.filter_app.
  by destruct (outcome m).
Qed.

Lemma hist_calls_assert_chart_config (chart_config : dict)
    (supported : list string) :
  hist_calls (trace (assert_chart_config chart_config supported)) = [].
Proof.
  rewrite assert_chart_config_spec. cbn [trace fst]. unfold hist_calls.
  induction (List.filter (warned supported) chart_config); [done|]. by cbn.
Qed.

Lemma hist_calls_call_grid (ax : nat) (axis : pyval)
    (kwargs : gmap string pyval) :
  hist_calls (trace (call_grid ax axis kwargs)) = [].
Proof. unfold call_grid. by destruct (kwargs_clash _ _). Qed.

Lemma call_hist_returns (ax : nat) (x : hist_data) (bins : ndarray)
    (density cumulative : option npval) (orientation : pyval)
    (stacked : bool) (kwargs : gmap string pyval) :
  outcome (call_hist ax x bins density cumulative orientation stacked kwargs)
  = Ok tt ->
  call_hist ax x bins density cumulative orientation stacked kwargs
  = ([Hist ax x bins density cumulative orientation stacked kwargs], Ok tt).
Proof. unfold call_hist. by destruct (kwargs_clash _ _). Qed.

Lemma hist_calls_call_hist_le (ax : nat) (x : hist_data) (bins : ndarray)
    (density cumulative : option npval) (orientation : pyval)
    (stacked : bool) (kwargs : gmap string pyval) :
  (length (hist_calls (trace (call_hist ax x bins density cumulative
                                orientation stacked kwargs))) <= 1)%nat.
Proof. unfold call_hist. destruct (kwargs_clash _ _); cbn; lia. Qed.

Local Ltac count_calls :=
  change (hist_calls []) with (@nil event);
  rewrite ?hist_calls_call_grid, ?app_nil_r; cbn [app length]; lia.

(** In shared-axis mode the drawer makes at most one histogram call. *)
Lemma draw_hist_chart_single_call (cfg : gmap string pyval)
    (axes : list nat) (charts : list dict) (chart_config : dict)
    (as_subplots : pyval) :
  dict_getitem chart_config "as_subplots" = Ok as_subplots ->
  truthy as_subplots = false ->
  (length (hist_calls (trace (draw_hist_chart cfg axes charts chart_config)))
   <= 1)%nat.
Proof.
  intros Has Hfalsy. unfold draw_hist_chart.
  rewrite hist_calls_bind, hist_calls_assert_chart_config.
  rewrite assert_chart_config_spec. cbn [outcome snd app].
  repeat (rewrite hist_calls_bind; cbn [trace outcome lift fst snd app];
          match goal with
          | |- context [match ?r with Ok _ => _ | Raise _ => _ end] =>
              destruct r; [|cbn; lia]
          end).
  all: try (injection Has as <-).
  rewrite Hfalsy. cbn [negb].
  change (hist_calls []) with (@nil event). cbn [app].
  rewrite hist_calls_bind. cbn [trace outcome lift fst snd app].
  destruct (resolve_hist_configs _ _ _) as [hc|]; [|cbn; lia].
  rewrite hist_calls_bind. cbn [trace outcome lift fst snd app].
  destruct (stacked_hist_config _) as [hist_config|]; [|cbn; lia].
  rewrite hist_calls_bind. cbn [trace outcome lift fst snd app].
  destruct (list_first axes) as [ax0|]; [|cbn; lia].
  rewrite hist_calls_bind, length_app.
  pose proof (hist_calls_call_hist_le ax0 (AllSeries a) a0 None None
                (dict_get chart_config "orientation" (PStr "vertical")) true
                hist_config) as Hle.
  destruct (outcome (call_hist _ _ _ _ _ _ _ _)); [|count_calls].
  rewrite hist_calls_bind. cbn [trace outcome lift fst snd app].
  destruct (dict_getitem chart_config "grid") as [grid|]; [|count_calls].
  destruct (truthy grid); [|count_calls].
  rewrite hist_calls_bind. cbn [trace outcome lift fst snd app].
  destruct (list_first charts) as [chart0|]; [|count_calls].
  rewrite hist_calls_bind. cbn [trace outcome lift fst snd app].
  destruct (get_grid_style _ _) as [gs|]; [|count_calls].
  count_calls.
Qed.

Lemma draw_hist_subplot_one_call (cfg : gmap string pyval)
    (chart_config : dict) (bins : ndarray) (orientation : pyval)
    (cyc : cycle) (item : dict * nat) (cyc' : cycle) :
  outcome (draw_hist_subplot cfg chart_config bins orientation cyc item)
  = Ok cyc' ->
  length (hist_calls (trace (draw_hist_subplot cfg chart_config bins
                               orientation cyc item))) = 1%nat.
Proof.
  destruct item as [chart ax]. unfold draw_hist_subplot.
  rewrite !outcome_bind, !hist_calls_bind.
  cbn [trace outcome lift fst snd app].
  destruct (get_chart_data "x" chart) as [x|]; [|discriminate].
  rewrite !outcome_bind, !hist_calls_bind.
  cbn [trace outcome lift fst snd app].
  destruct (get_chart_data "density" chart) as [density|]; [|discriminate].
  rewrite !outcome_bind, !hist_calls_bind.
  cbn [trace outcome lift fst snd app].
  destruct (get_chart_data "cumulative" chart) as [cumulative|]; [|discriminate].
  rewrite !outcome_bind, !hist_calls_bind.
  cbn [trace outcome lift fst snd app].
  destruct (resolve_hist_config cfg cyc chart) as [r|]; [|discriminate].
  rewrite !outcome_bind, !hist_calls_bind.
  cbn [trace outcome lift fst snd app].
  destruct (dict_getitem chart_config "as_subplots") as [as_subplots|];
    [|discriminate].
  rewrite !outcome_bind, !hist_calls_bind.
  destruct (outcome (call_hist _ _ _ _ _ _ _ _)) as [[]|] eqn:Hcall;
    [|discriminate].
  rewrite (call_hist_returns _ _ _ _ _ _ _ _ Hcall).
  cbn [trace outcome lift fst snd app].
  destruct (dict_getitem chart_config "grid") as [grid|]; [|discriminate].
  rewrite !outcome_bind, !hist_calls_bind.
  destruct (truthy grid).
  - rewrite !outcome_bind, !hist_calls_bind.
    cbn [trace outcome lift fst snd app].
    destruct (get_grid_style _ _) as [gs|]; [|discriminate].
    rewrite hist_calls_call_grid.
    destruct (outcome (call_grid _ _ _)); [|discriminate]. by cbn.
  - by cbn.
Qed.

Lemma for_each_with_hist_calls {A S} (l : list A) (body : S -> A -> M S) :
  (forall s a s', outcome (body s a) = Ok s' ->
     length (hist_calls (trace (body s a))) = 1%nat) ->
  forall s s', outcome (for_each_with l s body) = Ok s' ->
    length (hist_calls (trace (for_each_with l s body))) = length l.
Proof.
  intros Hbody. induction l as [|a l IH]; intros s s'; cbn [for_each_with].
  - by cbn.
  - rewrite outcome_bind, hist_calls_bind, length_app.
    destruct (outcome (body s a)) as [s1|] eqn:Hs1; [|discriminate].
    intros Hrest. rewrite (Hbody s a s1 Hs1), (IH s1 s' Hrest). by cbn.
Qed.

(** In subplot mode a run that completes makes one histogram call per pair
    of [zip(charts, axes)]. *)
Lemma draw_hist_chart_subplot_calls (cfg : gmap string pyval)
    (axes : list nat) (charts : list dict) (chart_config : dict)
    (as_subplots : pyval) :
  dict_getitem chart_config "as_subplots" = Ok as_subplots ->
  truthy as_subplots = true ->
  outcome (draw_hist_chart cfg axes charts chart_config) = Ok tt ->
  length (hist_calls (trace (draw_hist_chart cfg axes charts chart_config)))
  = length (zip charts axes).
Proof.
  intros Has Htruthy. unfold draw_hist_chart.
  rewrite outcome_bind, hist_calls_bind, hist_calls_assert_chart_config.
  rewrite assert_chart_config_spec. cbn [outcome snd app].
  rewrite !outcome_bind, !hist_calls_bind.
  cbn [trace outcome lift fst snd app].
  destruct (res_mapM _ charts) as [x_all|]; [|discriminate].
  rewrite !outcome_bind, !hist_calls_bind.
  cbn [trace outcome lift fst snd app].
  destruct (shared_bins _ _) as [bins|]; [|discriminate].
  rewrite !outcome_bind, !hist_calls_bind.
  cbn [trace outcome lift fst snd app]. rewrite Has.
  rewrite !outcome_bind, !hist_calls_bind.
  cbn [trace outcome lift fst snd app].
  destruct (custom_color_cycle _ _ _) as [cyc|]; [|discriminate].
  rewrite Htruthy. cbn [negb].
  rewrite !outcome_bind, !hist_calls_bind.
  destruct (outcome (for_each_with _ _ _)) as [cyc'|] eqn:Hloop;
    [|discriminate].
  intros _. change (hist_calls []) with (@nil event).
  cbn [app ret trace fst]. change (hist_calls []) with (@nil event).
  rewrite app_nil_r.
  apply (for_each_with_hist_calls _ _
           (draw_hist_subplot_one_call cfg chart_config bins _) cyc cyc' Hloop).
Qed.

End HistogramCalls.

(** *** The bin edges of a run *)

Section SharedBins.
Context `{PyRuntime}.


(** The one histogram call of an iteration of the subplot loop that
    returns. *)
Lemma draw_hist_subplot_call (cfg : gmap string pyval)
    (chart_config : dict) (bins : ndarray) (orientation : pyval)
    (cyc cyc' : cycle) (chart : dict) (ax : nat) (as_subplots : pyval) :
  dict_getitem chart_config "as_subplots" = Ok as_subplots ->
  outcome (draw_hist_subplot cfg chart_config bins orientation cyc
             (chart, ax)) = Ok cyc' ->
  exists x density cumulative kwargs,
    get_chart_data "x" chart = Ok x
    /\ get_chart_data "density" chart = Ok density
    /\ get_chart_data "cumulative" chart = Ok cumulative
    /\ hist_calls (trace (draw_hist_subplot cfg chart_config bins orientation
                            cyc (chart, ax)))
       = [Hist ax (OneSeries x) bins (Some density) (Some cumulative)
            orientation (negb (truthy as_subplots)) kwargs].
Proof.
  intros Has. unfold draw_hist_subplot.
  rewrite !outcome_bind, !hist_calls_bind.
  cbn [trace outcome lift fst snd app].
  destruct (get_chart_data "x" chart) as [x|]; [|discriminate].
  rewrite !outcome_bind, !hist_calls_bind.
  cbn [trace outcome lift fst snd app].
  destruct (get_chart_data "density" chart) as [density|]; [|discriminate].
  rewrite !outcome_bind, !hist_calls_bind.
  cbn [trace outcome lift fst snd app].
  destruct (get_chart_data "cumulative" chart) as [cumulative|]; [|discriminate].
  rewrite !outcome_bind, !hist_calls_bind.
  cbn [trace outcome lift fst snd app].
  destruct (resolve_hist_config cfg cyc chart) as [r|]; [|discriminate].
  rewrite !outcome_bind, !hist_calls_bind.
  cbn [trace outcome lift fst snd app]. rewrite Has.
  rewrite !outcome_bind, !hist_calls_bind.
  destruct (outcome (call_hist _ _ _ _ _ _ _ _)) as [[]|] eqn:Hcall;
    [|discriminate].
  rewrite (call_hist_returns _ _ _ _ _ _ _ _ Hcall).
  cbn [trace outcome lift fst snd app].
  intros Hrest. exists x, density, cumulative, r.1.
  split; [done|]. split; [done|]. split; [done|].
  destruct (dict_getitem chart_config "grid") as [grid|]; [|done].
  rewrite !hist_calls_bind.
  destruct (truthy grid).
  - rewrite !hist_calls_bind. cbn [trace outcome lift fst snd app].
    destruct (get_grid_style _ _) as [gs|]; [|done].
    rewrite hist_calls_call_grid.
    destruct (outcome (bind (lift (Ok gs)) _)); reflexivity.
  - reflexivity.
Qed.


End SharedBins.

(** ** Canonical serialisation and color assignment *)




Section JsonCanonical.
Context `{PyRuntime}.

Local Abbreviation render_value :=
  (fun kv : string * pyval => match kv with (k, x) => (k, json_dumps x) end)
  (only parsing).




End JsonCanonical.

Lemma dict_lookup_list_to_map (k : string) (d : dict) :
  dict_lookup k d = (list_to_map d : gmap string pyval) !! k.
Proof.
  induction d as [|[k' v] d IH]; [done|].
  cbn [dict_lookup list_to_map foldr uncurry]. rewrite lookup_insert.
  destruct (String.eqb_spec k' k) as [->|Hne].
  - by rewrite decide_True.
  - by rewrite decide_False.
Qed.


Section ColorAssignment.
Context `{PyRuntime}.








(** The colors of the shared-axis histogram are the cycle's answers to the
    series' hashes, in order; each resolved configuration lays the series'
    own style over its color. *)
Lemma resolve_hist_configs_colors (cfg : gmap string pyval)
    (charts : list dict) :
  forall cyc hcs,
    resolve_hist_configs cfg cyc charts = Ok hcs ->
    exists colors,
      cycle_lookups cyc (cycle_keys HistChart charts) = Ok colors
      /\ Forall2 (fun hc color => exists hs, hc = hs ∪ color) hcs.1 colors.
Proof.
  induction charts as [|chart rest IH]; intros cyc hcs Hrun.
  - injection Hrun as <-. exists []. by split; [|constructor].
  - cbn [resolve_hist_configs] in Hrun. unfold resolve_hist_config in Hrun.
    cbn [cycle_keys map cycle_lookups].
    destruct (cycle_getitem cyc (chart_hash chart)) as [r|]; [|discriminate].
    cbn [res_bind] in Hrun |- *.
    destruct (get_hist_config cfg _) as [hs|]; [|discriminate].
    cbn [res_bind fst snd] in Hrun.
    destruct (resolve_hist_configs cfg r.2 rest) as [rs|] eqn:Hrest;
      [|discriminate].
    cbn [res_bind] in Hrun. injection Hrun as <-.
    destruct (IH r.2 rs Hrest) as (colors & Hcolors & Hall).
    cbn [cycle_keys] in Hcolors. rewrite Hcolors. cbn [res_bind].
    exists (r.1 :: colors). split; [done|].
    constructor; [by exists hs|done].
Qed.



End ColorAssignment.


Example color_assignment_sample :
  color_assignment (H := sample_runtime) LineChart sample_config
    (PBool false) [0%nat] [sample_spec]
  = Ok [ {["color" := PList [PStr "tab"; PInt 0]]};
         {["color" := PList [PStr "tab"; PInt 0]]} ].
Proof. vm_compute. reflexivity. Qed.

Example sample_hist_run :
  draw_hist_chart (H := sample_runtime) sample_config [0%nat] sample_charts
    sample_chart_config
  = ([Hist 0 (AllSeries [Raw (PList [PInt 1; PInt 2; PInt 2]);
                         Raw (PList [PInt 3])])
        (NdArray [PInt 0; PInt 1; PInt 2]) None None (PStr "vertical") true
        sample_hist_kwargs], Ok tt).
Proof. vm_compute. reflexivity. Qed.


(** The two sample runs: 21 edges for the 20 bins of the default on one
    plot area, and the three edges of the two configured bins on each plot
    area of the subplot run. *)
Example sample_hist_default_run :
  hist_calls (trace (draw_hist_chart (H := sample_runtime) sample_config
                       [0%nat] sample_charts sample_unset_bins_config))
  = [Hist 0 (AllSeries [Raw (PList [PInt 1; PInt 2; PInt 2]);
                        Raw (PList [PInt 3])])
       (NdArray (map PInt (seqZ 0 21))) None None (PStr "vertical") true
       sample_hist_kwargs].
Proof. vm_compute. reflexivity. Qed.

Example sample_hist_subplot_run :
  map (fun ev => match ev with
                 | Hist ax x bins _ _ _ stacked _ => Some (ax, x, bins, stacked)
                 | _ => None
                 end)
    (trace (draw_hist_chart (H := sample_runtime) sample_config
              [0%nat; 1%nat] sample_charts sample_hist_subplot_config))
  = [ Some (0%nat, OneSeries (Raw (PList [PInt 1; PInt 2; PInt 2])),
            NdArray [PInt 0; PInt 1; PInt 2], false);
      Some (1%nat, OneSeries (Raw (PList [PInt 3])),
            NdArray [PInt 0; PInt 1; PInt 2], false) ].
Proof. vm_compute. reflexivity. Qed.


Lemma hist_shared_axis_style_witness :
  exists cyc chart0 rest first cyc1 hcs colors,
    sample_charts = chart0 :: rest
    /\ custom_color_cycle (H := sample_runtime) sample_config (PBool false)
         (Z.of_nat (length sample_charts)) = Ok cyc
    /\ resolve_hist_config (H := sample_runtime) sample_config cyc chart0
       = Ok (first, cyc1)
    /\ resolve_hist_configs (H := sample_runtime) sample_config cyc
         sample_charts = Ok hcs
    /\ res_mapM (fun c => map_getitem c "color") hcs.1 = Ok colors
    /\ sample_hist_kwargs
       = <["color" := if existsb is_none colors then PNone
                      else PList colors]> first
    /\ (forall k, k <> "color" -> sample_hist_kwargs !! k = first !! k)
    /\ true = true /\ @None npval = None /\ @None npval = None.
Proof.
  apply (hist_shared_axis_style (H := sample_runtime) sample_config [0%nat]
           sample_charts sample_chart_config (PBool false) 0%nat
           (AllSeries [Raw (PList [PInt 1; PInt 2; PInt 2]);
                       Raw (PList [PInt 3])])
           (NdArray [PInt 0; PInt 1; PInt 2]) None None (PStr "vertical")
           true sample_hist_kwargs eq_refl eq_refl).
  rewrite sample_hist_run. apply list_elem_of_here.
Defined.

(** The drawing configuration [chart_wrapper] builds when the caller sets no
    bin count holds the key ["n_bins"] with the value [None], so the
    drawer's default of 20 bins is not used on that path. *)
Lemma wrapper_passes_no_bin_count (attrs : dict) :
  dict_lookup "n_bins" attrs = None ->
  dict_get (wrapper_chart_config attrs) "n_bins" (PInt 20) = PNone.
Proof. intros Hn. cbn. unfold dict_get. by rewrite Hn. Qed.

Example hist_default_bin_count :
  dict_get [("as_subplots", PBool true)] "n_bins" (PInt 20) = PInt 20.
Proof. reflexivity. Qed.

(** * Further properties of the code *)

(** ** The wider effect monad *)

Lemma calls_bind {E A B} (m : Eff E A) (f : A -> Eff E B) :
  calls (m ≫= f)
  = calls m ++ match result m with Ok a => calls (f a) | Raise _ => [] end.
Proof.
  destruct m as [t [a|e]]; cbn; [|by rewrite app_nil_r].
  by destruct (f a).
Qed.

Lemma result_bind {E A B} (m : Eff E A) (f : A -> Eff E B) :
  result (m ≫= f)
  = match result m with Ok a => result (f a) | Raise e => Raise e end.
Proof. destruct m as [t [a|e]]; cbn; [|done]. by destruct (f a). Qed.

Lemma Forall_calls_bind {E A B} (P : E -> Prop) (m : Eff E A)
    (f : A -> Eff E B) :
  Forall P (calls m) ->
  (forall a, result m = Ok a -> Forall P (calls (f a))) ->
  Forall P (calls (m ≫= f)).
Proof.
  intros Hm Hf. rewrite calls_bind. apply Forall_app. split; [done|].
  destruct (result m) as [a|e]; [by apply Hf|constructor].
Qed.

Lemma Forall_calls_attempt {E A} (P : E -> Prop) (r : res A) :
  Forall P (calls (attempt r)).
Proof. constructor. Qed.

Lemma Forall_calls_for_each_with {E A S} (P : E -> Prop) (l : list A)
    (body : S -> A -> Eff E S) :
  (forall s a, a ∈ l -> Forall P (calls (body s a))) ->
  forall s, Forall P (calls (eff_for_each_with l s body)).
Proof.
  induction l as [|a l IH]; intros Hbody s; cbn [eff_for_each_with].
  - constructor.
  - apply Forall_calls_bind; [apply Hbody; by left|].
    intros s' _. apply IH. intros s'' a' Ha'. apply Hbody. by right.
Qed.

Lemma attempt_bind {E A B} (r : res A) (f : A -> Eff E B) :
  attempt r ≫= f = match r with Ok a => f a | Raise e => ([], Raise e) end.
Proof. destruct r as [a|e]; [|reflexivity]. cbn. by destruct (f a). Qed.

Lemma mret_bind {E A B} (a : A) (f : A -> Eff E B) : mret a ≫= f = f a.
Proof. cbn. by destruct (f a). Qed.

Lemma perform_bind {E B} (c : E) (f : unit -> Eff E B) :
  perform c ≫= f = (c :: calls (f tt), result (f tt)).
Proof. cbn. by destruct (f tt). Qed.

(** ** Spines and tick style *)

(** X4.  [configure_axes_spines] turns the axes on first, whatever
    happens next.  When the configuration maps the spine width, the spine
    z-order and the visibility of each of the four spines, the function
    returns after exactly four [set] calls, for top, bottom, left and right
    in that order, all with the same line width and z-order and each with
    its own visibility; it returns in no other case, and an error it raises
    is the missing-key error of a path the configuration lacks. *)
Theorem configure_axes_spines_calls (cfg : gmap string pyval) (ax : nat) :
  (forall w z,
     cfg !! "axes.spines.width" = Some w ->
     cfg !! "axes.spines.zorder" = Some z ->
     (forall s, s ∈ spine_names -> is_Some (cfg !! spine_visible_key s)) ->
     configure_axes_spines cfg ax
     = (AxisOn ax
        :: map (fun s => SpineSet ax s w
                           (default PNone (cfg !! spine_visible_key s)) z)
             spine_names,
        Ok tt))
  /\ (result (configure_axes_spines cfg ax) = Ok tt ->
      is_Some (cfg !! "axes.spines.width")
      /\ is_Some (cfg !! "axes.spines.zorder")
      /\ forall s, s ∈ spine_names -> is_Some (cfg !! spine_visible_key s))
  /\ (forall e, result (configure_axes_spines cfg ax) = Raise e ->
        exists k, e = KeyError k /\ cfg !! k = None)
  /\ head (calls (configure_axes_spines cfg ax)) = Some (AxisOn ax).
Proof.
  unfold configure_axes_spines, spine_names, config_getitem, map_getitem.
  split; [|split; [|split]].
  - intros w z Hw Hz Hv.
    destruct (Hv "top" ltac:(set_solver)) as [v1 H1].
    destruct (Hv "bottom" ltac:(set_solver)) as [v2 H2].
    destruct (Hv "left" ltac:(set_solver)) as [v3 H3].
    destruct (Hv "right" ltac:(set_solver)) as [v4 H4].
    cbn. rewrite Hw, Hz, H1, H2, H3, H4. reflexivity.
  - cbn.
    repeat match goal with
           | |- context [cfg !! ?k] =>
               let Hk := fresh "Hk" in
               destruct (cfg !! k) eqn:Hk; [|discriminate]
           end.
    intros _. split; [done|]. split; [done|].
    intros s Hs. unfold spine_names in Hs.
    repeat (apply elem_of_cons in Hs as [->|Hs];
            [unfold spine_visible_key; cbn; by eexists|]).
    by apply elem_of_nil in Hs.
  - intros e. cbn.
    repeat match goal with
           | |- context [cfg !! ?k] =>
               let Hk := fresh "Hk" in
               destruct (cfg !! k) eqn:Hk;
               [|intros [= <-]; by eexists]
           end.
    discriminate.
  - rewrite calls_bind. reflexivity.
Qed.

(** X5.  For the x or the y axis, [configure_axis_ticks_style] makes one
    [set_tick_params] call on the major ticks when the configuration maps
    the three paths it reads, and an error it raises is the missing-key
    error of a path the configuration lacks.  The tick width is read from
    the path of the spine width: the ticks of an axis are as wide as the
    spines [configure_axes_spines] draws. *)
Theorem configure_axis_ticks_style_calls (cfg : gmap string pyval) (ax : nat)
    (axis_type : string) :
  (axis_type ∈ ["xaxis"; "yaxis"] ->
   (forall w l s,
      cfg !! "axes.spines.width" = Some w ->
      cfg !! "axes.ticks.length" = Some l ->
      cfg !! "axes.ticks.label.size" = Some s ->
      configure_axis_ticks_style cfg ax axis_type
      = ([SetTickParams ax axis_type "major" w l s], Ok tt))
   /\ (forall e, result (configure_axis_ticks_style cfg ax axis_type) = Raise e ->
         exists k, e = KeyError k /\ cfg !! k = None))
  /\ (forall s lw v z a which w l ls,
        SpineSet ax s lw v z ∈ calls (configure_axes_spines cfg ax) ->
        SetTickParams ax a which w l ls
          ∈ calls (configure_axis_ticks_style cfg ax axis_type) ->
        lw = w /\ which = "major" /\ a = axis_type).
Proof.
  split.
  - intros Hin. unfold configure_axis_ticks_style.
    rewrite (bool_decide_eq_true_2 _ Hin).
    unfold config_getitem, map_getitem. split.
    + intros w l s -> -> ->. reflexivity.
    + intros e. cbn.
      repeat match goal with
             | |- context [cfg !! ?k] =>
                 let Hk := fresh "Hk" in
                 destruct (cfg !! k) eqn:Hk;
                 [|intros [= <-]; by eexists]
             end.
      discriminate.
  - intros s lw v z a which w l ls Hsp Htk.
    unfold configure_axis_ticks_style in Htk.
    destruct (bool_decide _); [|by apply elem_of_nil in Htk].
    unfold configure_axes_spines, spine_names in Hsp.
    unfold config_getitem, map_getitem in Hsp, Htk. cbn in Hsp, Htk.
    destruct (cfg !! "axes.spines.width") as [w0|];
      [|by apply elem_of_nil in Htk].
    assert (w = w0 /\ which = "major" /\ a = axis_type) as (-> & -> & ->).
    { destruct (cfg !! "axes.ticks.length");
        [|by apply elem_of_nil in Htk].
      destruct (cfg !! "axes.ticks.label.size");
        [|by apply elem_of_nil in Htk].
      apply list_elem_of_singleton in Htk. by injection Htk as -> -> -> -> ->. }
    split; [|done].
    repeat match type of Hsp with
           | context [cfg !! ?k] => destruct (cfg !! k)
           end;
      repeat (apply elem_of_cons in Hsp as [Hsp|Hsp];
              [try discriminate; by injection Hsp as -> -> -> ->|]);
      by apply elem_of_nil in Hsp.
Qed.

(** ** Axis limits *)

(** X6.  [configure_axis_limits] needs all four keys [x_min], [x_max],
    [y_min], [y_max] in the settings, also when their value is [None]: it
    returns exactly when they are present and otherwise raises the
    missing-key error of one of them.  When they are present, an axis whose
    two bounds are [None] is not touched, and an axis with a bound given is
    set once, a [None] bound being replaced by the axis's current limit;
    the x axis is set before the y axis. *)
Theorem configure_axis_limits_calls (ax : nat) (xlim ylim : pyval * pyval)
    (settings : gmap string pyval) :
  (forall xmin xmax ymin ymax,
     settings !! "x_min" = Some xmin -> settings !! "x_max" = Some xmax ->
     settings !! "y_min" = Some ymin -> settings !! "y_max" = Some ymax ->
     configure_axis_limits ax xlim ylim settings
     = ((if is_none xmin && is_none xmax then []
         else [SetXLim ax (if is_none xmin then xlim.1 else xmin)
                          (if is_none xmax then xlim.2 else xmax)])
        ++ (if is_none ymin && is_none ymax then []
            else [SetYLim ax (if is_none ymin then ylim.1 else ymin)
                             (if is_none ymax then ylim.2 else ymax)]),
        Ok tt))
  /\ (result (configure_axis_limits ax xlim ylim settings) = Ok tt ->
      forall k, k ∈ ["x_min"; "x_max"; "y_min"; "y_max"] ->
                is_Some (settings !! k))
  /\ (forall e, result (configure_axis_limits ax xlim ylim settings) = Raise e ->
        exists k, k ∈ ["x_min"; "x_max"; "y_min"; "y_max"]
                  /\ e = KeyError k /\ settings !! k = None).
Proof.
  unfold configure_axis_limits, bound_given, bound_or_current, map_getitem.
  split; [|split].
  - intros xmin xmax ymin ymax -> -> -> ->. cbn.
    destruct (is_none xmin), (is_none xmax), (is_none ymin), (is_none ymax);
      reflexivity.
  - destruct (settings !! "x_min") as [xmin|] eqn:H1; [|discriminate].
    destruct (settings !! "x_max") as [xmax|] eqn:H2;
      [|cbn; destruct (is_none xmin); discriminate].
    destruct (settings !! "y_min") as [ymin|] eqn:H3;
      [|cbn; destruct (is_none xmin), (is_none xmax); discriminate].
    destruct (settings !! "y_max") as [ymax|] eqn:H4;
      [|cbn; destruct (is_none xmin), (is_none xmax), (is_none ymin);
        discriminate].
    intros _ k Hk.
    repeat (apply elem_of_cons in Hk as [->|Hk]; [by eexists|]).
    by apply elem_of_nil in Hk.
  - intros e.
    destruct (settings !! "x_min") as [xmin|] eqn:H1;
      [|intros [= <-]; exists "x_min"; split; [set_solver|done]].
    destruct (settings !! "x_max") as [xmax|] eqn:H2;
      [|cbn; destruct (is_none xmin); intros [= <-];
        exists "x_max"; (split; [set_solver|done])].
    destruct (settings !! "y_min") as [ymin|] eqn:H3;
      [|cbn; destruct (is_none xmin), (is_none xmax); intros [= <-];
        exists "y_min"; (split; [set_solver|done])].
    destruct (settings !! "y_max") as [ymax|] eqn:H4;
      [|cbn; destruct (is_none xmin), (is_none xmax), (is_none ymin);
        intros [= <-]; exists "y_max"; (split; [set_solver|done])].
    cbn. destruct (is_none xmin), (is_none xmax), (is_none ymin),
      (is_none ymax); discriminate.
Qed.

(** ** Labels *)

(** X7.  [configure_labels] never raises.  It calls, in the order of the
    list, the action of every label that is a key of the settings, with the
    settings' value (also [None] or an empty string) and the text style of
    that label; the action of a label the settings lack is not called. *)
Theorem configure_labels_calls (cfg settings : gmap string pyval)
    (actions : list (string * string)) :
  configure_labels cfg settings actions
  = (omap (fun '(label, action) =>
             text ← settings !! label;
             Some (LabelAction action text (get_text_style cfg label)))
       actions,
     Ok tt).
Proof.
  unfold configure_labels.
  induction actions as [|[label action] rest IH]; [reflexivity|].
  cbn [eff_for_each]. rewrite IH. unfold has_key, map_getitem. cbn.
  destruct (settings !! label); reflexivity.
Qed.

(** ** Tick setters *)

(** What one step of the tick configurator may emit: a warning, or the
    setter of its axis with the chart's positions and, if any, labels of the
    same length. *)
Lemma configure_ticks_of_events (ax : nat) (chart : gmap string pyval)
    (a0 a1 a2 : string) :
  Forall (fun ev =>
            (exists msg, ev = Warn msg)
            \/ exists t l,
                 ev = ticks_call a2 ax t l
                 /\ chart !! a0 = Some t /\ t <> PNone
                 /\ match l with
                    | None => True
                    | Some v =>
                        chart !! a1 = Some v
                        /\ exists n, py_len t = Ok n /\ py_len v = Ok n
                    end)
    (trace (configure_ticks_of ax chart (a0, a1, a2))).
Proof.
  unfold configure_ticks_of, set_ticks, ticks_call.
  assert (forall l,
            map_get chart a0 PNone <> PNone ->
            match l with
            | None => True
            | Some v =>
                chart !! a1 = Some v
                /\ exists n, py_len (map_get chart a0 PNone) = Ok n
                             /\ py_len v = Ok n
            end ->
            Forall (fun ev =>
                      (exists msg, ev = Warn msg)
                      \/ exists t' l',
                           ev = (if String.eqb a2 "xaxis"
                                 then SetXTicks ax t' l'
                                 else SetYTicks ax t' l')
                           /\ chart !! a0 = Some t' /\ t' <> PNone
                           /\ match l' with
                              | None => True
                              | Some v =>
                                  chart !! a1 = Some v
                                  /\ exists n, py_len t' = Ok n
                                               /\ py_len v = Ok n
                              end)
              (trace (if String.eqb a2 "xaxis"
                      then emit (SetXTicks ax (map_get chart a0 PNone) l)
                      else emit (SetYTicks ax (map_get chart a0 PNone) l))))
    as Hset.
  { intros l Hnn Hl.
    assert (chart !! a0 = Some (map_get chart a0 PNone)) as Ht.
    { unfold map_get in *. by destruct (chart !! a0). }
    destruct (String.eqb a2 "xaxis");
      (constructor; [right; by eexists _, l|constructor]). }
  destruct (is_none (map_get chart a0 PNone)) eqn:Hnt; cbn [andb negb].
  { destruct (is_none (map_get chart a1 PNone)); cbn [negb]; [constructor|].
    constructor; [left; by eexists|constructor]. }
  apply is_none_false in Hnt.
  destruct (is_none (map_get chart a1 PNone)) eqn:Hnv.
  { by apply (Hset None). }
  apply is_none_false in Hnv.
  assert (chart !! a1 = Some (map_get chart a1 PNone)) as Hv.
  { unfold map_get in *. by destruct (chart !! a1). }
  apply Forall_trace_bind; [constructor|]. intros n Hn.
  apply Forall_trace_bind; [constructor|]. intros k Hk.
  cbn [outcome lift snd] in Hn, Hk.
  destruct (Z.eqb_spec n k) as [->|Hne]; cbn [negb].
  - apply (Hset (Some _)); [done|]. split; [done|]. by exists k.
  - apply Forall_trace_bind; [|intros; by apply (Hset None)].
    constructor; [left; by eexists|constructor].
Qed.

(** X8.  Whatever the chart holds, a call [configure_axis_ticks_position]
    makes on the x axis passes the chart's [xticks] (never [None]) and
    either no labels or the chart's [xticklabels], and then positions and
    labels have the same length; likewise on the y axis with [yticks] and
    [yticklabels].  Besides these calls it only warns.  It raises nothing
    but a [TypeError], and returns when every tick entry of the chart is
    [None] or a list. *)
Theorem tick_setters_get_matching_labels (ax : nat)
    (chart : gmap string pyval) :
  Forall (fun ev =>
            match ev with
            | Warn _ => True
            | SetXTicks a t l =>
                a = ax /\ chart !! "xticks" = Some t /\ t <> PNone
                /\ match l with
                   | None => True
                   | Some v =>
                       chart !! "xticklabels" = Some v
                       /\ exists n, py_len t = Ok n /\ py_len v = Ok n
                   end
            | SetYTicks a t l =>
                a = ax /\ chart !! "yticks" = Some t /\ t <> PNone
                /\ match l with
                   | None => True
                   | Some v =>
                       chart !! "yticklabels" = Some v
                       /\ exists n, py_len t = Ok n /\ py_len v = Ok n
                   end
            | _ => False
            end)
    (trace (configure_axis_ticks_position ax chart))
  /\ (forall e, outcome (configure_axis_ticks_position ax chart) = Raise e ->
        e = TypeError)
  /\ ((forall k v, k ∈ ["xticks"; "xticklabels"; "yticks"; "yticklabels"] ->
         chart !! k = Some v -> v = PNone \/ exists l, v = PList l) ->
      outcome (configure_axis_ticks_position ax chart) = Ok tt).
Proof.
  split; [|split].
  - unfold configure_axis_ticks_position, tick_attrs. cbn [for_each].
    apply Forall_trace_bind.
    { eapply Forall_impl; [apply configure_ticks_of_events|].
      intros ev [[msg ->]|(t & l & -> & Ht & Hnn & Hl)]; [done|].
      by cbn. }
    intros _ _. apply Forall_trace_bind; [|intros; constructor].
    eapply Forall_impl; [apply configure_ticks_of_events|].
    intros ev [[msg ->]|(t & l & -> & Ht & Hnn & Hl)]; [done|].
    by cbn.
  - intros e. unfold configure_axis_ticks_position, tick_attrs.
    cbn [for_each]. rewrite !outcome_bind.
    assert (forall a0 a1 a2 e',
              outcome (configure_ticks_of ax chart (a0, a1, a2)) = Raise e' ->
              e' = TypeError) as Hstep.
    { intros a0 a1 a2 e'. unfold configure_ticks_of, set_ticks.
      assert (forall v e0, py_len v = Raise e0 -> e0 = TypeError) as Hlen
        by (intros [] e0; cbn; congruence).
      destruct (is_none (map_get chart a0 PNone)),
        (is_none (map_get chart a1 PNone)); cbn [andb negb];
        try (destruct (String.eqb a2 "xaxis"); discriminate);
        try discriminate.
      rewrite !outcome_bind. cbn [outcome lift snd].
      destruct (py_len (map_get chart a0 PNone)) as [n|e0] eqn:Hn;
        [|intros [= <-]; by eapply Hlen].
      destruct (py_len (map_get chart a1 PNone)) as [k|e0] eqn:Hk;
        [|intros [= <-]; by eapply Hlen].
      cbn. destruct (n =? k), (String.eqb a2 "xaxis"); cbn; discriminate. }
    destruct (outcome (configure_ticks_of ax chart _)) as [[]|e1] eqn:H1;
      [|intros [= <-]; by eapply Hstep].
    destruct (outcome (configure_ticks_of ax chart ("yticks", _, _)))
      as [[]|e2] eqn:H2; [cbn; discriminate|intros [= <-]; by eapply Hstep].
  - intros Hshape. unfold configure_axis_ticks_position, tick_attrs.
    cbn [for_each]. rewrite !outcome_bind.
    assert (forall a0 a1 a2,
              a0 ∈ ["xticks"; "xticklabels"; "yticks"; "yticklabels"] ->
              a1 ∈ ["xticks"; "xticklabels"; "yticks"; "yticklabels"] ->
              outcome (configure_ticks_of ax chart (a0, a1, a2)) = Ok tt)
      as Hstep.
    { intros a0 a1 a2 H0 H1. unfold configure_ticks_of, set_ticks, map_get.
      pose proof (Hshape a0) as Hs0. pose proof (Hshape a1) as Hs1.
      destruct (chart !! a0) as [t|]; cbn [default].
      - destruct (Hs0 t H0 eq_refl) as [->|[lt ->]];
          (destruct (chart !! a1) as [v|]; cbn [default];
           [destruct (Hs1 v H1 eq_refl) as [->|[lv ->]]|]); cbn;
          try (by destruct (String.eqb a2 "xaxis"));
          try reflexivity.
        destruct (Z.of_nat (length lt) =? Z.of_nat (length lv)); cbn;
          by destruct (String.eqb a2 "xaxis").
      - destruct (chart !! a1) as [v|]; cbn [default]; [|reflexivity].
        destruct (Hs1 v H1 eq_refl) as [->|[lv ->]]; reflexivity. }
    rewrite !Hstep by set_solver. reflexivity.
Qed.

(** ** Subplot grid *)

(** X1.  With the subplots flag true and positive counts below [2 ^ 53],
    both copies of [get_subplot_config] return a grid with at least one row
    and between 1 and [max_cols] columns that has a cell for every chart and
    no empty row: [n <= rows * cols < n + cols]. *)
Theorem subplot_grid_holds_every_chart (n m : Z) :
  0 < n < 2 ^ 53 -> 0 < m < 2 ^ 53 ->
  exists rows cols,
    SrcAttrs.get_subplot_config true n m = Ok (mkSubplots rows cols)
    /\ DatachartAttrs.get_subplot_config true n m = Ok (mkSubplots rows cols)
    /\ 1 <= rows /\ 1 <= cols <= m
    /\ n <= rows * cols < n + cols.
Proof.
  intros Hn Hm.
  exists (PyFloat.ceil_div n m), (if m <=? n then m else n mod m).
  rewrite datachart_layout_positive by lia.
  rewrite (src_layout_below_2_53 true n m Hn Hm).
  split; [reflexivity|]. split; [reflexivity|].
  pose proof (ceil_div_bounds n m ltac:(lia)) as Hc.
  destruct (Z.leb_spec m n) as [Hle|Hlt].
  - nia.
  - rewrite (Z.mod_small n m) by lia.
    assert (PyFloat.ceil_div n m = 1) as -> by nia. lia.
Qed.

Lemma subplot_grid_holds_every_chart_witness :
  exists rows cols,
    SrcAttrs.get_subplot_config true 10 4 = Ok (mkSubplots rows cols)
    /\ DatachartAttrs.get_subplot_config true 10 4 = Ok (mkSubplots rows cols)
    /\ 1 <= rows /\ 1 <= cols <= 4
    /\ 10 <= rows * cols < 10 + cols.
Proof.
  apply (subplot_grid_holds_every_chart 10 4); split; reflexivity.
Defined.

(** ** Style builders: errors and precedence *)

Lemma create_config_dict_from_raises (cfg styles : gmap string pyval)
    (attrs : list (string * string)) :
  forall acc e,
    create_config_dict_from cfg styles attrs acc = Raise e ->
    exists pre key attr post,
      attrs = pre ++ (key, attr) :: post
      /\ Forall (fun p => is_Some (cfg !! p.2)) pre
      /\ cfg !! attr = None /\ e = KeyError attr.
Proof.
  induction attrs as [|[key attr] rest IH]; intros acc e Hrun.
  - discriminate.
  - cbn [create_config_dict_from] in Hrun.
    rewrite get_attr_value_config in Hrun.
    destruct (cfg !! attr) as [dv|] eqn:Hdv.
    + cbn [res_bind] in Hrun.
      assert (exists acc', create_config_dict_from cfg styles rest acc'
                           = Raise e) as [acc' Hrest].
      { destruct (is_none _); by eexists. }
      destruct (IH acc' e Hrest) as (pre & k & a & post & -> & Hpre & Ha & ->).
      exists ((key, attr) :: pre), k, a, post.
      split; [done|]. split; [|done]. constructor; [by eexists|done].
    + injection Hrun as <-. exists [], key, attr, rest.
      split; [done|]. split; [constructor|done].
Qed.

Lemma create_config_dict_from_missing (cfg styles : gmap string pyval)
    (pre post : list (string * string)) (key attr : string) :
  Forall (fun p => is_Some (cfg !! p.2)) pre ->
  cfg !! attr = None ->
  forall acc,
    create_config_dict_from cfg styles (pre ++ (key, attr) :: post) acc
    = Raise (KeyError attr).
Proof.
  intros Hpre Hattr. induction Hpre as [|[k a] pre [dv Hdv] Hpre IH];
    intros acc; cbn [app create_config_dict_from];
    rewrite get_attr_value_config.
  - by rewrite Hattr.
  - cbn [snd] in Hdv. rewrite Hdv. cbn [res_bind].
    destruct (is_none _); apply IH.
Qed.

Lemma first_missing_path (cfg : gmap string pyval)
    (attrs : list (string * string)) (key attr : string) :
  (key, attr) ∈ attrs -> cfg !! attr = None ->
  exists pre k a post,
    attrs = pre ++ (k, a) :: post
    /\ Forall (fun p => is_Some (cfg !! p.2)) pre
    /\ cfg !! a = None.
Proof.
  intros Hin Hdv. induction attrs as [|[k0 a0] rest IH].
  - by apply elem_of_nil in Hin.
  - destruct (cfg !! a0) as [dv0|] eqn:H0.
    + apply elem_of_cons in Hin as [[= -> ->]|Hin]; [congruence|].
      destruct (IH Hin) as (pre & k & a & post & -> & Hpre & Ha).
      exists ((k0, a0) :: pre), k, a, post.
      split; [done|]. split; [|done]. constructor; [by eexists|done].
    + exists [], k0, a0, rest. split; [done|]. split; [constructor|done].
Qed.

Lemma build_style_returns_iff (c : copy) (b : builder)
    (cfg chart_style : gmap string pyval) :
  (exists out, build_style c b cfg chart_style = Ok out)
  <-> forall key attr, (key, attr) ∈ declared_attrs c b ->
                       is_Some (cfg !! attr).
Proof.
  rewrite build_style_unfold. unfold create_config_dict. split.
  - intros [out Hrun] key attr Hin.
    destruct (cfg !! attr) as [dv|] eqn:Hdv; [by eexists|].
    destruct (first_missing_path cfg _ key attr Hin Hdv)
      as (pre & k & a & post & Hsplit & Hpre & Ha).
    rewrite Hsplit in Hrun.
    by rewrite (create_config_dict_from_missing _ _ _ _ _ _ Hpre Ha) in Hrun.
  - intros Hcfg.
    destruct (create_config_dict_from_spec cfg (style_argument b chart_style)
                _ Hcfg ∅) as (out & Hrun & _).
    by exists out.
Qed.

(** X2.  A style builder that goes through [create_config_dict] returns
    exactly when the global configuration maps every configuration path the
    builder declares.  Otherwise it raises the missing-key error of the
    first declared path the configuration lacks, and it does so whatever the
    series style holds: a value given in the style does not make up for a
    path the configuration lacks. *)
Theorem style_builder_missing_path (c : copy) (b : builder)
    (cfg chart_style : gmap string pyval) :
  ((exists out, build_style c b cfg chart_style = Ok out)
   <-> forall key attr, (key, attr) ∈ declared_attrs c b ->
                        is_Some (cfg !! attr))
  /\ (forall e, build_style c b cfg chart_style = Raise e ->
        exists pre key attr post,
          declared_attrs c b = pre ++ (key, attr) :: post
          /\ Forall (fun p => is_Some (cfg !! p.2)) pre
          /\ cfg !! attr = None /\ e = KeyError attr)
  /\ (forall chart_style' e,
        build_style c b cfg chart_style = Raise e ->
        build_style c b cfg chart_style' = Raise e).
Proof.
  split; [apply build_style_returns_iff|].
  rewrite build_style_unfold. unfold create_config_dict. split.
  - intros e Hrun. by eapply create_config_dict_from_raises.
  - intros chart_style' e Hrun. rewrite build_style_unfold.
    unfold create_config_dict.
    destruct (create_config_dict_from_raises _ _ _ _ _ Hrun)
      as (pre & key & attr & post & -> & Hpre & Ha & ->).
    by apply create_config_dict_from_missing.
Qed.

(** X3.  What a style builder returns.  Under a declared argument name the
    output holds the series style's value for the declared path when the
    style has that path, the configuration's value otherwise; the argument
    is left out when that value is [None], so a style entry [None]
    suppresses a non-null default of the configuration.  The output has no
    key besides the declared argument names, so entries of the style under
    other paths have no effect. *)
Theorem style_builder_precedence (c : copy) (b : builder)
    (cfg chart_style out : gmap string pyval) :
  build_style c b cfg chart_style = Ok out ->
  (forall key attr, (key, attr) ∈ declared_attrs c b ->
     exists dv, cfg !! attr = Some dv
       /\ out !! key
          = match style_argument b chart_style !! attr with
            | Some PNone => None
            | Some v => Some v
            | None => if is_none dv then None else Some dv
            end)
  /\ (forall key, key ∉ (declared_attrs c b).*1 -> out !! key = None).
Proof.
  intros Hrun.
  assert (forall key attr, (key, attr) ∈ declared_attrs c b ->
                           is_Some (cfg !! attr)) as Hcfg.
  { apply (proj1 (build_style_returns_iff c b cfg chart_style)).
    by exists out. }
  rewrite build_style_unfold in Hrun. unfold create_config_dict in Hrun.
  destruct (create_config_dict_from_spec cfg (style_argument b chart_style)
              _ Hcfg ∅) as (out' & Hrun' & Hframe & Hin).
  rewrite Hrun in Hrun'. injection Hrun' as <-.
  split.
  - intros key attr Hka. destruct (Hcfg key attr Hka) as [dv Hdv].
    exists dv. split; [done|].
    rewrite (Hin (declared_attrs_NoDup c b) key attr dv Hka Hdv).
    rewrite lookup_empty.
    destruct (style_argument b chart_style !! attr) as [v|]; cbn [default].
    + by destruct v.
    + done.
  - intros key Hk. by rewrite (Hframe key Hk), lookup_empty.
Qed.

(** ** Chart data *)

Section ChartData.
Context `{PyRuntime}.

Lemma py_eq_holds_label (label : string) (x : pyval) :
  py_eq (PStr label) x = holds_label label x.
Proof. by destruct x. Qed.

Lemma collect_points_label (label : string) (points : list pyval) :
  collect_points (PStr label) points
  = if existsb (point_rejected label) points then Raise TypeError
    else Ok (omap (point_value label) points).
Proof.
  induction points as [|p points IH]; [reflexivity|].
  cbn [collect_points existsb]. rewrite IH.
  change (omap (point_value label) (p :: points))
    with (match point_value label p with
          | Some v => v :: omap (point_value label) points
          | None => omap (point_value label) points
          end).
  destruct p as [| b | z | f | s | l | d];
    cbn [py_in py_in_dict point_rejected point_value res_bind orb];
    try reflexivity.
  - destruct (str_contains label s); cbn [orb]; [|reflexivity].
    cbn [py_getitem py_index res_bind]. reflexivity.
  - assert (existsb (py_eq (PStr label)) l = existsb (holds_label label) l)
      as -> by (induction l as [|x l IHl]; [done|];
                cbn [existsb]; by rewrite py_eq_holds_label, IHl).
    destruct (existsb (holds_label label) l); cbn [orb]; [|reflexivity].
    cbn [py_getitem py_index res_bind]. reflexivity.
  - destruct (dict_lookup label d) as [v|] eqn:Hv; [|reflexivity].
    cbn [py_getitem py_getitem_dict]. unfold dict_getitem. rewrite Hv.
    cbn [res_bind].
    destruct (existsb (point_rejected label) points); reflexivity.
Qed.

(** X9.  [get_chart_data(attr, chart)], when [chart.get(attr, attr)] is a
    string label.  Without a [data] entry it raises [KeyError("data")].
    For [data] that is a dict it returns the value under the label as it
    is, or [None] when the dict lacks the label.  For [data] that is a
    list it goes through the points in order: a dict contributes its value
    under the label, or nothing when it lacks the label; a list that does
    not hold the label as an element and a string that does not contain it
    contribute nothing; any other point (a list holding the label, a string
    containing it, [None], a number) makes the call raise a [TypeError].
    The values collected are made an array, and the result is [None] when
    that array is empty.  For [data] of any other type the result is
    [None]. *)
Theorem get_chart_data_by_shape (attr label : string) (chart : dict) :
  default (PStr attr) (dict_lookup attr chart) = PStr label ->
  (dict_lookup "data" chart = None ->
   get_chart_data attr chart = Raise (KeyError "data"))
  /\ (forall d, dict_lookup "data" chart = Some (PDict d) ->
        get_chart_data attr chart
        = Ok (Raw (default PNone (dict_lookup label d))))
  /\ (forall points,
        dict_lookup "data" chart = Some (PList points) ->
        get_chart_data attr chart
        = if existsb (point_rejected label) points then Raise TypeError
          else (a <-! np_array (omap (point_value label) points);
                Ok (if 0 <? Z.of_nat (length (nd_items a)) then Arr a
                    else Raw PNone)))
  /\ (forall v, dict_lookup "data" chart = Some v ->
        (forall d, v <> PDict d) -> (forall l, v <> PList l) ->
        get_chart_data attr chart = Ok (Raw PNone)).
Proof.
  intros Hlabel. unfold get_chart_data.
  cbn [get_attr_value res_bind]. unfold map_get.
  rewrite <- dict_lookup_list_to_map, Hlabel. unfold dict_getitem.
  split; [|split; [|split]].
  - by intros ->.
  - intros d ->. cbn. unfold dict_getitem.
    destruct (dict_lookup label d); reflexivity.
  - intros points ->. cbn [res_bind].
    rewrite collect_points_label.
    destruct (existsb _ points); [reflexivity|]. cbn [res_bind].
    destruct (np_array _) as [a|]; [|reflexivity]. cbn [res_bind].
    by destruct (0 <? _).
  - intros v -> Hd Hl. cbn [res_bind].
    destruct v; try reflexivity; [by destruct (Hl l)|by destruct (Hd d)].
Qed.

End ChartData.

Lemma get_chart_data_by_shape_witness :
  get_chart_data (H := sample_runtime) "x" sample_points_chart
  = Ok (Arr (NdArray [PInt 1; PInt 3])).
Proof.
  exact (proj1 (proj2 (proj2
           (get_chart_data_by_shape (H := sample_runtime) "x" "t"
              sample_points_chart eq_refl)))
           [ PDict [("t", PInt 1); ("y", PInt 5)]; PList [PInt 5];
             PDict [("y", PInt 6)]; PStr "abc";
             PDict [("t", PInt 3); ("y", PInt 7)] ]
           eq_refl).
Defined.

(** ** The drawers behind the wrapper *)

(** X10.  Behind [chart_wrapper] each drawer warns about exactly the two
    flags of the other chart types that the caller set to a truthy value,
    in the order the wrapper lists them: the line drawer about
    [orientation] and [n_bins], the bar drawer about [show_area] and
    [n_bins], the histogram drawer about [show_yerr] and [show_area].
    Flags left unset never warn, and the check returns. *)
Theorem wrapper_config_warnings (d : drawer) (attrs : dict) :
  assert_chart_config (wrapper_chart_config attrs) (supported_chart_config d)
  = (match d with
     | LineChart =>
         warn_if "orientation" (dict_get attrs "orientation" PNone)
         ++ warn_if "n_bins" (dict_get attrs "n_bins" PNone)
     | BarChart =>
         warn_if "area" (dict_get attrs "show_area" PNone)
         ++ warn_if "n_bins" (dict_get attrs "n_bins" PNone)
     | HistChart =>
         warn_if "yerr" (dict_get attrs "show_yerr" PNone)
         ++ warn_if "area" (dict_get attrs "show_area" PNone)
     end, Ok tt).
Proof.
  rewrite assert_chart_config_spec. unfold wrapper_chart_config, warn_if.
  f_equal.
  generalize (dict_get attrs "as_subplots" (PBool false)),
    (dict_get attrs "show_grid" PNone), (dict_get attrs "show_yerr" PNone),
    (dict_get attrs "show_area" PNone), (dict_get attrs "orientation" PNone),
    (dict_get attrs "n_bins" PNone).
  intros v1 v2 v3 v4 v5 v6. cbn [List.filter]. unfold warned. cbn [fst snd].
  destruct d; cbn [supported_chart_config];
    repeat match goal with
           | |- context [bool_decide (?k ∈ ?l)] =>
               let b := eval vm_compute in (bool_decide (k ∈ l)) in
               change (bool_decide (k ∈ l)) with b
           end;
    cbn [negb andb];
    repeat match goal with
           | |- context [truthy ?v] => destruct (truthy v)
           end; reflexivity.
Qed.

Section HistogramThroughWrapper.
Context `{PyRuntime}.

(** X11.  Behind [chart_wrapper] the defaults of the histogram drawer are
    out of reach: every histogram call gets the orientation
    [attrs.get("orientation")] and the bin edges computed for
    [attrs.get("n_bins")], which are [None] when the caller has not set
    them, and never ["vertical"] or 20 in their place, since the wrapper
    always passes both keys. *)
Theorem wrapper_overrides_hist_defaults (cfg : gmap string pyval)
    (axes : list nat) (charts : list dict) (attrs : dict)
    (ax : nat) (x : hist_data) (bins : ndarray)
    (density cumulative : option npval) (orientation : pyval)
    (stacked : bool) (kwargs : gmap string pyval) :
  Hist ax x bins density cumulative orientation stacked kwargs
    ∈ trace (draw_hist_chart cfg axes charts (wrapper_chart_config attrs)) ->
  orientation = dict_get attrs "orientation" PNone
  /\ exists x_all stacked_x h,
       res_mapM (get_chart_data "x") charts = Ok x_all
       /\ np_hstack x_all = Ok stacked_x
       /\ np_histogram stacked_x (dict_get attrs "n_bins" PNone) = Ok h
       /\ bins = h.2.
Proof.
  intros Hin.
  enough (Forall
            (fun ev' => forall ax x bins d c o s kw,
               ev' = Hist ax x bins d c o s kw ->
               o = dict_get attrs "orientation" PNone
               /\ exists x_all stacked_x h,
                    res_mapM (get_chart_data "x") charts = Ok x_all
                    /\ np_hstack x_all = Ok stacked_x
                    /\ np_histogram stacked_x (dict_get attrs "n_bins" PNone)
                       = Ok h
                    /\ bins = h.2)
            (trace (draw_hist_chart cfg axes charts
                      (wrapper_chart_config attrs)))) as HF.
  { rewrite Forall_forall in HF. exact (HF _ Hin _ _ _ _ _ _ _ _ eq_refl). }
  clear Hin.
  assert (forall x_all b0,
            shared_bins x_all
              (dict_get (wrapper_chart_config attrs) "n_bins" (PInt 20))
            = Ok b0 ->
            exists stacked_x h,
              np_hstack x_all = Ok stacked_x
              /\ np_histogram stacked_x (dict_get attrs "n_bins" PNone) = Ok h
              /\ b0 = h.2) as Hbins.
  { intros x_all b0. unfold shared_bins.
    change (dict_get (wrapper_chart_config attrs) "n_bins" (PInt 20))
      with (dict_get attrs "n_bins" PNone).
    destruct (np_hstack x_all) as [stacked_x|] eqn:Hst; [|discriminate].
    cbn [res_bind].
    destruct (np_histogram _ _) as [h|] eqn:Hh; [|discriminate].
    intros [= <-]. by exists stacked_x, h. }
  apply draw_hist_chart_calls.
  - intros ev' Hev'. destruct ev'; try discriminate; intros; discriminate.
  - intros x_all b0 as0 cyc hcs hc ax0 Hx Hb _ _ _ _ _ _.
    intros ax' x' b' d' c' o' s' kw' [= _ _ <- _ _ <- _ _].
    split; [reflexivity|].
    destruct (Hbins x_all b0 Hb) as (stacked_x & h & Hst & Hh & ->).
    by exists x_all, stacked_x, h.
  - intros x_all b0 as0 chart ax0 x0 d0 c0 cyc r Hx Hb _ _ _ _ _ _ _.
    intros ax' x' b' d' c' o' s' kw' [= _ _ <- _ _ <- _ _].
    split; [reflexivity|].
    destruct (Hbins x_all b0 Hb) as (stacked_x & h & Hst & Hh & ->).
    by exists x_all, stacked_x, h.
Qed.

End HistogramThroughWrapper.

(** ** Histogram runs *)

Lemma create_config_dict_from_agree (cfg styles styles' : gmap string pyval)
    (attrs : list (string * string)) :
  (forall key attr, (key, attr) ∈ attrs -> styles !! attr = styles' !! attr) ->
  forall acc,
    create_config_dict_from cfg styles attrs acc
    = create_config_dict_from cfg styles' attrs acc.
Proof.
  induction attrs as [|[key attr] rest IH]; intros Hagree acc; [reflexivity|].
  cbn [create_config_dict_from]. rewrite !get_attr_value_config.
  rewrite (Hagree key attr ltac:(left)).
  destruct (cfg !! attr) as [dv|]; [|reflexivity]. cbn [res_bind].
  assert (forall k a, (k, a) ∈ rest -> styles !! a = styles' !! a) as Hrest
    by (intros k a Hin; apply (Hagree k a); by right).
  destruct (is_none _); by rewrite IH.
Qed.

Section HistogramRuns.
Context `{PyRuntime}.

(** X12.  In shared-axis mode a run of the histogram drawer that returns
    has made exactly one histogram call: on the first plot area, with the
    [x] data of all series, stacked, without density or cumulative data.
    No histogram is drawn on a further plot area. *)
Theorem hist_shared_axis_one_call (cfg : gmap string pyval)
    (axes : list nat) (charts : list dict) (chart_config : dict)
    (as_subplots : pyval) :
  dict_getitem chart_config "as_subplots" = Ok as_subplots ->
  truthy as_subplots = false ->
  outcome (draw_hist_chart cfg axes charts chart_config) = Ok tt ->
  exists ax0 rest_axes x_all bins kwargs,
    axes = ax0 :: rest_axes
    /\ res_mapM (get_chart_data "x") charts = Ok x_all
    /\ hist_calls (trace (draw_hist_chart cfg axes charts chart_config))
       = [Hist ax0 (AllSeries x_all) bins None None
            (dict_get chart_config "orientation" (PStr "vertical")) true
            kwargs].
Proof.
  intros Has Hfalsy. unfold draw_hist_chart.
  rewrite outcome_bind, hist_calls_bind, hist_calls_assert_chart_config.
  rewrite assert_chart_config_spec. cbn [outcome snd app].
  rewrite !outcome_bind, !hist_calls_bind.
  cbn [trace outcome lift fst snd app].
  destruct (res_mapM _ charts) as [x_all|]; [|discriminate].
  rewrite !outcome_bind, !hist_calls_bind.
  cbn [trace outcome lift fst snd app].
  destruct (shared_bins _ _) as [bins|]; [|discriminate].
  rewrite !outcome_bind, !hist_calls_bind.
  cbn [trace outcome lift fst snd app]. rewrite Has.
  rewrite !outcome_bind, !hist_calls_bind.
  cbn [trace outcome lift fst snd app].
  destruct (custom_color_cycle _ _ _) as [cyc|]; [|discriminate].
  rewrite Hfalsy. cbn [negb].
  rewrite !outcome_bind, !hist_calls_bind.
  cbn [trace outcome lift fst snd app].
  destruct (resolve_hist_configs _ _ _) as [hc|]; [|discriminate].
  rewrite !outcome_bind, !hist_calls_bind.
  cbn [trace outcome lift fst snd app].
  destruct (stacked_hist_config _) as [hist_config|]; [|discriminate].
  rewrite !outcome_bind, !hist_calls_bind.
  cbn [trace outcome lift fst snd app].
  destruct axes as [|ax0 rest_axes]; [discriminate|]. cbn [list_first].
  rewrite !outcome_bind, !hist_calls_bind.
  destruct (outcome (call_hist _ _ _ _ _ _ _ _)) as [[]|] eqn:Hcall;
    [|discriminate].
  rewrite (call_hist_returns _ _ _ _ _ _ _ _ Hcall).
  cbn [trace outcome lift fst snd app].
  intros Hrest. exists ax0, rest_axes, x_all, bins, hist_config.
  split; [done|]. split; [done|].
  destruct (dict_getitem chart_config "grid") as [grid|]; [|done].
  destruct (truthy grid); [|done].
  rewrite !hist_calls_bind. cbn [trace outcome lift fst snd app].
  destruct (list_first charts) as [chart0|]; [|done].
  rewrite !hist_calls_bind. cbn [trace outcome lift fst snd app].
  destruct (get_grid_style _ _) as [gs|]; [|done].
  by rewrite hist_calls_call_grid.
Qed.

(** X13.  In subplot mode a run of the histogram drawer that returns has
    made one histogram call for each pair of [zip(charts, axes)], in order:
    on the pair's plot area, unstacked, with the [x], density and
    cumulative data of the pair's series.  A series beyond the number of
    plot areas is not drawn. *)
Theorem hist_subplot_calls_in_order (cfg : gmap string pyval)
    (axes : list nat) (charts : list dict) (chart_config : dict)
    (as_subplots : pyval) :
  dict_getitem chart_config "as_subplots" = Ok as_subplots ->
  truthy as_subplots = true ->
  outcome (draw_hist_chart cfg axes charts chart_config) = Ok tt ->
  Forall2 (fun ev item =>
             exists x density cumulative bins kwargs,
               ev = Hist item.2 (OneSeries x) bins (Some density)
                      (Some cumulative)
                      (dict_get chart_config "orientation" (PStr "vertical"))
                      false kwargs
               /\ get_chart_data "x" item.1 = Ok x
               /\ get_chart_data "density" item.1 = Ok density
               /\ get_chart_data "cumulative" item.1 = Ok cumulative)
    (hist_calls (trace (draw_hist_chart cfg axes charts chart_config)))
    (zip charts axes).
Proof.
  intros Has Htruthy. unfold draw_hist_chart.
  rewrite outcome_bind, hist_calls_bind, hist_calls_assert_chart_config.
  rewrite assert_chart_config_spec. cbn [outcome snd app].
  rewrite !outcome_bind, !hist_calls_bind.
  cbn [trace outcome lift fst snd app].
  destruct (res_mapM _ charts) as [x_all|]; [|discriminate].
  rewrite !outcome_bind, !hist_calls_bind.
  cbn [trace outcome lift fst snd app].
  destruct (shared_bins _ _) as [bins|]; [|discriminate].
  rewrite !outcome_bind, !hist_calls_bind.
  cbn [trace outcome lift fst snd app]. rewrite Has.
  rewrite !outcome_bind, !hist_calls_bind.
  cbn [trace outcome lift fst snd app].
  destruct (custom_color_cycle _ _ _) as [cyc|]; [|discriminate].
  rewrite Htruthy. cbn [negb].
  rewrite !outcome_bind, !hist_calls_bind.
  destruct (outcome (for_each_with _ _ _)) as [cyc'|] eqn:Hloop;
    [|discriminate].
  intros _. change (hist_calls []) with (@nil event).
  cbn [app ret trace fst]. change (hist_calls []) with (@nil event).
  rewrite app_nil_r.
  revert cyc cyc' Hloop. generalize (zip charts axes). intros items.
  induction items as [|[chart ax] items IH]; intros cyc cyc' Hloop.
  - constructor.
  - cbn [for_each_with] in *. rewrite outcome_bind in Hloop.
    rewrite hist_calls_bind.
    destruct (outcome (draw_hist_subplot _ _ _ _ _ _)) as [cyc1|] eqn:Hstep;
      [|discriminate].
    destruct (draw_hist_subplot_call _ _ _ _ _ _ _ _ _ Has Hstep)
      as (x & d & c & kw & Hx & Hd & Hc & ->).
    rewrite Htruthy. cbn [app negb].
    constructor; [by exists x, d, c, bins, kw|]. by eapply IH.
Qed.

(** X14.  A grid call of the histogram drawer is made on one of the given
    plot areas, only when the drawing configuration's [grid] entry is
    truthy, and that entry is its [axis] argument.  Its style is resolved
    from the top-level entries of a series' chart, not from the chart's
    [style] mapping: when the chart has no top-level entry under a grid
    path, the call gets the defaults of the global configuration. *)
Theorem hist_grid_calls (cfg : gmap string pyval) (axes : list nat)
    (charts : list dict) (chart_config : dict)
    (ax : nat) (axis : pyval) (kwargs : gmap string pyval) :
  Grid ax axis kwargs ∈ trace (draw_hist_chart cfg axes charts chart_config) ->
  dict_getitem chart_config "grid" = Ok axis
  /\ truthy axis = true
  /\ ax ∈ axes
  /\ exists chart,
       chart ∈ charts
       /\ get_grid_style cfg (list_to_map chart) = Ok kwargs
       /\ ((forall key attr, (key, attr) ∈ grid_attrs ->
              dict_lookup attr chart = None) ->
           get_grid_style cfg ∅ = Ok kwargs).
Proof.
  intros Hin.
  set (P := fun ev : event =>
              forall ax axis kwargs,
                ev = Grid ax axis kwargs ->
                dict_getitem chart_config "grid" = Ok axis
                /\ truthy axis = true
                /\ ax ∈ axes
                /\ exists chart,
                     chart ∈ charts
                     /\ get_grid_style cfg (list_to_map chart) = Ok kwargs
                     /\ ((forall key attr, (key, attr) ∈ grid_attrs ->
                            dict_lookup attr chart = None) ->
                         get_grid_style cfg ∅ = Ok kwargs)).
  enough (Forall P (trace (draw_hist_chart cfg axes charts chart_config)))
    as HF.
  { rewrite Forall_forall in HF. exact (HF _ Hin _ _ _ eq_refl). }
  clear Hin.
  assert (forall chart ax' grid gs,
            chart ∈ charts -> ax' ∈ axes ->
            dict_getitem chart_config "grid" = Ok grid ->
            truthy grid = true ->
            get_grid_style cfg (list_to_map chart) = Ok gs ->
            P (Grid ax' grid gs)) as Hgrid.
  { intros chart ax' grid gs Hc Ha Hg Ht Hgs ax0 axis0 kw0 [= <- <- <-].
    split; [done|]. split; [done|]. split; [done|].
    exists chart. split; [done|]. split; [done|].
    intros Hnone. rewrite <- Hgs. unfold get_grid_style, create_config_dict.
    apply create_config_dict_from_agree. intros key attr Hka.
    by rewrite lookup_empty, <- dict_lookup_list_to_map, (Hnone key attr Hka). }
  assert (forall ax' x b d c o s kw, P (Hist ax' x b d c o s kw)) as Hhist
    by (intros; subst P; done).
  unfold draw_hist_chart.
  apply Forall_trace_bind.
  { rewrite assert_chart_config_spec. cbn [trace fst].
    apply Forall_forall. intros ev Hev.
    apply list_elem_of_fmap in Hev as (item & -> & _). subst P. done. }
  intros _ _.
  apply Forall_trace_bind; [apply Forall_trace_lift|]. intros x_all _.
  apply Forall_trace_bind; [apply Forall_trace_lift|]. intros bins _.
  apply Forall_trace_bind; [apply Forall_trace_lift|]. intros as_subplots _.
  apply Forall_trace_bind; [apply Forall_trace_lift|]. intros cyc _.
  destruct (truthy as_subplots); cbn [negb].
  - apply Forall_trace_bind; [|intros; constructor].
    apply Forall_trace_for_each_with. intros cyc' [chart ax'] Hitem.
    unfold draw_hist_subplot.
    apply Forall_trace_bind; [apply Forall_trace_lift|]. intros x _.
    apply Forall_trace_bind; [apply Forall_trace_lift|]. intros dens _.
    apply Forall_trace_bind; [apply Forall_trace_lift|]. intros cum _.
    apply Forall_trace_bind; [apply Forall_trace_lift|]. intros r _.
    apply Forall_trace_bind; [apply Forall_trace_lift|]. intros as2 _.
    apply Forall_trace_bind; [by apply Forall_trace_call_hist|].
    intros _ _.
    apply Forall_trace_bind; [apply Forall_trace_lift|]. intros grid Hg.
    cbn [outcome lift snd] in Hg.
    apply Forall_trace_bind; [|intros; constructor].
    destruct (truthy grid) eqn:Htg; [|constructor].
    apply Forall_trace_bind; [apply Forall_trace_lift|]. intros gs Hgs.
    cbn [outcome lift snd] in Hgs.
    apply Forall_trace_call_grid.
    apply (Hgrid chart); [by apply elem_of_zip_l in Hitem
                         |by apply elem_of_zip_r in Hitem|done..].
  - apply Forall_trace_bind; [apply Forall_trace_lift|]. intros hcs _.
    apply Forall_trace_bind; [apply Forall_trace_lift|]. intros hc _.
    apply Forall_trace_bind; [apply Forall_trace_lift|]. intros ax0 Hax.
    cbn [outcome lift snd] in Hax.
    apply Forall_trace_bind; [by apply Forall_trace_call_hist|].
    intros _ _.
    apply Forall_trace_bind; [apply Forall_trace_lift|]. intros grid Hg.
    cbn [outcome lift snd] in Hg.
    destruct (truthy grid) eqn:Htg; [|constructor].
    apply Forall_trace_bind; [apply Forall_trace_lift|]. intros chart0 Hc0.
    apply Forall_trace_bind; [apply Forall_trace_lift|]. intros gs Hgs.
    cbn [outcome lift snd] in Hc0, Hgs.
    apply Forall_trace_call_grid.
    apply (Hgrid chart0); [| |done..].
    + destruct charts; [discriminate|]. injection Hc0 as ->. by left.
    + destruct axes; [discriminate|]. injection Hax as ->. by left.
Qed.

End HistogramRuns.

(** ** Line drawer *)

(** *** Strings and the step of the filled area *)

Lemma prefix_split (p s : string) :
  String.prefix p s = true -> exists rest, s = p +:+ rest.
Proof.
  revert s. induction p as [|a p IH]; intros s Hp.
  - by exists s.
  - destruct s as [|b s]; [discriminate|]. cbn [String.prefix] in Hp.
    destruct (Ascii.ascii_dec a b) as [->|]; [|discriminate].
    destruct (IH s Hp) as [rest ->]. by exists rest.
Qed.

Lemma append_nil (s : string) : EmptyString +:+ s = s.
Proof. reflexivity. Qed.

Lemma append_cons (c : ascii) (p s : string) :
  String c p +:+ s = String c (p +:+ s).
Proof. reflexivity. Qed.

Lemma str_contains_prefix (p t : string) : str_contains p (p +:+ t) = true.
Proof.
  assert (String.prefix p (p +:+ t) = true) as Hp.
  { induction p as [|c p IH]; [rewrite append_nil; by destruct t|].
    rewrite append_cons. cbn [String.prefix].
    by destruct (Ascii.ascii_dec c c). }
  destruct (p +:+ t); cbn [str_contains]; by rewrite Hp.
Qed.

Lemma str_split_app_sep (sep : ascii) (p s : string) :
  str_contains (String sep EmptyString) p = false ->
  str_split sep (p +:+ String sep s) = p :: str_split sep s.
Proof.
  induction p as [|c p IH]; intros Hp.
  - rewrite append_nil. cbn [str_split]. by rewrite Ascii.eqb_refl.
  - cbn [str_contains String.prefix] in Hp.
    destruct (Ascii.ascii_dec sep c) as [->|Hne].
    { by destruct p. }
    cbn [orb] in Hp. rewrite append_cons. cbn [str_split].
    destruct (Ascii.eqb_spec c sep) as [->|_]; [done|].
    by rewrite (IH Hp).
Qed.

Lemma str_split_no_sep (sep : ascii) (s : string) :
  str_contains (String sep EmptyString) s = false ->
  str_split sep s = [s].
Proof.
  induction s as [|c s IH]; intros Hs; [reflexivity|].
  cbn [str_contains String.prefix] in Hs.
  destruct (Ascii.ascii_dec sep c) as [->|Hne].
  { by destruct s. }
  cbn [orb] in Hs. cbn [str_split].
  destruct (Ascii.eqb_spec c sep) as [->|_]; [done|].
  by rewrite (IH Hs).
Qed.

Lemma str_split_nonempty (sep : ascii) (s : string) : str_split sep s <> [].
Proof.
  destruct s as [|c s]; [done|]. cbn [str_split].
  destruct (Ascii.eqb c sep); [done|]. by destruct (str_split sep s).
Qed.

Lemma str_split_second (sep : ascii) (p s : string) :
  is_Some (str_split sep (p +:+ String sep s) !! 1%nat).
Proof.
  induction p as [|c p IH].
  - rewrite append_nil. cbn [str_split]. rewrite Ascii.eqb_refl.
    destruct (str_split sep s) eqn:Hs; [by apply str_split_nonempty in Hs|].
    by eexists.
  - rewrite append_cons. cbn [str_split].
    destruct (Ascii.eqb c sep).
    + cbn. destruct (str_split sep (p +:+ String sep s)) eqn:Hs;
        [by apply str_split_nonempty in Hs|]. by eexists.
    + destruct (str_split sep (p +:+ String sep s)) as [|w [|w' ws]];
        destruct IH as [v Hv]; try discriminate. by eexists.
Qed.

Lemma str_contains_split (sub s : string) :
  str_contains sub s = true -> exists pre post, s = pre +:+ sub +:+ post.
Proof.
  induction s as [|c s IH]; cbn [str_contains]; intros Hs.
  - rewrite orb_false_r in Hs. apply prefix_split in Hs as [rest ->].
    by exists EmptyString, rest.
  - apply orb_true_iff in Hs as [Hs|Hs].
    + apply prefix_split in Hs as [rest ->]. by exists EmptyString, rest.
    + destruct (IH Hs) as (pre & post & ->). by exists (String c pre), post.
Qed.

(** X15.  The [step] argument of the area under a line.  Without a
    [drawstyle] in the line configuration the lookup raises the missing-key
    error of ["drawstyle"].  A draw style ["steps-" ++ t] with no further
    dash gives [t] (["pre"], ["mid"], ["post"]); a draw style that does not
    contain ["steps-"] (["default"], and also ["steps"]) gives [None]; and
    for a string the computation always returns. *)
Theorem fill_step_of_drawstyle (line_config : gmap string pyval) :
  (line_config !! "drawstyle" = None ->
   fill_step line_config = Raise (KeyError "drawstyle"))
  /\ (forall t, line_config !! "drawstyle" = Some (PStr ("steps-" +:+ t)) ->
        str_contains "-" t = false ->
        fill_step line_config = Ok (PStr t))
  /\ (forall s, line_config !! "drawstyle" = Some (PStr s) ->
        str_contains "steps-" s = false ->
        fill_step line_config = Ok PNone)
  /\ (forall s, line_config !! "drawstyle" = Some (PStr s) ->
        exists v, fill_step line_config = Ok v).
Proof.
  unfold fill_step, map_getitem. split; [|split; [|split]].
  - by intros ->.
  - intros t -> Ht. cbn [res_bind py_contains_str].
    rewrite str_contains_prefix.
    cbn [py_split_second].
    change ("steps-" +:+ t) with ("steps" +:+ String "-" t).
    rewrite (str_split_app_sep "-" "steps" t eq_refl).
    by rewrite (str_split_no_sep "-" t Ht).
  - intros s -> Hs. cbn [res_bind py_contains_str]. by rewrite Hs.
  - intros s ->. cbn [res_bind py_contains_str].
    destruct (str_contains "steps-" s) eqn:Hs; [|by eexists].
    apply str_contains_split in Hs as (pre & post & ->).
    cbn [py_split_second].
    replace (pre +:+ "steps-" +:+ post)
      with ((pre +:+ "steps") +:+ String "-" post).
    2:{ clear. induction pre as [|c pre IH]; [reflexivity|].
        rewrite !append_cons. by rewrite IH. }
    destruct (str_split_second "-" (pre +:+ "steps") post) as [w ->].
    by eexists.
Qed.

Lemma fill_step_of_drawstyle_witness :
  fill_step {["drawstyle" := PStr "steps-mid"]} = Ok (PStr "mid").
Proof.
  exact (proj1 (proj2 (fill_step_of_drawstyle
                         {["drawstyle" := PStr "steps-mid"]}))
           "mid" eq_refl eq_refl).
Defined.

(** *** Calls of a run *)

Section LineDrawerProps.
Context `{PyRuntime} `{LineRuntime}.

Lemma plots_bind {A B} (m : Eff call A) (f : A -> Eff call B) :
  List.filter is_plot (calls (m ≫= f))
  = List.filter is_plot (calls m)
    ++ match result m with
       | Ok a => List.filter is_plot (calls (f a))
       | Raise _ => []
       end.
Proof. rewrite calls_bind, List.filter_app. by destruct (result m). Qed.

Lemma plots_call_fill_between (ax : nat) (x y1 : npval) (y2 : option npval)
    (step : option pyval) (kwargs : gmap string pyval) :
  List.filter is_plot (calls (call_fill_between ax x y1 y2 step kwargs)) = [].
Proof. unfold call_fill_between. by destruct (kwargs_clash _ _). Qed.

Lemma plots_logged {A} (m : M A) : List.filter is_plot (calls (logged m)) = [].
Proof.
  unfold logged, calls. cbn [fst]. induction (trace m) as [|ev t IH]; [done|].
  done.
Qed.

Lemma draw_line_series_plot (cfg : gmap string pyval) (chart_config : dict)
    (cyc cyc'' : cycle) (chart : dict) (ax : nat) :
  result (draw_line_series cfg chart_config cyc (chart, ax)) = Ok cyc'' ->
  exists x y line_config area_config,
    get_chart_data "x" chart = Ok x
    /\ get_chart_data "y" chart = Ok y
    /\ resolve_line_config cfg cyc chart
       = Ok (line_config, area_config, cyc'')
    /\ List.filter is_plot (calls (draw_line_series cfg chart_config cyc
                                (chart, ax)))
       = [Plot ax x y line_config].
Proof.
  unfold draw_line_series.
  rewrite attempt_bind.
  destruct (get_chart_data "x" chart) as [x|]; [|discriminate].
  rewrite attempt_bind.
  destruct (get_chart_data "y" chart) as [y|]; [|discriminate].
  rewrite attempt_bind.
  destruct (get_chart_data "yerr" chart) as [yerr|]; [|discriminate].
  rewrite attempt_bind.
  destruct (dict_getitem chart_config "yerr") as [show_yerr|]; [|discriminate].
  rewrite attempt_bind.
  destruct (yerr_drawn show_yerr yerr y) as [flag|]; [|discriminate].
  rewrite attempt_bind.
  destruct (dict_getitem chart_config "area") as [area|]; [|discriminate].
  rewrite result_bind, plots_bind.
  assert (forall (b : bool) (c : call),
            is_plot c = false ->
            result (if b then perform c else mret tt) = Ok tt
            /\ List.filter is_plot (calls (if b then perform c else mret tt)) = [])
    as Hwarn.
  { intros [] c Hc; cbn; [by rewrite Hc|done]. }
  destruct (Hwarn (flag && truthy area) (Logged (Warn both_areas_msg)) eq_refl)
    as [Hw1 Hw2]; clear Hwarn. rewrite Hw1, Hw2. cbn [app].
  rewrite attempt_bind.
  destruct (resolve_line_config cfg cyc chart) as [[[lc ac] cyc']|];
    [|discriminate].
  rewrite result_bind, plots_bind.
  match goal with
  | |- context [List.filter is_plot (calls ?m) ++ _] =>
      assert (List.filter is_plot (calls m) = []) as ->;
      [|destruct (result m) as [[]|]; [|discriminate]]
  end.
  { destruct flag; [|done]. rewrite attempt_bind.
    destruct (np_sub y yerr); [|done]. rewrite attempt_bind.
    destruct (np_add y yerr); [|done]. apply plots_call_fill_between. }
  cbn [app]. rewrite result_bind, plots_bind.
  match goal with
  | |- context [List.filter is_plot (calls ?m) ++ _] =>
      assert (List.filter is_plot (calls m) = []) as ->;
      [|destruct (result m) as [[]|]; [|discriminate]]
  end.
  { destruct (truthy area); [|done]. rewrite attempt_bind.
    destruct (fill_step lc); [|done]. apply plots_call_fill_between. }
  cbn [app]. rewrite perform_bind. cbn [result calls fst snd List.filter is_plot].
  rewrite attempt_bind.
  destruct (dict_getitem chart_config "grid") as [grid|]; [|discriminate].
  rewrite result_bind, plots_bind.
  match goal with
  | |- context [List.filter is_plot (calls ?m) ++ _] =>
      assert (List.filter is_plot (calls m) = []) as ->;
      [|destruct (result m) as [[]|]; [|discriminate]]
  end.
  { destruct (truthy grid); [|done]. rewrite attempt_bind.
    destruct (get_grid_config _ _); [|done]. apply plots_logged. }
  rewrite attempt_bind.
  destruct (get_min_max_values x) as [lims|]; [|discriminate].
  cbn. intros [= <-]. by exists x, y, lc, ac.
Qed.

Lemma draw_line_chart_plots_from (cfg : gmap string pyval)
    (chart_config : dict) (items : list (dict * nat)) :
  forall cyc cyc'',
    result (eff_for_each_with items cyc (draw_line_series cfg chart_config))
    = Ok cyc'' ->
    Forall2 (fun c item =>
               exists x y line_config,
                 c = Plot item.2 x y line_config
                 /\ get_chart_data "x" item.1 = Ok x
                 /\ get_chart_data "y" item.1 = Ok y)
      (List.filter is_plot
         (calls (eff_for_each_with items cyc
                   (draw_line_series cfg chart_config))))
      items.
Proof.
  induction items as [|[chart ax] items IH]; intros cyc cyc'' Hres.
  - constructor.
  - cbn [eff_for_each_with] in *. rewrite result_bind in Hres.
    rewrite plots_bind.
    destruct (result (draw_line_series cfg chart_config cyc (chart, ax)))
      as [cyc1|] eqn:Hstep; [|discriminate].
    destruct (draw_line_series_plot _ _ _ _ _ _ Hstep)
      as (x & y & lc & ac & Hx & Hy & _ & ->).
    cbn [app]. constructor; [by exists x, y, lc|]. by eapply IH.
Qed.

(** X16.  A run of the line drawer that returns has made one [plot] call
    for each pair of [zip(charts, axes)], in order: on the pair's plot area,
    with the [x] and [y] data of the pair's series.  A series beyond the
    number of plot areas is not drawn. *)
Theorem draw_line_chart_plots (cfg : gmap string pyval) (axes : list nat)
    (charts : list dict) (chart_config : dict) :
  result (draw_line_chart cfg axes charts chart_config) = Ok tt ->
  Forall2 (fun c item =>
             exists x y line_config,
               c = Plot item.2 x y line_config
               /\ get_chart_data "x" item.1 = Ok x
               /\ get_chart_data "y" item.1 = Ok y)
    (List.filter is_plot (calls (draw_line_chart cfg axes charts chart_config)))
    (zip charts axes).
Proof.
  unfold draw_line_chart. rewrite result_bind, plots_bind, plots_logged.
  destruct (result (logged _)) as [[]|]; [|discriminate]. cbn [app].
  rewrite attempt_bind.
  destruct (dict_getitem chart_config "as_subplots") as [as_subplots|];
    [|discriminate].
  rewrite attempt_bind.
  destruct (custom_color_cycle _ _ _) as [cyc|]; [|discriminate].
  rewrite result_bind, plots_bind.
  destruct (result (eff_for_each_with _ _ _)) as [cyc''|] eqn:Hloop;
    [|discriminate].
  intros _. cbn. rewrite app_nil_r. by eapply draw_line_chart_plots_from.
Qed.

Lemma yerr_drawn_true (show_yerr : pyval) (yerr y : npval) :
  yerr_drawn show_yerr yerr y = Ok true ->
  truthy show_yerr = true
  /\ exists a, yerr = Arr a
                /\ np_len y = Ok (Z.of_nat (length (nd_items a))).
Proof.
  unfold yerr_drawn. destruct (truthy show_yerr); [|discriminate].
  destruct yerr as [v|a]; [discriminate|].
  destruct (np_len y) as [n|]; [|discriminate]. cbn [res_bind].
  intros [= Heq]. apply Z.eqb_eq in Heq as <-. split; [done|]. by exists a.
Qed.

Lemma Forall_calls_logged {A} (P : call -> Prop) (m : M A) :
  (forall ev, P (Logged ev)) -> Forall P (calls (logged m)).
Proof.
  intros HP. unfold logged, calls. cbn [fst].
  apply Forall_forall. intros c Hc. apply list_elem_of_fmap in Hc as (ev & -> & _).
  apply HP.
Qed.

Lemma Forall_calls_call_fill_between (P : call -> Prop) (ax : nat)
    (x y1 : npval) (y2 : option npval) (step : option pyval)
    (kwargs : gmap string pyval) :
  P (FillBetween ax x y1 y2 step kwargs) ->
  Forall P (calls (call_fill_between ax x y1 y2 step kwargs)).
Proof.
  intros HP. unfold call_fill_between.
  destruct (kwargs_clash _ _); constructor; [exact HP|constructor].
Qed.

(** X17.  The line drawer fills an error band ([fill_between] with a
    second curve) only when the drawing configuration's [yerr] entry is
    truthy and the series' [yerr] data is an array with as many items as its
    [y] data; the band then lies between [y - yerr] and [y + yerr] over the
    series' [x] data, on the series' plot area, and has no [step]
    argument.  So no band is drawn for error data of another length or for
    error data that is not an array. *)
Theorem line_error_band_conditions (cfg : gmap string pyval)
    (axes : list nat) (charts : list dict) (chart_config : dict)
    (ax : nat) (x y1 y2 : npval) (step : option pyval)
    (kwargs : gmap string pyval) :
  FillBetween ax x y1 (Some y2) step kwargs
    ∈ calls (draw_line_chart cfg axes charts chart_config) ->
  step = None
  /\ exists chart y a show_yerr,
       (chart, ax) ∈ zip charts axes
       /\ dict_getitem chart_config "yerr" = Ok show_yerr
       /\ truthy show_yerr = true
       /\ get_chart_data "x" chart = Ok x
       /\ get_chart_data "y" chart = Ok y
       /\ get_chart_data "yerr" chart = Ok (Arr a)
       /\ np_len y = Ok (Z.of_nat (length (nd_items a)))
       /\ np_sub y (Arr a) = Ok y1
       /\ np_add y (Arr a) = Ok y2.
Proof.
  intros Hin.
  set (P := fun c : call =>
              forall ax x y1 y2 step kwargs,
                c = FillBetween ax x y1 (Some y2) step kwargs ->
                step = None
                /\ exists chart y a show_yerr,
                     (chart, ax) ∈ zip charts axes
                     /\ dict_getitem chart_config "yerr" = Ok show_yerr
                     /\ truthy show_yerr = true
                     /\ get_chart_data "x" chart = Ok x
                     /\ get_chart_data "y" chart = Ok y
                     /\ get_chart_data "yerr" chart = Ok (Arr a)
                     /\ np_len y = Ok (Z.of_nat (length (nd_items a)))
                     /\ np_sub y (Arr a) = Ok y1
                     /\ np_add y (Arr a) = Ok y2).
  enough (Forall P (calls (draw_line_chart cfg axes charts chart_config)))
    as HF.
  { rewrite Forall_forall in HF. exact (HF _ Hin _ _ _ _ _ _ eq_refl). }
  clear Hin.
  assert (forall ev, P (Logged ev)) as Hlogged by (intros ev; subst P; done).
  unfold draw_line_chart.
  apply Forall_calls_bind; [by apply Forall_calls_logged|]. intros _ _.
  apply Forall_calls_bind; [constructor|]. intros as_subplots _.
  apply Forall_calls_bind; [constructor|]. intros cyc0 _.
  apply Forall_calls_bind; [|intros; constructor].
  apply Forall_calls_for_each_with. intros cyc [chart ax'] Hitem.
  unfold draw_line_series.
  apply Forall_calls_bind; [constructor|]. intros x' Hx.
  apply Forall_calls_bind; [constructor|]. intros y' Hy.
  apply Forall_calls_bind; [constructor|]. intros yerr' Hyerr.
  apply Forall_calls_bind; [constructor|]. intros show_yerr Hshow.
  apply Forall_calls_bind; [constructor|]. intros flag Hflag.
  apply Forall_calls_bind; [constructor|]. intros area _.
  cbn [result attempt snd] in Hx, Hy, Hyerr, Hshow, Hflag.
  apply Forall_calls_bind.
  { destruct (flag && truthy area); [|constructor].
    constructor; [apply Hlogged|constructor]. }
  intros _ _.
  apply Forall_calls_bind; [constructor|]. intros [[lc ac] cyc'] _.
  apply Forall_calls_bind.
  { destruct flag; [|constructor].
    apply yerr_drawn_true in Hflag as (Htr & a & -> & Hlen).
    apply Forall_calls_bind; [constructor|]. intros y_min Hmin.
    apply Forall_calls_bind; [constructor|]. intros y_max Hmax.
    cbn [result attempt snd] in Hmin, Hmax.
    apply Forall_calls_call_fill_between.
    intros ax0 x0 y10 y20 step0 kw0 [= <- <- <- <- <- <-].
    split; [done|]. by exists chart, y', a, show_yerr. }
  intros _ _.
  apply Forall_calls_bind.
  { destruct (truthy area); [|constructor].
    apply Forall_calls_bind; [constructor|]. intros st _.
    apply Forall_calls_call_fill_between. subst P. done. }
  intros _ _.
  apply Forall_calls_bind.
  { constructor; [subst P; done|constructor]. }
  intros _ _.
  apply Forall_calls_bind; [constructor|]. intros grid _.
  apply Forall_calls_bind.
  { destruct (truthy grid); [|constructor].
    apply Forall_calls_bind; [constructor|]. intros gs _.
    by apply Forall_calls_logged. }
  intros _ _.
  apply Forall_calls_bind; [constructor|]. intros lims _.
  apply Forall_calls_bind; [|intros; constructor].
  constructor; [subst P; done|constructor].
Qed.

(** X18.  With the [area] entry of the drawing configuration truthy and no
    error band drawn, a series whose resolved line configuration has no
    [drawstyle] entry is not drawn: the loop body raises the missing-key
    error of ["drawstyle"] before it calls the backend. *)
Theorem line_area_needs_drawstyle (cfg : gmap string pyval)
    (chart_config : dict) (cyc cyc' : cycle) (chart : dict) (ax : nat)
    (x y yerr : npval) (show_yerr area : pyval)
    (line_config area_config : gmap string pyval) :
  get_chart_data "x" chart = Ok x ->
  get_chart_data "y" chart = Ok y ->
  get_chart_data "yerr" chart = Ok yerr ->
  dict_getitem chart_config "yerr" = Ok show_yerr ->
  yerr_drawn show_yerr yerr y = Ok false ->
  dict_getitem chart_config "area" = Ok area ->
  truthy area = true ->
  resolve_line_config cfg cyc chart = Ok (line_config, area_config, cyc') ->
  line_config !! "drawstyle" = None ->
  draw_line_series cfg chart_config cyc (chart, ax)
  = ([], Raise (KeyError "drawstyle")).
Proof.
  intros Hx Hy Hyerr Hshow Hflag Harea Htr Hres Hds.
  unfold draw_line_series.
  rewrite attempt_bind, Hx. cbn beta iota.
  rewrite attempt_bind, Hy. cbn beta iota.
  rewrite attempt_bind, Hyerr. cbn beta iota.
  rewrite attempt_bind, Hshow. cbn beta iota.
  rewrite attempt_bind, Hflag. cbn beta iota.
  rewrite attempt_bind, Harea. cbn beta iota.
  cbn [andb]. rewrite mret_bind.
  rewrite attempt_bind, Hres. cbn beta iota.
  rewrite mret_bind, Htr.
  unfold fill_step, map_getitem. rewrite Hds. reflexivity.
Qed.

(** X22.  The line drawer sets the x-limits of a plot area only from the
    data drawn on it: every [set_xlim] call of a run is made for a pair of
    [zip(charts, axes)], on the pair's plot area, with the minimum and the
    maximum of that chart's own [x] data. *)
Theorem line_xlim_from_own_data (cfg : gmap string pyval) (axes : list nat)
    (charts : list dict) (chart_config : dict) (ax : nat) (lo hi : pyval) :
  SetXLim ax lo hi ∈ calls (draw_line_chart cfg axes charts chart_config) ->
  exists chart x,
    (chart, ax) ∈ zip charts axes
    /\ get_chart_data "x" chart = Ok x
    /\ get_min_max_values x = Ok (lo, hi).
Proof.
  set (P := fun c : call =>
              forall ax lo hi, c = SetXLim ax lo hi ->
                exists chart x,
                  (chart, ax) ∈ zip charts axes
                  /\ get_chart_data "x" chart = Ok x
                  /\ get_min_max_values x = Ok (lo, hi)).
  enough (Forall P (calls (draw_line_chart cfg axes charts chart_config)))
    as HF.
  { intros Hin. rewrite Forall_forall in HF. by apply (HF _ Hin). }
  assert (forall ev, P (Logged ev)) as Hlogged by (by intros ev ? ? ?).
  unfold draw_line_chart.
  apply Forall_calls_bind; [by apply Forall_calls_logged|]. intros _ _.
  apply Forall_calls_bind; [constructor|]. intros as_subplots _.
  apply Forall_calls_bind; [constructor|]. intros cyc0 _.
  apply Forall_calls_bind; [|intros; constructor].
  apply Forall_calls_for_each_with. intros cyc [chart ax'] Hitem.
  unfold draw_line_series.
  apply Forall_calls_bind; [constructor|]. intros x Hx.
  apply Forall_calls_bind; [constructor|]. intros y _.
  apply Forall_calls_bind; [constructor|]. intros yerr _.
  apply Forall_calls_bind; [constructor|]. intros show_yerr _.
  apply Forall_calls_bind; [constructor|]. intros flag _.
  apply Forall_calls_bind; [constructor|]. intros area _.
  cbn [result attempt snd] in Hx.
  apply Forall_calls_bind.
  { destruct (flag && truthy area); constructor; [done|constructor]. }
  intros _ _.
  apply Forall_calls_bind; [constructor|]. intros [[lc ac] cyc'] _.
  apply Forall_calls_bind.
  { destruct flag; [|constructor].
    apply Forall_calls_bind; [constructor|]. intros y_min _.
    apply Forall_calls_bind; [constructor|]. intros y_max _.
    by apply Forall_calls_call_fill_between. }
  intros _ _.
  apply Forall_calls_bind.
  { destruct (truthy area); [|constructor].
    apply Forall_calls_bind; [constructor|]. intros step _.
    by apply Forall_calls_call_fill_between. }
  intros _ _.
  apply Forall_calls_bind; [constructor; [done|constructor]|]. intros _ _.
  apply Forall_calls_bind; [constructor|]. intros grid _.
  apply Forall_calls_bind.
  { destruct (truthy grid); [|constructor].
    apply Forall_calls_bind; [constructor|]. intros gs _.
    by apply Forall_calls_logged. }
  intros _ _.
  apply Forall_calls_bind; [constructor|]. intros [lo' hi'] Hlims.
  cbn [result attempt snd] in Hlims.
  apply Forall_calls_bind; [|intros; constructor].
  constructor; [|constructor].
  intros ax1 lo1 hi1 [= <- <- <-]. by exists chart, x.
Qed.

End LineDrawerProps.

(** ** Bar drawer *)

Section BarDrawerProps.
Context `{PyRuntime} `{BarRuntime}.

Lemma bars_bind {A B} (m : Eff call A) (f : A -> Eff call B) :
  List.filter is_bar (calls (m ≫= f))
  = List.filter is_bar (calls m)
    ++ match result m with
       | Ok a => List.filter is_bar (calls (f a))
       | Raise _ => []
       end.
Proof. rewrite calls_bind, List.filter_app. by destruct (result m). Qed.

Lemma bars_logged {A} (m : M A) : List.filter is_bar (calls (logged m)) = [].
Proof.
  unfold logged, calls. cbn [fst]. by induction (trace m) as [|ev t IH].
Qed.

Lemma call_bar_returns (ax : nat) (horizontal : bool) (x y label : npval)
    (err_key : string) (err : npval) (kwargs : gmap string pyval) :
  result (call_bar ax horizontal x y label err_key err kwargs) = Ok tt ->
  call_bar ax horizontal x y label err_key err kwargs
  = ([Bar ax horizontal x y label err_key err kwargs], Ok tt).
Proof. unfold call_bar. by destruct (kwargs_clash _ _). Qed.

Lemma bars_update_group_bar_labels (chart_config : dict) (ax : nat)
    (ticks_loc label : npval) (axis : string) :
  List.filter is_bar
    (calls (update_group_bar_labels chart_config ax ticks_loc label axis))
  = [].
Proof.
  unfold update_group_bar_labels.
  destruct (String.eqb axis "x").
  - rewrite !perform_bind. cbn [calls fst List.filter is_bar].
    rewrite attempt_bind. destruct (np_len label); [|done].
    rewrite attempt_bind. by destruct (dict_getitem _ _).
  - destruct (String.eqb axis "y"); [|done]. by rewrite perform_bind.
Qed.

Lemma bars_label_actions (cfg : gmap string pyval) (chart : dict) (ax : nat)
    (actions : list (string * string)) :
  List.filter is_bar
    (calls (eff_for_each actions
              (fun '(attr, method) =>
                 match dict_lookup attr chart with
                 | Some _ =>
                     text ← attempt (dict_getitem chart attr);
                     perform (AxesLabel ax method text
                                (get_text_style cfg attr))
                 | None => mret tt
                 end)))
  = [].
Proof.
  induction actions as [|[attr method] rest IH]; [done|].
  cbn [eff_for_each]. rewrite bars_bind, IH.
  unfold dict_getitem. destruct (dict_lookup attr chart); [|done].
  by rewrite attempt_bind.
Qed.

Lemma draw_bar_series_bar (cfg : gmap string pyval) (chart_config : dict)
    (n_charts : Z) (x_start : ndarray) (x_width : pyval)
    (is_horizontal : bool) (st st' : bar_state) (chart : dict) (ax : nat) :
  result (draw_bar_series cfg chart_config n_charts x_start x_width
            is_horizontal st (chart, ax)) = Ok st' ->
  exists x y labels yerr show_yerr as_subplots offset n kwargs,
    get_chart_data "y" chart = Ok y
    /\ get_chart_data "yerr" chart = Ok yerr
    /\ get_chart_data "label" chart = Ok labels
    /\ np_len labels = Ok n
    /\ dict_getitem chart_config "yerr" = Ok show_yerr
    /\ dict_getitem chart_config "as_subplots" = Ok as_subplots
    /\ (if truthy as_subplots then offset = bar_offset st
        else int_mul_num (bar_idx st) x_width = Ok offset
             /\ kwargs !! (if is_horizontal then "height" else "width")
                = Some x_width)
    /\ np_shift (np_arange n) offset = Ok x
    /\ bar_idx st' = bar_idx st + 1
    /\ bar_offset st' = offset
    /\ List.filter is_bar
         (calls (draw_bar_series cfg chart_config n_charts x_start x_width
                   is_horizontal st (chart, ax)))
       = [Bar ax is_horizontal x y labels
            (if is_horizontal then "xerr" else "yerr")
            (if truthy show_yerr then yerr else Raw PNone) kwargs].
Proof.
  unfold draw_bar_series.
  rewrite attempt_bind.
  destruct (get_chart_data "y" chart) as [y|]; [|discriminate].
  rewrite attempt_bind.
  destruct (get_chart_data "yerr" chart) as [yerr|]; [|discriminate].
  rewrite attempt_bind.
  destruct (get_chart_data "label" chart) as [labels|]; [|discriminate].
  rewrite attempt_bind.
  destruct (np_len labels) as [n|] eqn:Hn; [|discriminate].
  rewrite attempt_bind.
  destruct (cycle_getitem _ _) as [r|]; [|discriminate].
  rewrite attempt_bind.
  destruct (get_bar_config _ _ _) as [bs|]; [|discriminate].
  rewrite attempt_bind.
  destruct (dict_getitem chart_config "as_subplots") as [as_subplots|];
    [|discriminate].
  match goal with
  | |- result (?b ≫= _) = _ -> _ =>
      assert ((exists e, b = ([], Raise e))
              \/ exists bc off,
                   b = ([], Ok (bc, off))
                   /\ if truthy as_subplots then off = bar_offset st
                      else int_mul_num (bar_idx st) x_width = Ok off
                           /\ bc !! (if is_horizontal then "height"
                                     else "width") = Some x_width)
        as [[e ->]|(bc & off & -> & Hgrouped)]
  end.
  { destruct (truthy as_subplots); cbn [negb].
    - right. by eexists _, _.
    - rewrite attempt_bind.
      destruct (int_mul_num _ _) as [off|e]; [|left; by exists e].
      right. eexists _, off. split; [reflexivity|]. split; [done|].
      by rewrite lookup_insert_eq. }
  { discriminate. }
  change (([], Ok (bc, off)) : Eff call _) with (attempt (E := call) (Ok (bc, off))).
  rewrite attempt_bind. cbn beta iota.
  rewrite attempt_bind.
  destruct (dict_getitem chart_config "yerr") as [show_yerr|];
    [|discriminate].
  rewrite attempt_bind.
  destruct (np_shift (np_arange n) off) as [x|] eqn:Hshift; [|discriminate].
  rewrite result_bind, bars_bind.
  destruct (result (call_bar _ _ _ _ _ _ _ _)) as [[]|] eqn:Hcall;
    [|discriminate].
  rewrite (call_bar_returns _ _ _ _ _ _ _ _ Hcall).
  cbn [calls fst List.filter is_bar app].
  rewrite attempt_bind.
  destruct (dict_getitem chart_config "grid") as [grid|]; [|discriminate].
  rewrite result_bind, bars_bind.
  match goal with
  | |- context [List.filter is_bar (calls ?m) ++ _] =>
      assert (List.filter is_bar (calls m) = []) as ->;
      [|destruct (result m) as [[]|]; [|discriminate]]
  end.
  { destruct (truthy grid); [|done]. rewrite attempt_bind.
    destruct (get_grid_style _ _); [|done]. apply bars_logged. }
  cbn [app]. rewrite attempt_bind. cbn beta iota.
  rewrite result_bind, bars_bind.
  match goal with
  | |- context [List.filter is_bar (calls ?m) ++ _] =>
      assert (List.filter is_bar (calls m) = []) as ->;
      [|destruct (result m) as [ticks_loc|]; [|discriminate]]
  end.
  { destruct (negb (truthy as_subplots)); [|done]. rewrite attempt_bind.
    destruct (PyFloat.py_truediv _ _); [|done]. rewrite attempt_bind.
    destruct (num_mul _ _); [|done]. by destruct (np_shift x_start _). }
  cbn [app]. rewrite result_bind, bars_bind, bars_update_group_bar_labels.
  destruct (result (update_group_bar_labels _ _ _ _ _)) as [[]|];
    [|discriminate].
  cbn [app]. rewrite result_bind, bars_bind, bars_label_actions.
  destruct (result (eff_for_each _ _)) as [[]|]; [|discriminate].
  cbn. intros [= <-].
  exists x, y, labels, yerr, show_yerr, as_subplots, off, n, bc.
  by split_and!.
Qed.

Lemma draw_bar_series_loop (cfg : gmap string pyval) (chart_config : dict)
    (n_charts : Z) (x_start : ndarray) (x_width : pyval)
    (is_horizontal : bool) (as_subplots : pyval)
    (items : list (dict * nat)) :
  dict_getitem chart_config "as_subplots" = Ok as_subplots ->
  forall st st',
    (truthy as_subplots = true -> bar_offset st = PInt 0) ->
    result (eff_for_each_with items st
              (draw_bar_series cfg chart_config n_charts x_start x_width
                 is_horizontal)) = Ok st' ->
    length (List.filter is_bar
              (calls (eff_for_each_with items st
                        (draw_bar_series cfg chart_config n_charts x_start
                           x_width is_horizontal))))
    = length items
    /\ forall i chart ax,
         items !! i = Some (chart, ax) ->
         exists x y labels yerr show_yerr offset n kwargs,
           List.filter is_bar
             (calls (eff_for_each_with items st
                       (draw_bar_series cfg chart_config n_charts x_start
                          x_width is_horizontal))) !! i
           = Some (Bar ax is_horizontal x y labels
                     (if is_horizontal then "xerr" else "yerr")
                     (if truthy show_yerr then yerr else Raw PNone) kwargs)
           /\ get_chart_data "y" chart = Ok y
           /\ get_chart_data "yerr" chart = Ok yerr
           /\ get_chart_data "label" chart = Ok labels
           /\ np_len labels = Ok n
           /\ dict_getitem chart_config "yerr" = Ok show_yerr
           /\ np_shift (np_arange n) offset = Ok x
           /\ if truthy as_subplots then offset = PInt 0
              else int_mul_num (bar_idx st + Z.of_nat i) x_width = Ok offset
                   /\ kwargs !! (if is_horizontal then "height" else "width")
                      = Some x_width.
Proof.
  intros Has. induction items as [|[chart ax] items IH]; intros st st' Hinv.
  - intros _. split; [done|]. intros i c a Hi. by rewrite lookup_nil in Hi.
  - cbn [eff_for_each_with]. rewrite result_bind, bars_bind.
    destruct (result (draw_bar_series _ _ _ _ _ _ st (chart, ax)))
      as [st1|] eqn:Hstep; [|discriminate].
    destruct (draw_bar_series_bar _ _ _ _ _ _ _ _ _ _ Hstep)
      as (x & y & labels & yerr & show_yerr & as' & off & n & kw
          & Hy & Hyerr & Hlab & Hn & Hshow & Has' & Hgrouped & Hshift
          & Hidx & Hoff & ->).
    rewrite Has in Has'. injection Has' as <-.
    intros Hrest.
    assert (truthy as_subplots = true -> bar_offset st1 = PInt 0) as Hinv1.
    { intros Ht. rewrite Hoff. rewrite Ht in Hgrouped. rewrite Hgrouped.
      by apply Hinv. }
    destruct (IH st1 st' Hinv1 Hrest) as [Hlen Hitems].
    split; [cbn [app length]; by rewrite Hlen|].
    intros [|i] c a Hi.
    + injection Hi as <- <-. cbn [app].
      exists x, y, labels, yerr, show_yerr, off, n, kw.
      split_and!; try done.
      destruct (truthy as_subplots) eqn:Ht.
      * rewrite Hgrouped. by apply Hinv.
      * by rewrite Z.add_0_r.
    + cbn [lookup list_lookup] in Hi.
      destruct (Hitems i c a Hi)
        as (x' & y' & l' & e' & s' & o' & n' & k' & Hbar & Hrest').
      exists x', y', l', e', s', o', n', k'. split; [exact Hbar|].
      rewrite Hidx in Hrest'.
      replace (bar_idx st + Z.of_nat (S i))
        with (bar_idx st + 1 + Z.of_nat i) by lia.
      exact Hrest'.
Qed.

(** X19.  A run of the bar drawer that returns has made one bar call for
    each pair of [zip(charts, axes)], in order, on the pair's plot area:
    [barh] exactly when the orientation is ["horizontal"], with the series'
    [y] and [label] data, and with the one error argument ([xerr] when
    horizontal, [yerr] otherwise) holding the series' error data when the
    configuration's [yerr] entry is truthy and [None] when it is not.  In
    grouped mode the bars of the series with index [i] are shifted by
    [i * x_width], where [x_width] is the configured bar width divided by
    the number of charts, and their thickness is [x_width] whatever the
    series' style says; in subplot mode they are not shifted. *)
Theorem draw_bar_chart_bars (cfg : gmap string pyval) (axes : list nat)
    (charts : list dict) (chart_config : dict) :
  result (draw_bar_chart cfg axes charts chart_config) = Ok tt ->
  exists width x_width as_subplots,
    cfg !! "plot.bar.width" = Some width
    /\ num_div_int width (Z.of_nat (length charts)) = Ok x_width
    /\ dict_getitem chart_config "as_subplots" = Ok as_subplots
    /\ length (List.filter is_bar
                 (calls (draw_bar_chart cfg axes charts chart_config)))
       = length (zip charts axes)
    /\ forall i chart ax,
         zip charts axes !! i = Some (chart, ax) ->
         exists x y labels yerr show_yerr offset n kwargs,
           List.filter is_bar
             (calls (draw_bar_chart cfg axes charts chart_config)) !! i
           = Some (Bar ax (is_horizontal_bar chart_config) x y labels
                     (if is_horizontal_bar chart_config then "xerr"
                      else "yerr")
                     (if truthy show_yerr then yerr else Raw PNone) kwargs)
           /\ get_chart_data "y" chart = Ok y
           /\ get_chart_data "yerr" chart = Ok yerr
           /\ get_chart_data "label" chart = Ok labels
           /\ np_len labels = Ok n
           /\ dict_getitem chart_config "yerr" = Ok show_yerr
           /\ np_shift (np_arange n) offset = Ok x
           /\ if truthy as_subplots then offset = PInt 0
              else int_mul_num (Z.of_nat i) x_width = Ok offset
                   /\ kwargs !! (if is_horizontal_bar chart_config
                                 then "height" else "width")
                      = Some x_width.
Proof.
  unfold draw_bar_chart. set (is_horizontal := is_horizontal_bar chart_config).
  rewrite result_bind, bars_bind, bars_logged.
  destruct (result (logged _)) as [[]|]; [|discriminate]. cbn [app].
  rewrite attempt_bind.
  destruct (list_first charts) as [chart0|]; [|discriminate].
  rewrite attempt_bind.
  destruct (get_chart_data "label" chart0) as [x_start|]; [|discriminate].
  rewrite attempt_bind.
  destruct (np_len x_start) as [n_start|]; [|discriminate].
  rewrite attempt_bind. unfold config_getitem, map_getitem.
  destruct (cfg !! "plot.bar.width") as [width|]; [|discriminate].
  rewrite attempt_bind.
  destruct (num_div_int width _) as [x_width|] eqn:Hdiv; [|discriminate].
  rewrite attempt_bind.
  destruct (dict_getitem chart_config "as_subplots") as [as_subplots|] eqn:Has;
    [|discriminate].
  rewrite attempt_bind.
  destruct (custom_color_cycle _ _ _) as [cyc|]; [|discriminate].
  rewrite result_bind, bars_bind.
  destruct (result (eff_for_each_with _ _ _)) as [st'|] eqn:Hloop;
    [|discriminate].
  intros _.
  assert (forall m : Eff call unit,
            m = (if negb (truthy as_subplots)
                 then ax0 ← attempt (list_first axes);
                      perform (ZeroBound ax0 is_horizontal)
                 else mret tt) ->
            List.filter is_bar (calls m) = []) as Htail.
  { intros m ->. destruct (negb (truthy as_subplots)); [|done].
    rewrite attempt_bind. by destruct (list_first axes). }
  rewrite attempt_bind, (Htail _ eq_refl), app_nil_r.
  destruct (draw_bar_series_loop cfg chart_config _ _ x_width is_horizontal
              as_subplots (zip charts axes) Has (BarState 0 (PInt 0) cyc) st'
              (fun _ => eq_refl) Hloop)
    as [Hlen Hitems].
  exists width, x_width, as_subplots. split_and!; try done.
Qed.

(** Every call of a run satisfies [P], provided the calls of each kind do,
    given what the drawer has established when it makes them. *)
Lemma draw_bar_chart_calls (P : call -> Prop)
    (cfg : gmap string pyval) (axes : list nat) (charts : list dict)
    (chart_config : dict) :
  (forall ev, P (Logged ev)) ->
  (forall ax h x y label err_key err kwargs,
      P (Bar ax h x y label err_key err kwargs)) ->
  (forall chart ax axis ticks_loc labels,
      (chart, ax) ∈ zip charts axes ->
      get_chart_data "label" chart = Ok labels ->
      P (SetTicks ax axis ticks_loc labels)
      /\ P (SetMajorLocator ax axis ticks_loc)) ->
  (forall chart ax labels n as_subplots,
      (chart, ax) ∈ zip charts axes ->
      get_chart_data "label" chart = Ok labels ->
      np_len labels = Ok n ->
      dict_getitem chart_config "as_subplots" = Ok as_subplots ->
      is_horizontal_bar chart_config = false ->
      P (SetXTickLabels ax labels (rotate_bar_labels as_subplots n))) ->
  (forall chart ax attr method text,
      (chart, ax) ∈ zip charts axes ->
      (attr, method) ∈ bar_label_actions (is_horizontal_bar chart_config) ->
      dict_lookup attr chart = Some text ->
      P (AxesLabel ax method text (get_text_style cfg attr))) ->
  (forall as_subplots ax0 rest,
      dict_getitem chart_config "as_subplots" = Ok as_subplots ->
      truthy as_subplots = false ->
      axes = ax0 :: rest ->
      P (ZeroBound ax0 (is_horizontal_bar chart_config))) ->
  Forall P (calls (draw_bar_chart cfg axes charts chart_config)).
Proof.
  intros Hlogged Hbar Hticks Hrot Hlabel Hzero.
  unfold draw_bar_chart.
  apply Forall_calls_bind; [by apply Forall_calls_logged|]. intros _ _.
  apply Forall_calls_bind; [constructor|]. intros chart0 _.
  apply Forall_calls_bind; [constructor|]. intros x_start _.
  apply Forall_calls_bind; [constructor|]. intros n_start _.
  apply Forall_calls_bind; [constructor|]. intros width _.
  apply Forall_calls_bind; [constructor|]. intros x_width _.
  apply Forall_calls_bind; [constructor|]. intros as_subplots _.
  apply Forall_calls_bind; [constructor|]. intros cyc _.
  apply Forall_calls_bind.
  2:{ intros _ _. apply Forall_calls_bind; [constructor|]. intros as' Has'.
      cbn [result attempt snd] in Has'.
      destruct (truthy as') eqn:Htr; cbn [negb]; [constructor|].
      apply Forall_calls_bind; [constructor|]. intros ax0 Hax.
      cbn [result attempt snd] in Hax.
      destruct axes as [|ax1 rest]; [discriminate|]. injection Hax as ->.
      constructor; [by eapply Hzero|constructor]. }
  apply Forall_calls_for_each_with. intros st [chart ax'] Hitem.
  unfold draw_bar_series.
  apply Forall_calls_bind; [constructor|]. intros y _.
  apply Forall_calls_bind; [constructor|]. intros yerr _.
  apply Forall_calls_bind; [constructor|]. intros labels Hlab.
  apply Forall_calls_bind; [constructor|]. intros n Hn.
  apply Forall_calls_bind; [constructor|]. intros r _.
  apply Forall_calls_bind; [constructor|]. intros bs _.
  apply Forall_calls_bind; [constructor|]. intros as1 _.
  cbn [result attempt snd] in Hlab, Hn.
  apply Forall_calls_bind.
  { destruct (negb (truthy as1)); [|constructor].
    apply Forall_calls_bind; constructor. }
  intros [bar_config offset] _.
  apply Forall_calls_bind; [constructor|]. intros show_yerr _.
  apply Forall_calls_bind; [constructor|]. intros shifted _.
  apply Forall_calls_bind.
  { unfold call_bar. destruct (kwargs_clash _ _); [constructor|].
    constructor; [apply Hbar|constructor]. }
  intros _ _.
  apply Forall_calls_bind; [constructor|]. intros grid _.
  apply Forall_calls_bind.
  { destruct (truthy grid); [|constructor].
    apply Forall_calls_bind; [constructor|]. intros gs _.
    by apply Forall_calls_logged. }
  intros _ _.
  apply Forall_calls_bind; [constructor|]. intros as2 _.
  apply Forall_calls_bind.
  { destruct (negb (truthy as2)); [|constructor].
    apply Forall_calls_bind; [constructor|]. intros half _.
    apply Forall_calls_bind; constructor. }
  intros ticks_loc _.
  apply Forall_calls_bind.
  { unfold update_group_bar_labels.
    destruct (is_horizontal_bar chart_config) eqn:Hh.
    - cbn [String.eqb Ascii.eqb Bool.eqb].
      destruct (Hticks chart ax' "y" ticks_loc labels Hitem Hlab) as [Ht Hm].
      apply Forall_calls_bind; [constructor; [exact Ht|constructor]|].
      intros _ _. constructor; [exact Hm|constructor].
    - cbn [String.eqb Ascii.eqb Bool.eqb].
      destruct (Hticks chart ax' "x" ticks_loc labels Hitem Hlab) as [Ht Hm].
      apply Forall_calls_bind; [constructor; [exact Ht|constructor]|].
      intros _ _.
      apply Forall_calls_bind; [constructor; [exact Hm|constructor]|].
      intros _ _.
      apply Forall_calls_bind; [constructor|]. intros n' Hn'.
      apply Forall_calls_bind; [constructor|]. intros as3 Has3.
      cbn [result attempt snd] in Hn', Has3.
      constructor; [|constructor]. by eapply Hrot. }
  intros _ _.
  apply Forall_calls_bind; [|intros; constructor].
  assert (forall attr method,
            (attr, method) ∈ bar_label_actions (is_horizontal_bar chart_config)
            -> (attr, method)
               ∈ bar_label_actions (is_horizontal_bar chart_config))
    as Hsub by done.
  revert Hsub.
  generalize (bar_label_actions (is_horizontal_bar chart_config)) at 1 3.
  intros actions. induction actions as [|[attr method] rest IH]; intros Hsub.
  - constructor.
  - cbn [eff_for_each]. apply Forall_calls_bind.
    + destruct (dict_lookup attr chart) as [text|] eqn:Hattr; [|constructor].
      apply Forall_calls_bind; [constructor|]. intros text' Htext.
      unfold dict_getitem in Htext. rewrite Hattr in Htext.
      cbn [result attempt snd] in Htext. injection Htext as <-.
      constructor; [|constructor].
      apply (Hlabel chart ax' attr method text Hitem); [|done].
      apply Hsub. by left.
    + intros _ _. apply IH. intros a m Ham. apply Hsub. by right.
Qed.

(** X20.  The bar drawer sets rotated tick labels only for vertical bars,
    with the series' [label] data; the rotation is 0 in grouped mode, and
    in subplot mode 90 for seven labels or more, 45 for four to six, and 0
    for fewer. *)
Theorem bar_tick_label_rotation (cfg : gmap string pyval) (axes : list nat)
    (charts : list dict) (chart_config : dict)
    (ax : nat) (label : npval) (rotation : Z) :
  SetXTickLabels ax label rotation
    ∈ calls (draw_bar_chart cfg axes charts chart_config) ->
  is_horizontal_bar chart_config = false
  /\ exists chart as_subplots n,
       (chart, ax) ∈ zip charts axes
       /\ get_chart_data "label" chart = Ok label
       /\ np_len label = Ok n
       /\ dict_getitem chart_config "as_subplots" = Ok as_subplots
       /\ rotation = (if truthy as_subplots
                      then if 7 <=? n then 90 else if 4 <=? n then 45 else 0
                      else 0).
Proof.
  intros Hin.
  pose proof (draw_bar_chart_calls
    (fun c => forall ax label rotation,
       c = SetXTickLabels ax label rotation ->
       is_horizontal_bar chart_config = false
       /\ exists chart as_subplots n,
            (chart, ax) ∈ zip charts axes
            /\ get_chart_data "label" chart = Ok label
            /\ np_len label = Ok n
            /\ dict_getitem chart_config "as_subplots" = Ok as_subplots
            /\ rotation
               = (if truthy as_subplots
                  then if 7 <=? n then 90 else if 4 <=? n then 45 else 0
                  else 0))
    cfg axes charts chart_config) as HF.
  rewrite Forall_forall in HF.
  refine (HF _ _ _ _ _ _ _ Hin _ _ _ eq_refl); try done.
  intros chart ax0 labels n as_subplots Hitem Hlab Hn Has Hh.
  intros ax1 label1 rot1 [= <- <- <-]. split; [done|].
  by exists chart, as_subplots, n.
Qed.

(** X23.  Every title or axis-label call of the bar drawer is made for a
    series that has the entry, on the series' plot area, with the entry's
    value and the text style of the entry; for horizontal bars the
    [xlabel] goes to [set_ylabel] and the [ylabel] to [set_xlabel], and
    otherwise each goes to its own setter. *)
Theorem bar_axis_labels_follow_orientation (cfg : gmap string pyval)
    (axes : list nat) (charts : list dict) (chart_config : dict)
    (ax : nat) (method : string) (text : pyval)
    (kwargs : gmap string pyval) :
  AxesLabel ax method text kwargs
    ∈ calls (draw_bar_chart cfg axes charts chart_config) ->
  exists chart attr,
    (chart, ax) ∈ zip charts axes
    /\ dict_lookup attr chart = Some text
    /\ kwargs = get_text_style cfg attr
    /\ (attr = "subtitle" /\ method = "set_title"
        \/ attr = "xlabel"
           /\ method = (if is_horizontal_bar chart_config
                        then "set_ylabel" else "set_xlabel")
        \/ attr = "ylabel"
           /\ method = (if is_horizontal_bar chart_config
                        then "set_xlabel" else "set_ylabel")).
Proof.
  intros Hin.
  pose proof (draw_bar_chart_calls
    (fun c => forall ax method text kwargs,
       c = AxesLabel ax method text kwargs ->
       exists chart attr,
         (chart, ax) ∈ zip charts axes
         /\ dict_lookup attr chart = Some text
         /\ kwargs = get_text_style cfg attr
         /\ (attr = "subtitle" /\ method = "set_title"
             \/ attr = "xlabel"
                /\ method = (if is_horizontal_bar chart_config
                             then "set_ylabel" else "set_xlabel")
             \/ attr = "ylabel"
                /\ method = (if is_horizontal_bar chart_config
                             then "set_xlabel" else "set_ylabel")))
    cfg axes charts chart_config) as HF.
  rewrite Forall_forall in HF.
  refine (HF _ _ _ _ _ _ _ Hin _ _ _ _ eq_refl); try done.
  intros chart ax0 attr method0 text0 Hitem Hact Hattr.
  intros ax1 m1 t1 k1 [= <- <- <- <-].
  exists chart, attr. split_and!; try done.
  unfold bar_label_actions in Hact.
  destruct (is_horizontal_bar chart_config); cbn [negb] in Hact;
    repeat (apply elem_of_cons in Hact as [[= -> ->]|Hact]; [tauto|]);
    by apply elem_of_nil in Hact.
Qed.

(** The last call of a run that returns is the last call of its
    continuation, when that makes one. *)
Lemma last_calls_bind {E A B} (Q : E -> Prop) (m : Eff E A)
    (f : A -> Eff E B) (b : B) :
  result (m ≫= f) = Ok b ->
  (forall a, result m = Ok a -> result (f a) = Ok b ->
             exists c, last (calls (f a)) = Some c /\ Q c) ->
  exists c, last (calls (m ≫= f)) = Some c /\ Q c.
Proof.
  rewrite result_bind, calls_bind.
  destruct (result m) as [a|]; [|discriminate].
  intros Hres Hlast. destruct (Hlast a eq_refl Hres) as (c & Hc & HQ).
  exists c. split; [|done]. by rewrite last_app, Hc.
Qed.

(** X24.  The bar drawer pins the value axis at zero only in grouped
    mode and only on the first plot area ([set_xlim(left=0)] for horizontal
    bars, [set_ylim(bottom=0)] otherwise); a grouped run that returns ends
    with that call. *)
Theorem bar_zero_bound (cfg : gmap string pyval) (axes : list nat)
    (charts : list dict) (chart_config : dict) :
  (forall ax h,
     ZeroBound ax h ∈ calls (draw_bar_chart cfg axes charts chart_config) ->
     h = is_horizontal_bar chart_config
     /\ head axes = Some ax
     /\ exists as_subplots,
          dict_getitem chart_config "as_subplots" = Ok as_subplots
          /\ truthy as_subplots = false)
  /\ (forall as_subplots,
        result (draw_bar_chart cfg axes charts chart_config) = Ok tt ->
        dict_getitem chart_config "as_subplots" = Ok as_subplots ->
        truthy as_subplots = false ->
        exists ax0,
          head axes = Some ax0
          /\ last (calls (draw_bar_chart cfg axes charts chart_config))
             = Some (ZeroBound ax0 (is_horizontal_bar chart_config))).
Proof.
  split.
  - intros ax h Hin.
    pose proof (draw_bar_chart_calls
      (fun c => forall ax h,
         c = ZeroBound ax h ->
         h = is_horizontal_bar chart_config
         /\ head axes = Some ax
         /\ exists as_subplots,
              dict_getitem chart_config "as_subplots" = Ok as_subplots
              /\ truthy as_subplots = false)
      cfg axes charts chart_config) as HF.
    rewrite Forall_forall in HF.
    refine (HF _ _ _ _ _ _ _ Hin _ _ eq_refl); try done.
    intros as_subplots ax0 rest Has Htr -> ax1 h1 [= <- <-].
    split; [done|]. split; [done|]. by exists as_subplots.
  - intros as_subplots Hres Has Htr.
    enough (exists c,
              last (calls (draw_bar_chart cfg axes charts chart_config))
              = Some c
              /\ exists ax0,
                   head axes = Some ax0
                   /\ c = ZeroBound ax0 (is_horizontal_bar chart_config))
      as (c & Hc & ax0 & Hax & ->) by (by exists ax0).
    revert Hres. unfold draw_bar_chart. intros Hres.
    do 9 (apply (last_calls_bind _ _ _ _ Hres); clear Hres; intros ? _ Hres).
    revert Hres. rewrite Has, attempt_bind, Htr. cbn [negb].
    rewrite attempt_bind. destruct axes as [|ax0 rest]; [discriminate|].
    intros _. cbn. eauto.
Qed.

(** X21.  The bar drawer needs a first series with labels: on an empty
    list of charts it raises an [IndexError], and when the first chart has
    no [label] data it raises a [TypeError]; in both cases it has called
    nothing of the backend and has only emitted the warnings of the
    drawing-configuration check. *)
Theorem draw_bar_chart_needs_labels (cfg : gmap string pyval)
    (axes : list nat) (chart_config : dict) :
  draw_bar_chart cfg axes [] chart_config
  = (map Logged (trace (assert_chart_config chart_config
                          (supported_chart_config BarChart))),
     Raise IndexError)
  /\ (forall chart0 rest,
        get_chart_data "label" chart0 = Ok (Raw PNone) ->
        draw_bar_chart cfg axes (chart0 :: rest) chart_config
        = (map Logged (trace (assert_chart_config chart_config
                                (supported_chart_config BarChart))),
           Raise TypeError)).
Proof.
  unfold draw_bar_chart.
  assert (forall (f : unit -> Eff call unit) e,
            f tt = ([], Raise e) ->
            logged (assert_chart_config chart_config
                      (supported_chart_config BarChart)) ≫= f
            = (map Logged (trace (assert_chart_config chart_config
                                    (supported_chart_config BarChart))),
               Raise e)) as Hstep.
  { intros f e Hf. rewrite assert_chart_config_spec. unfold logged.
    cbn [trace outcome fst snd mbind eff_bind]. rewrite Hf.
    by rewrite app_nil_r. }
  split.
  - by apply Hstep.
  - intros chart0 rest Hlab. apply Hstep.
    cbn [list_first]. rewrite attempt_bind. cbn beta iota.
    rewrite attempt_bind, Hlab. cbn beta iota.
    by rewrite attempt_bind.
Qed.

End BarDrawerProps.

(** ** The drawing-config check and the drawers *)

Lemma dict_lookup_supported_part (d : drawer) (chart_config : dict)
    (key : string) :
  bool_decide (key ∈ supported_chart_config d) = true ->
  dict_lookup key (supported_part d chart_config)
  = dict_lookup key chart_config.
Proof.
  intros Hkey. unfold supported_part.
  induction chart_config as [|[k v] rest IH]; [reflexivity|].
  cbn [List.filter fst dict_lookup].
  destruct (String.eqb k key) eqn:Hk.
  - apply String.eqb_eq in Hk as ->. rewrite Hkey.
    cbn [dict_lookup]. by rewrite String.eqb_refl.
  - destruct (bool_decide (k ∈ supported_chart_config d)); [|exact IH].
    cbn [dict_lookup]. by rewrite Hk.
Qed.

Lemma dict_getitem_supported_part (d : drawer) (chart_config : dict)
    (key : string) :
  bool_decide (key ∈ supported_chart_config d) = true ->
  dict_getitem (supported_part d chart_config) key
  = dict_getitem chart_config key.
Proof.
  intros Hkey. unfold dict_getitem.
  by rewrite dict_lookup_supported_part.
Qed.

Lemma dict_get_supported_part (d : drawer) (chart_config : dict)
    (key : string) (dflt : pyval) :
  bool_decide (key ∈ supported_chart_config d) = true ->
  dict_get (supported_part d chart_config) key dflt
  = dict_get chart_config key dflt.
Proof.
  intros Hkey. unfold dict_get. by rewrite dict_lookup_supported_part.
Qed.

Lemma assert_chart_config_supported_part (d : drawer) (chart_config : dict) :
  assert_chart_config (supported_part d chart_config)
    (supported_chart_config d) = ([], Ok tt).
Proof.
  rewrite assert_chart_config_spec. f_equal.
  unfold supported_part.
  induction chart_config as [|[k v] rest IH]; [reflexivity|].
  cbn [List.filter fst].
  destruct (bool_decide (k ∈ supported_chart_config d)) eqn:Hk; [|exact IH].
  cbn [List.filter]. unfold warned at 1. cbn [fst snd]. rewrite Hk.
  cbn [negb andb]. exact IH.
Qed.

Local Ltac to_given_config d cc :=
  repeat match goal with
         | |- context [dict_getitem (supported_part d cc) ?k] =>
             rewrite (dict_getitem_supported_part d cc k
                        ltac:(vm_compute; reflexivity))
         | |- context [dict_get (supported_part d cc) ?k ?v] =>
             rewrite (dict_get_supported_part d cc k v
                        ltac:(vm_compute; reflexivity))
         end.

Section DrawersIgnore.
Context `{PyRuntime} `{LineRuntime} `{BarRuntime}.

Lemma run_drawer_check_first (d : drawer) (cfg : gmap string pyval)
    (axes : list nat) (charts : list dict) (chart_config : dict) :
  calls (run_drawer d cfg axes charts chart_config)
  = map Logged (trace (assert_chart_config chart_config
                         (supported_chart_config d)))
    ++ calls (run_drawer d cfg axes charts (supported_part d chart_config))
  /\ result (run_drawer d cfg axes charts chart_config)
     = result (run_drawer d cfg axes charts (supported_part d chart_config)).
Proof.
  destruct d; cbn [run_drawer].
  - unfold draw_line_chart.
    rewrite !calls_bind, !result_bind.
    rewrite (assert_chart_config_supported_part LineChart).
    rewrite assert_chart_config_spec.
    cbn [logged trace outcome calls result fst snd map app].
    unfold draw_line_series.
    to_given_config LineChart chart_config. done.
  - unfold draw_bar_chart.
    rewrite !calls_bind, !result_bind.
    rewrite (assert_chart_config_supported_part BarChart).
    rewrite assert_chart_config_spec.
    cbn [logged trace outcome calls result fst snd map app].
    unfold draw_bar_series, update_group_bar_labels, is_horizontal_bar.
    to_given_config BarChart chart_config. done.
  - unfold draw_hist_chart.
    unfold logged. cbn [calls result fst snd].
    rewrite !trace_bind, !outcome_bind.
    rewrite (assert_chart_config_supported_part HistChart).
    rewrite assert_chart_config_spec.
    cbn [trace outcome fst snd map app].
    unfold draw_hist_subplot.
    to_given_config HistChart chart_config.
    rewrite ?map_app. done.
Qed.

(** C8 (as amended).  For every drawer and every drawing configuration the
    check returns without raising, and it emits one warning for each entry
    whose key is outside the drawer's supported set and whose value is
    truthy, in the order of the entries, and no other; an unsupported key
    with a falsy value (None, False, 0, an empty string or container)
    passes silently.  Warned about or not, an unsupported key is ignored
    and drawing proceeds: the run of the drawer is the warnings of the
    check followed by the run on the configuration without its unsupported
    keys, with the same result.  The check only reads the mapping. *)
Theorem assert_chart_config_warnings (d : drawer) (chart_config : dict) :
  outcome (assert_chart_config chart_config (supported_chart_config d)) = Ok tt
  /\ trace (assert_chart_config chart_config (supported_chart_config d))
     = map (fun item => Warn (unsupported_msg item.1))
         (List.filter (warned (supported_chart_config d)) chart_config)
  /\ (forall key val, In (key, val) chart_config ->
        ~ In key (supported_chart_config d) -> truthy val = true ->
        In (Warn (unsupported_msg key))
           (trace (assert_chart_config chart_config
                     (supported_chart_config d))))
  /\ (forall cfg axes charts,
        calls (run_drawer d cfg axes charts chart_config)
        = map Logged (trace (assert_chart_config chart_config
                               (supported_chart_config d)))
          ++ calls (run_drawer d cfg axes charts
                      (supported_part d chart_config))
        /\ result (run_drawer d cfg axes charts chart_config)
           = result (run_drawer d cfg axes charts
                       (supported_part d chart_config))).
Proof.
  split_and!.
  - by rewrite assert_chart_config_spec.
  - by rewrite assert_chart_config_spec.
  - rewrite assert_chart_config_spec. cbn [trace fst].
    intros key val Hin Hns Ht. apply in_map_iff.
    exists (key, val). split; [done|].
    apply filter_In. split; [done|]. unfold warned. cbn [fst snd].
    rewrite Ht, andb_true_r. apply negb_true_iff, bool_decide_eq_false.
    by rewrite list_elem_of_In.
  - intros cfg axes charts. apply run_drawer_check_first.
Qed.

End DrawersIgnore.

Lemma assert_chart_config_warnings_witness :
  In (Warn (unsupported_msg "area"))
     (trace (assert_chart_config sample_unsupported_config
               (supported_chart_config HistChart)))
  /\ calls (run_drawer (H := sample_runtime) (H0 := sample_line_runtime)
              (H1 := sample_bar_runtime) HistChart sample_config [0%nat]
              sample_charts sample_unsupported_config)
     = map Logged (trace (assert_chart_config sample_unsupported_config
                            (supported_chart_config HistChart)))
       ++ calls (run_drawer (H := sample_runtime) (H0 := sample_line_runtime)
                   (H1 := sample_bar_runtime) HistChart sample_config
                   [0%nat] sample_charts
                   (supported_part HistChart sample_unsupported_config)).
Proof.
  split.
  - refine (proj1 (proj2 (proj2
              (assert_chart_config_warnings (H := sample_runtime)
                 (H0 := sample_line_runtime) (H1 := sample_bar_runtime)
                 HistChart sample_unsupported_config)))
              "area" (PBool true) _ _ eq_refl).
    + right. right. left. reflexivity.
    + cbn. intros [Hk|[Hk|[Hk|[Hk|[]]]]]; discriminate.
  - exact (proj1 (proj2 (proj2 (proj2
             (assert_chart_config_warnings (H := sample_runtime)
                (H0 := sample_line_runtime) (H1 := sample_bar_runtime)
                HistChart sample_unsupported_config)))
             sample_config [0%nat] sample_charts)).
Defined.

Example sample_unsupported_key_run :
  supported_part HistChart sample_unsupported_config = sample_chart_config
  /\ calls (run_drawer (H := sample_runtime) (H0 := sample_line_runtime)
              (H1 := sample_bar_runtime) HistChart sample_config [0%nat]
              sample_charts sample_unsupported_config)
     = [ Logged (Warn (unsupported_msg "area"));
         Logged (Hist 0 (AllSeries [Raw (PList [PInt 1; PInt 2; PInt 2]);
                                    Raw (PList [PInt 3])])
                   (NdArray [PInt 0; PInt 1; PInt 2]) None None
                   (PStr "vertical") true sample_hist_kwargs) ].
Proof. split; vm_compute; reflexivity. Qed.

(** ** Sample runs of the configurators and drawers *)

Local Ltac find_call :=
  apply list_elem_of_In; vm_compute;
  repeat (first [left; reflexivity | right]).

Lemma style_builder_missing_path_witness :
  build_style SrcCopy LineStyle sample_grid_config sample_grid_style
  = Raise (KeyError "plot.line.color").
Proof.
  exact (proj2 (proj2 (style_builder_missing_path SrcCopy LineStyle
                         sample_grid_config ∅))
           sample_grid_style (KeyError "plot.line.color") eq_refl).
Defined.

Lemma style_builder_precedence_witness :
  (forall key attr, (key, attr) ∈ declared_attrs SrcCopy GridStyle ->
     exists dv, sample_grid_config !! attr = Some dv
       /\ sample_grid_kwargs !! key
          = match style_argument GridStyle sample_grid_override !! attr with
            | Some PNone => None
            | Some v => Some v
            | None => if is_none dv then None else Some dv
            end)
  /\ (forall key, key ∉ (declared_attrs SrcCopy GridStyle).*1 ->
        sample_grid_kwargs !! key = None).
Proof.
  apply (style_builder_precedence SrcCopy GridStyle sample_grid_config
           sample_grid_override sample_grid_kwargs).
  vm_compute. reflexivity.
Defined.

Lemma configure_axes_spines_calls_witness :
  configure_axes_spines sample_axes_config 0
  = (AxisOn 0
     :: map (fun s => SpineSet 0 s (PInt 1)
                        (default PNone
                           (sample_axes_config !! spine_visible_key s))
                        (PInt 2))
          spine_names,
     Ok tt).
Proof.
  refine (proj1 (configure_axes_spines_calls sample_axes_config 0)
            (PInt 1) (PInt 2) eq_refl eq_refl _).
  intros s Hs. unfold spine_names in Hs.
  repeat (apply elem_of_cons in Hs as [->|Hs]; [by eexists|]).
  by apply elem_of_nil in Hs.
Defined.

Lemma configure_axis_ticks_style_calls_witness :
  configure_axis_ticks_style sample_axes_config 0 "xaxis"
  = ([SetTickParams 0 "xaxis" "major" (PInt 1) (PInt 4) (PInt 10)], Ok tt).
Proof.
  refine (proj1 (proj1 (configure_axis_ticks_style_calls sample_axes_config 0
                          "xaxis") _)
            (PInt 1) (PInt 4) (PInt 10) eq_refl eq_refl eq_refl).
  apply list_elem_of_here.
Defined.

Lemma configure_axis_limits_calls_witness :
  configure_axis_limits 0 (PInt 1, PInt 9) (PInt 2, PInt 8) sample_limits
  = ([SetXLim 0 (PInt 0) (PInt 9)] ++ [], Ok tt).
Proof.
  exact (proj1 (configure_axis_limits_calls 0 (PInt 1, PInt 9)
                  (PInt 2, PInt 8) sample_limits)
           (PInt 0) PNone PNone PNone eq_refl eq_refl eq_refl eq_refl).
Defined.

Lemma tick_setters_get_matching_labels_witness :
  outcome (configure_axis_ticks_position 0 sample_ticks_chart) = Ok tt.
Proof.
  refine (proj2 (proj2 (tick_setters_get_matching_labels 0
                          sample_ticks_chart)) _).
  intros k v Hk.
  repeat (apply elem_of_cons in Hk as [->|Hk];
          [vm_compute; intros [= <-]; first [by left|right; by eexists]|]).
  by apply elem_of_nil in Hk.
Defined.

Example sample_wrapper_hist_run :
  draw_hist_chart (H := sample_runtime) sample_config [0%nat] sample_charts
    (wrapper_chart_config [("n_bins", PInt 2)])
  = ([Hist 0 (AllSeries [Raw (PList [PInt 1; PInt 2; PInt 2]);
                         Raw (PList [PInt 3])])
        (NdArray [PInt 0; PInt 1; PInt 2]) None None PNone true
        sample_hist_kwargs], Ok tt).
Proof. vm_compute. reflexivity. Qed.

Lemma wrapper_overrides_hist_defaults_witness :
  PNone = dict_get [("n_bins", PInt 2)] "orientation" PNone
  /\ exists x_all stacked_x h,
       res_mapM (get_chart_data (H := sample_runtime) "x") sample_charts
       = Ok x_all
       /\ np_hstack (PyRuntime := sample_runtime) x_all = Ok stacked_x
       /\ np_histogram (PyRuntime := sample_runtime) stacked_x
            (dict_get [("n_bins", PInt 2)] "n_bins" PNone) = Ok h
       /\ NdArray [PInt 0; PInt 1; PInt 2] = h.2.
Proof.
  apply (wrapper_overrides_hist_defaults (H := sample_runtime) sample_config
           [0%nat] sample_charts [("n_bins", PInt 2)] 0%nat
           (AllSeries [Raw (PList [PInt 1; PInt 2; PInt 2]);
                       Raw (PList [PInt 3])])
           _ None None PNone true sample_hist_kwargs).
  rewrite sample_wrapper_hist_run. apply list_elem_of_here.
Defined.

Lemma hist_shared_axis_one_call_witness :
  exists ax0 rest_axes x_all bins kwargs,
    [0%nat; 1%nat] = ax0 :: rest_axes
    /\ res_mapM (get_chart_data (H := sample_runtime) "x") sample_charts
       = Ok x_all
    /\ hist_calls (trace (draw_hist_chart (H := sample_runtime) sample_config
                            [0%nat; 1%nat] sample_charts sample_chart_config))
       = [Hist ax0 (AllSeries x_all) bins None None
            (dict_get sample_chart_config "orientation" (PStr "vertical"))
            true kwargs].
Proof.
  apply (hist_shared_axis_one_call (H := sample_runtime) sample_config
           [0%nat; 1%nat] sample_charts sample_chart_config (PBool false)
           eq_refl eq_refl).
  vm_compute. reflexivity.
Defined.

Lemma hist_subplot_calls_in_order_witness :
  Forall2 (fun ev item =>
             exists x density cumulative bins kwargs,
               ev = Hist item.2 (OneSeries x) bins (Some density)
                      (Some cumulative)
                      (dict_get sample_subplot_config "orientation"
                         (PStr "vertical"))
                      false kwargs
               /\ get_chart_data (H := sample_runtime) "x" item.1 = Ok x
               /\ get_chart_data (H := sample_runtime) "density" item.1
                  = Ok density
               /\ get_chart_data (H := sample_runtime) "cumulative" item.1
                  = Ok cumulative)
    (hist_calls (trace (draw_hist_chart (H := sample_runtime)
                          sample_line_config [0%nat; 1%nat] sample_charts
                          sample_subplot_config)))
    (zip sample_charts [0%nat; 1%nat]).
Proof.
  apply (hist_subplot_calls_in_order (H := sample_runtime) sample_line_config
           [0%nat; 1%nat] sample_charts sample_subplot_config (PBool true)
           eq_refl eq_refl).
  vm_compute. reflexivity.
Defined.

Lemma hist_grid_calls_witness :
  dict_getitem sample_subplot_config "grid" = Ok (PStr "both")
  /\ truthy (PStr "both") = true
  /\ 1%nat ∈ [0%nat; 1%nat]
  /\ exists chart,
       chart ∈ sample_charts
       /\ get_grid_style sample_line_config (list_to_map chart)
          = Ok sample_grid_defaults
       /\ ((forall key attr, (key, attr) ∈ grid_attrs ->
              dict_lookup attr chart = None) ->
           get_grid_style sample_line_config ∅ = Ok sample_grid_defaults).
Proof.
  apply (hist_grid_calls (H := sample_runtime) sample_line_config
           [0%nat; 1%nat] sample_charts sample_subplot_config 1%nat
           (PStr "both") sample_grid_defaults).
  find_call.
Defined.

Lemma draw_line_chart_plots_witness :
  Forall2 (fun c item =>
             exists x y line_config,
               c = Plot item.2 x y line_config
               /\ get_chart_data (H := sample_runtime) "x" item.1 = Ok x
               /\ get_chart_data (H := sample_runtime) "y" item.1 = Ok y)
    (List.filter is_plot
       (calls (draw_line_chart (H := sample_runtime)
                 (H0 := sample_line_runtime) sample_line_config [0%nat]
                 [sample_line_chart] sample_line_chart_config)))
    (zip [sample_line_chart] [0%nat]).
Proof.
  apply (draw_line_chart_plots (H := sample_runtime)
           (H0 := sample_line_runtime) sample_line_config [0%nat]
           [sample_line_chart] sample_line_chart_config).
  vm_compute. reflexivity.
Defined.

Lemma line_error_band_conditions_witness :
  @None pyval = None
  /\ exists chart y a show_yerr,
       (chart, 0%nat) ∈ zip [sample_line_chart] [0%nat]
       /\ dict_getitem sample_line_chart_config "yerr" = Ok show_yerr
       /\ truthy show_yerr = true
       /\ get_chart_data (H := sample_runtime) "x" chart
          = Ok (Arr (NdArray [PInt 1; PInt 2]))
       /\ get_chart_data (H := sample_runtime) "y" chart = Ok y
       /\ get_chart_data (H := sample_runtime) "yerr" chart = Ok (Arr a)
       /\ np_len y = Ok (Z.of_nat (length (nd_items a)))
       /\ np_sub (LineRuntime := sample_line_runtime) y (Arr a)
          = Ok (Arr (NdArray [PInt 4; PInt 5]))
       /\ np_add (LineRuntime := sample_line_runtime) y (Arr a)
          = Ok (Arr (NdArray [PInt 6; PInt 9])).
Proof.
  apply (line_error_band_conditions (H := sample_runtime)
           (H0 := sample_line_runtime) sample_line_config [0%nat]
           [sample_line_chart] sample_line_chart_config 0%nat
           (Arr (NdArray [PInt 1; PInt 2])) (Arr (NdArray [PInt 4; PInt 5]))
           (Arr (NdArray [PInt 6; PInt 9])) None sample_area_kwargs).
  find_call.
Defined.

Lemma line_area_needs_drawstyle_witness :
  draw_line_series (H := sample_runtime) (H0 := sample_line_runtime)
    sample_line_config sample_area_chart_config
    [PList [PStr "tab"; PInt 0]] (sample_line_chart, 0%nat)
  = ([], Raise (KeyError "drawstyle")).
Proof.
  apply (line_area_needs_drawstyle (H := sample_runtime)
           (H0 := sample_line_runtime) sample_line_config
           sample_area_chart_config [PList [PStr "tab"; PInt 0]]
           [PList [PStr "tab"; PInt 0]] sample_line_chart 0%nat
           (Arr (NdArray [PInt 1; PInt 2])) (Arr (NdArray [PInt 5; PInt 7]))
           (Arr (NdArray [PInt 1; PInt 2])) PNone (PBool true)
           (list_to_map [ ("color", PList [PStr "tab"; PInt 0]);
                          ("alpha", PInt 1); ("zorder", PInt 2);
                          ("linewidth", PInt 2); ("linestyle", PStr "-") ])
           sample_area_kwargs);
    vm_compute; reflexivity.
Defined.

Lemma draw_bar_chart_needs_labels_witness :
  draw_bar_chart (H := sample_runtime) (H0 := sample_bar_runtime)
    sample_line_config [0%nat] [sample_spec] sample_bar_chart_config
  = (map Logged (trace (assert_chart_config sample_bar_chart_config
                          (supported_chart_config BarChart))),
     Raise TypeError).
Proof.
  exact (proj2 (draw_bar_chart_needs_labels (H := sample_runtime)
                  (H0 := sample_bar_runtime) sample_line_config [0%nat]
                  sample_bar_chart_config)
           sample_spec [] eq_refl).
Defined.

Lemma bar_tick_label_rotation_witness :
  is_horizontal_bar sample_bar_subplot_config = false
  /\ exists chart as_subplots n,
       (chart, 1%nat) ∈ zip sample_bar_charts [0%nat; 1%nat]
       /\ get_chart_data (H := sample_runtime) "label" chart
          = Ok (Arr (NdArray [PStr "a"; PStr "b"]))
       /\ np_len (Arr (NdArray [PStr "a"; PStr "b"])) = Ok n
       /\ dict_getitem sample_bar_subplot_config "as_subplots"
          = Ok as_subplots
       /\ 0 = (if truthy as_subplots
               then if 7 <=? n then 90 else if 4 <=? n then 45 else 0
               else 0).
Proof.
  apply (bar_tick_label_rotation (H := sample_runtime)
           (H0 := sample_bar_runtime) sample_line_config [0%nat; 1%nat]
           sample_bar_charts sample_bar_subplot_config 1%nat
           (Arr (NdArray [PStr "a"; PStr "b"])) 0).
  find_call.
Defined.

Lemma draw_bar_chart_bars_witness :
  exists width x_width as_subplots,
    sample_line_config !! "plot.bar.width" = Some width
    /\ num_div_int (BarRuntime := sample_bar_runtime) width
         (Z.of_nat (length sample_bar_charts)) = Ok x_width
    /\ dict_getitem sample_bar_chart_config "as_subplots" = Ok as_subplots
    /\ length (List.filter is_bar
                 (calls (draw_bar_chart (H := sample_runtime)
                           (H0 := sample_bar_runtime) sample_line_config
                           [0%nat; 0%nat] sample_bar_charts
                           sample_bar_chart_config)))
       = length (zip sample_bar_charts [0%nat; 0%nat])
    /\ forall i chart ax,
         zip sample_bar_charts [0%nat; 0%nat] !! i = Some (chart, ax) ->
         exists x y labels yerr show_yerr offset n kwargs,
           List.filter is_bar
             (calls (draw_bar_chart (H := sample_runtime)
                       (H0 := sample_bar_runtime) sample_line_config
                       [0%nat; 0%nat] sample_bar_charts
                       sample_bar_chart_config)) !! i
           = Some (Bar ax (is_horizontal_bar sample_bar_chart_config) x y
                     labels
                     (if is_horizontal_bar sample_bar_chart_config
                      then "xerr" else "yerr")
                     (if truthy show_yerr then yerr else Raw PNone) kwargs)
           /\ get_chart_data (H := sample_runtime) "y" chart = Ok y
           /\ get_chart_data (H := sample_runtime) "yerr" chart = Ok yerr
           /\ get_chart_data (H := sample_runtime) "label" chart = Ok labels
           /\ np_len labels = Ok n
           /\ dict_getitem sample_bar_chart_config "yerr" = Ok show_yerr
           /\ np_shift (BarRuntime := sample_bar_runtime) (np_arange n) offset
              = Ok x
           /\ if truthy as_subplots then offset = PInt 0
              else int_mul_num (BarRuntime := sample_bar_runtime)
                     (Z.of_nat i) x_width = Ok offset
                   /\ kwargs !! (if is_horizontal_bar sample_bar_chart_config
                                 then "height" else "width")
                      = Some x_width.
Proof.
  apply (draw_bar_chart_bars (H := sample_runtime) (H0 := sample_bar_runtime)
           sample_line_config [0%nat; 0%nat] sample_bar_charts
           sample_bar_chart_config).
  vm_compute. reflexivity.
Defined.

Lemma line_xlim_from_own_data_witness :
  exists chart x,
    (chart, 0%nat) ∈ zip [sample_line_chart] [0%nat]
    /\ get_chart_data (H := sample_runtime) "x" chart = Ok x
    /\ get_min_max_values (LineRuntime := sample_line_runtime) x
       = Ok (PInt 1, PInt 2).
Proof.
  apply (line_xlim_from_own_data (H := sample_runtime)
           (H0 := sample_line_runtime) sample_line_config [0%nat]
           [sample_line_chart] sample_line_chart_config 0%nat
           (PInt 1) (PInt 2)).
  find_call.
Defined.

Lemma bar_axis_labels_follow_orientation_witness :
  exists chart attr,
    (chart, 0%nat) ∈ zip [sample_labelled_bar_chart] [0%nat]
    /\ dict_lookup attr chart = Some (PStr "count")
    /\ get_text_style sample_line_config "xlabel"
       = get_text_style sample_line_config attr
    /\ (attr = "subtitle" /\ "set_ylabel" = "set_title"
        \/ attr = "xlabel"
           /\ "set_ylabel" = (if is_horizontal_bar sample_horizontal_bar_config
                              then "set_ylabel" else "set_xlabel")
        \/ attr = "ylabel"
           /\ "set_ylabel" = (if is_horizontal_bar sample_horizontal_bar_config
                              then "set_xlabel" else "set_ylabel")).
Proof.
  apply (bar_axis_labels_follow_orientation (H := sample_runtime)
           (H0 := sample_bar_runtime) sample_line_config [0%nat]
           [sample_labelled_bar_chart] sample_horizontal_bar_config 0%nat
           "set_ylabel" (PStr "count")
           (get_text_style sample_line_config "xlabel")).
  find_call.
Defined.

Lemma bar_zero_bound_witness :
  exists ax0,
    head [0%nat; 0%nat] = Some ax0
    /\ last (calls (draw_bar_chart (H := sample_runtime)
                      (H0 := sample_bar_runtime) sample_line_config
                      [0%nat; 0%nat] sample_bar_charts
                      sample_bar_chart_config))
       = Some (ZeroBound ax0 (is_horizontal_bar sample_bar_chart_config)).
Proof.
  apply (proj2 (bar_zero_bound (H := sample_runtime)
                  (H0 := sample_bar_runtime) sample_line_config
                  [0%nat; 0%nat] sample_bar_charts sample_bar_chart_config)
           (PBool false)); vm_compute; reflexivity.
Defined.
